(** * Binding generator: schema model, wire lengths and Java emission

    A shallow embedding of [common.py] (type sizes, [Packet], [Device],
    file headers, [generate]) and of the parts of
    [java/generate_java_bindings.py] that emit the import header, the
    response-expected table and the request and response marshalling
    statements, together with the properties stated about them.

    Conventions of the embedding:
    - Python [str] values are [string]; Python [int]s are [Z].
    - A raised exception is a value of [exn]; a call that may raise returns
      [res A].
    - Packet records are Python dicts that are shared and mutated in place
      ([Device.__init__] stores ['function_id'] into them), so they live in
      a [heap] indexed by references [loc]; every list of packets is a list
      of references.
    - Element records are Python tuples (immutable) and are kept by value.
    - The clock and the directory listing are arguments of the functions
      that read them. *)

From Stdlib Require Import ZArith String Ascii List Lia DecimalString.
From stdpp Require Import base decidable option list strings gmap.

Local Open Scope Z_scope.
Local Open Scope string_scope.

(** ** Python exceptions and results *)

Inductive exn : Type :=
| ValueError (msg : string)
| KeyError (key : string)
| TypeError (msg : string)
| NameError (name : string)
| ImportError (name : string).

Inductive res (A : Type) : Type :=
| Ok (a : A)
| Raise (e : exn).

Arguments Ok {A} a.
Arguments Raise {A} e.

(** Sequencing: the first exception raised ends the computation. *)
#[global] Instance res_ret : MRet res := fun _ a => Ok a.
#[global] Instance res_bind : MBind res := fun _ _ k r =>
  match r with
  | Ok a => k a
  | Raise e => Raise e
  end.

Definition is_ValueError (e : exn) : bool :=
  match e with
  | ValueError _ => true
  | _ => false
  end.

(** ** The string methods the generator relies on *)

Module Py.

(** [c.lower()] and [c.upper()] on one byte: only ASCII letters move. *)
Definition lower_ascii (c : ascii) : ascii :=
  let n := nat_of_ascii c in
  if ((65 <=? n)%nat && (n <=? 90)%nat)%bool then ascii_of_nat (n + 32) else c.

Definition upper_ascii (c : ascii) : ascii :=
  let n := nat_of_ascii c in
  if ((97 <=? n)%nat && (n <=? 122)%nat)%bool then ascii_of_nat (n - 32) else c.

Fixpoint lower (s : string) : string :=
  match s with
  | EmptyString => EmptyString
  | String c s' => String (lower_ascii c) (lower s')
  end.

Fixpoint upper (s : string) : string :=
  match s with
  | EmptyString => EmptyString
  | String c s' => String (upper_ascii c) (upper s')
  end.

(** [s.startswith(p)] *)
Fixpoint startswith (p s : string) : bool :=
  match p, s with
  | EmptyString, _ => true
  | String a p', String b s' => (Ascii.eqb a b && startswith p' s')%bool
  | String _ _, EmptyString => false
  end.

(** [s.replace(old, new)] for a non-empty [old]: the occurrences of [old]
    are found left to right without overlap.  [skip] counts the characters
    of a match that are still to be dropped. *)
Fixpoint replace_from (old new : string) (skip : nat) (s : string) : string :=
  match s with
  | EmptyString => EmptyString
  | String c s' =>
      match skip with
      | S k => replace_from old new k s'
      | O =>
          if startswith old s
          then new ++ replace_from old new (String.length old - 1) s'
          else String c (replace_from old new O s')
      end
  end.

(** With an empty [old], Python puts [new] before every character and at
    the end. *)
Fixpoint intersperse (new s : string) : string :=
  match s with
  | EmptyString => new
  | String c s' => new ++ String c (intersperse new s')
  end.

Definition replace (old new s : string) : string :=
  match old with
  | EmptyString => intersperse new s
  | String _ _ => replace_from old new O s
  end.

(** [p in s] for strings: [p] occurs somewhere in [s]. *)
Fixpoint contains (p s : string) : bool :=
  match s with
  | EmptyString => startswith p EmptyString
  | String _ s' => (startswith p s || contains p s')%bool
  end.

(** [s.endswith(p)] *)
Definition endswith (p s : string) : bool :=
  let n := String.length s in
  let m := String.length p in
  ((m <=? n)%nat && String.eqb (String.substring (n - m) m s) p)%bool.

(** [s[:-k]] for [k > 0] *)
Definition drop_last (k : nat) (s : string) : string :=
  String.substring 0 (String.length s - k) s.

(** ['sep'.join(l)] *)
Fixpoint join (sep : string) (l : list string) : string :=
  match l with
  | nil => EmptyString
  | x :: nil => x
  | x :: l' => x ++ sep ++ join sep l'
  end.

End Py.

(** ** common.py *)

Module Common.

(** *** Type sizes *)

(** The [types] dict of [get_type_size]. *)
Definition types : gmap string Z :=
  list_to_map
    [ ("int8", 1); ("uint8", 1); ("int16", 2); ("uint16", 2);
      ("int32", 4); ("uint32", 4); ("int64", 8); ("uint64", 8);
      ("float", 4); ("bool", 1); ("string", 1); ("char", 1) ].

(** [types[typ]]: a missing key raises [KeyError]. *)
Definition get_type_size (typ : string) : res Z :=
  match types !! typ with
  | Some n => Ok n
  | None => Raise (KeyError typ)
  end.

(** An element is the tuple [(name, type, cardinality, direction)]. *)
Record element : Type := Element {
  el_name : string;
  el_type : string;
  el_cardinality : Z;
  el_direction : string
}.

Definition get_element_size (e : element) : res Z :=
  w ← get_type_size (el_type e); Ok (w * el_cardinality e).

(** *** Packet records and the store they live in *)

(** A reference to a packet dict. *)
Definition loc := nat.

(** The keys of a packet dict that the generator reads: ['type'],
    ['name'] (camel-case and underscore spelling), ['elements'], the tag
    ['doc'][0] and, when present, ['function_id'].  The documentation
    text ['doc'][1] and ['since_firmware'] play no role here. *)
Record packet_dict : Type := PacketDict {
  p_type : string;
  p_name : string * string;
  p_elements : list element;
  p_doc_tag : string;
  p_function_id : option Z
}.

(** Every reference denotes a dict: Python has no dangling references. *)
Definition heap := loc -> packet_dict.

(** [packet['function_id'] = v] *)
Definition set_function_id (v : Z) (d : packet_dict) : packet_dict :=
  {| p_type := p_type d; p_name := p_name d; p_elements := p_elements d;
     p_doc_tag := p_doc_tag d; p_function_id := Some v |}.

Definition store (h : heap) (l : loc) (d : packet_dict) : heap :=
  fun l' => if Nat.eqb l' l then d else h l'.

(** *** class Packet *)

Record Packet : Type := MkPacket {
  packet : loc;
  all_elements : list element;
  in_elements : list element;
  out_elements : list element
}.

(** The loop over [all_elements] in [Packet.__init__]; [ins] and [outs]
    are [self.in_elements] and [self.out_elements] so far. *)
Fixpoint split_elements (es ins outs : list element)
  : res (list element * list element) :=
  match es with
  | [] => Ok (ins, outs)
  | e :: es' =>
      if String.eqb (el_direction e) "in" then split_elements es' (ins ++ [e]) outs
      else if String.eqb (el_direction e) "out" then split_elements es' ins (outs ++ [e])
      else Raise (ValueError ("Invalid element direction " ++ el_direction e))
  end.

(** The casing check of [Packet.__init__]:
    [name[0].lower() != name[1].replace('_', '')]. *)
Definition name_mismatch (d : packet_dict) : bool :=
  negb (String.eqb (Py.lower (fst (p_name d))) (Py.replace "_" EmptyString (snd (p_name d)))).

Definition Packet_init (h : heap) (l : loc) : res Packet :=
  let d := h l in
  if name_mismatch d
  then Raise (ValueError ("Name mismatch: " ++ fst (p_name d) ++ " != " ++ snd (p_name d)))
  else
    io ← split_elements (p_elements d) [] [];
    Ok {| packet := l; all_elements := p_elements d;
          in_elements := fst io; out_elements := snd io |}.

Definition get_type (h : heap) (p : Packet) : string := p_type (h (packet p)).

Definition get_camel_case_name (h : heap) (p : Packet) : string :=
  fst (p_name (h (packet p))).

Definition get_underscore_name (h : heap) (p : Packet) : string :=
  snd (p_name (h (packet p))).

Definition get_upper_case_name (h : heap) (p : Packet) : string :=
  Py.upper (snd (p_name (h (packet p)))).

(** [direction] is [None] or a string. *)
Definition get_elements (p : Packet) (direction : option string) : res (list element) :=
  match direction with
  | None => Ok (all_elements p)
  | Some s =>
      if String.eqb s "in" then Ok (in_elements p)
      else if String.eqb s "out" then Ok (out_elements p)
      else Raise (ValueError ("Invalid element direction " ++ s))
  end.

(** [self.packet['doc']], of which only the tag is kept. *)
Definition get_doc (h : heap) (p : Packet) : string := p_doc_tag (h (packet p)).

Definition get_function_id (h : heap) (p : Packet) : res Z :=
  match p_function_id (h (packet p)) with
  | Some v => Ok v
  | None => Raise (KeyError "function_id")
  end.

(** The accumulating loops of [get_request_length] and
    [get_response_length]. *)
Fixpoint add_sizes (length : Z) (es : list element) : res Z :=
  match es with
  | [] => Ok length
  | e :: es' => n ← get_element_size e; add_sizes (length + n) es'
  end.

Definition get_request_length (p : Packet) : res Z := add_sizes 4 (in_elements p).

Definition get_response_length (p : Packet) : res Z := add_sizes 4 (out_elements p).

(** *** class Device *)

(** The keys of the [com] dict that matter: ['name'], ['category'],
    ['packets'] and whether ['common_included'] is present. *)
Record com_dict : Type := ComDict {
  com_name : string * string * string;
  com_category : string;
  com_packets : list loc;
  com_common_included : bool
}.

Record Device : Type := MkDevice {
  com : com_dict;
  all_packets : list Packet;
  function_packets : list Packet;
  callback_packets : list Packet
}.

(** The first loop of [Device.__init__]: [i] is the index of the head of
    [ps]; a record without ['function_id'] gets [i + 1] stored into it
    before its [Packet] is built. *)
Fixpoint build_packets (h : heap) (i : Z) (ps : list loc) (acc : list Packet)
  : heap * res (list Packet) :=
  match ps with
  | [] => (h, Ok acc)
  | l :: ps' =>
      let h1 :=
        match p_function_id (h l) with
        | None => store h l (set_function_id (i + 1) (h l))
        | Some _ => h
        end in
      match Packet_init h1 l with
      | Raise e => (h1, Raise e)
      | Ok p => build_packets h1 (i + 1) ps' (acc ++ [p])
      end
  end.

(** The second loop: sort the packets by their ['type']. *)
Fixpoint sort_packets (h : heap) (ps fs cs : list Packet)
  : res (list Packet * list Packet) :=
  match ps with
  | [] => Ok (fs, cs)
  | p :: ps' =>
      if String.eqb (get_type h p) "function" then sort_packets h ps' (fs ++ [p]) cs
      else if String.eqb (get_type h p) "callback" then sort_packets h ps' fs (cs ++ [p])
      else Raise (ValueError ("Invalid packet type " ++ get_type h p))
  end.

(** [Device(com)]: the heap after the call and what the call returns. *)
Definition Device_init (h : heap) (c : com_dict) : heap * res Device :=
  match build_packets h 0 (com_packets c) [] with
  | (h', Raise e) => (h', Raise e)
  | (h', Ok ps) =>
      (h', fc ← sort_packets h' ps [] [];
           Ok {| com := c; all_packets := ps;
                 function_packets := fst fc; callback_packets := snd fc |})
  end.

Definition get_category (d : Device) : string := com_category (com d).

(** [typ] is [None] or a string. *)
Definition get_packets (d : Device) (typ : option string) : res (list Packet) :=
  match typ with
  | None => Ok (all_packets d)
  | Some s =>
      if String.eqb s "function" then Ok (function_packets d)
      else if String.eqb s "callback" then Ok (callback_packets d)
      else Raise (ValueError ("Invalid packet type " ++ s))
  end.

Definition get_callback_count (d : Device) : nat := length (callback_packets d).

(** *** File headers *)

Definition nl : string := String (ascii_of_nat 10) EmptyString.
Definition tab : string := String (ascii_of_nat 9) EmptyString.

(** [gen_text_star.format(date, ...)]: the template has the single
    placeholder [{0}]; further arguments are not used. *)
Definition gen_text_star (date : string) : string :=
  "/* ***********************************************************" +:+ nl +:+
  " * This file was automatically generated on " +:+ date +:+ ".      *" +:+ nl +:+
  " *                                                           *" +:+ nl +:+
  " * If you have a bugfix for this file and want to commit it, *" +:+ nl +:+
  " * please fix the bug in the generator. You can find a link  *" +:+ nl +:+
  " * to the generator git on tinkerforge.com                   *" +:+ nl +:+
  " *************************************************************/" +:+ nl.

(** [gen_text_rst.format(date)] *)
Definition gen_text_rst (date : string) : string :=
  ".." +:+ nl +:+
  " #############################################################" +:+ nl +:+
  " # This file was automatically generated on " +:+ date +:+ ".      #" +:+ nl +:+
  " #                                                           #" +:+ nl +:+
  " # If you have a bugfix for this file and want to commit it, #" +:+ nl +:+
  " # please fix the bug in the generator. You can find a link  #" +:+ nl +:+
  " # to the generator git on tinkerforge.com                   #" +:+ nl +:+
  " #############################################################" +:+ nl.

(** What [datetime.datetime.now()] returns, as far as the generator looks
    at it. *)
Record datetime : Type := DateTime { year : nat; month : nat; day : nat }.

Definition decimal (n : nat) : string := NilEmpty.string_of_uint (Nat.to_uint n).

(** [%0kd]: decimal digits, zero-padded on the left to [k] characters. *)
Definition zero_pad (k n : nat) : string :=
  let s := decimal n in
  String.concat EmptyString (repeat "0" (k - String.length s)) +:+ s.

(** [now.strftime("%Y-%m-%d")] *)
Definition strftime_Ymd (now : datetime) : string :=
  zero_pad 4 (year now) +:+ "-" +:+ zero_pad 2 (month now) +:+ "-" +:+ zero_pad 2 (day now).

(** ['='*n] *)
Definition equals_signs (n : nat) : string := String.concat EmptyString (repeat "=" n).

(** [make_rst_header(device, ref_name, title)], with the clock made an
    argument. *)
Definition make_rst_header (now : datetime) (device : Device) (ref_name title : string) : string :=
  let date := strftime_Ymd now in
  let ref := ".. _" +:+ snd (fst (com_name (com device))) +:+ "_" +:+
             Py.lower (get_category device) +:+ "_" +:+ ref_name +:+ ":" +:+ nl in
  let title := title +:+ " - " +:+ snd (com_name (com device)) +:+ " " +:+ get_category device in
  let title_under := equals_signs (String.length title) in
  gen_text_rst date +:+ nl +:+ ref +:+ nl +:+ title +:+ nl +:+ title_under +:+ nl.

(** *** The driver *)

(** What [generate] can reach: the packet dicts, the [com] object of every
    importable config module (by module name; importing twice gives the
    same object) and [brick_commonconfig.common_packets] when that module
    can be imported. *)
Record world : Type := World {
  w_heap : heap;
  w_modules : gmap string com_dict;
  w_common_packets : option (list loc)
}.

(** [l.remove(x)]: drops the first [x]; [ValueError] when there is none. *)
Fixpoint list_remove (x : string) (l : list string) : res (list string) :=
  match l with
  | [] => Raise (ValueError "list.remove(x): x not in list")
  | y :: l' => if String.eqb y x then Ok l' else (r ← list_remove x l'; Ok (y :: r))
  end.

(** [module.com['packets'].extend(common_packets)] followed by
    [module.com['common_included'] = True]. *)
Definition include_common (common_packets : list loc) (c : com_dict) : com_dict :=
  {| com_name := com_name c; com_category := com_category c;
     com_packets := com_packets c ++ common_packets;
     com_common_included := true |}.

Definition set_module (name : string) (c : com_dict) (w : world) : world :=
  {| w_heap := w_heap w; w_modules := <[name := c]> (w_modules w);
     w_common_packets := w_common_packets w |}.

Section Generate.

(** The callback of [generate]: it is handed the [com] object of a module
    (here: the module's name) and may change the world or raise. *)
Variable make_files : string -> world -> world * option exn.

(** The [try] block: a failing [remove] or import leaves
    [common_packets] empty. *)
Definition load_common (configs : list string) (w : world) : list string * list loc :=
  match list_remove "brick_commonconfig.py" configs with
  | Raise _ => (configs, [])
  | Ok configs' =>
      match w_common_packets w with
      | Some cp => (configs', cp)
      | None => (configs', [])
      end
  end.

(** The [for config in configs] loop: the world at the end and the
    exception that ended it, if any. *)
Fixpoint run_configs (common_packets : list loc) (configs : list string) (w : world)
  : world * option exn :=
  match configs with
  | [] => (w, None)
  | config :: rest =>
      if Py.endswith "_config.py" config then
        let name := Py.drop_last 3 config in
        match w_modules w !! name with
        | None => (w, Some (ImportError name))
        | Some c =>
            let w1 :=
              if (Py.contains "brick_" config && negb (com_common_included c))%bool
              then set_module name (include_common common_packets c) w
              else w in
            match make_files name w1 with
            | (w2, Some e) => (w2, Some e)
            | (w2, None) => run_configs common_packets rest w2
            end
        end
      else run_configs common_packets rest w
  end.

(** [generate(path, make_files)], where [configs] is what
    [os.listdir(path_config)] returns. *)
Definition generate (configs : list string) (w : world) : world * option exn :=
  let '(configs', common_packets) := load_common configs w in
  run_configs common_packets configs' w.

End Generate.

(** A callback in the way the generators use [generate]: build the
    [Device] of the [com] object (the output it then writes is left
    out). *)
Definition make_files_device (name : string) (w : world) : world * option exn :=
  match w_modules w !! name with
  | None => (w, Some (KeyError name))
  | Some c =>
      let '(h', r) := Device_init (w_heap w) c in
      ({| w_heap := h'; w_modules := w_modules w;
          w_common_packets := w_common_packets w |},
       match r with Ok _ => None | Raise e => Some e end)
  end.

End Common.

(** ** java/generate_java_bindings.py *)

Module Java.

Import Common.

(** The element methods that [java_common.JavaElement] supplies.  Their
    tables are not part of the sources at hand, so the emitted text is
    studied for every choice of them. *)
Class JavaElement : Type := {
  get_headless_camel_case_name : element -> string;
  get_java_type : element -> string;
  get_java_byte_buffer_method_suffix : element -> string;
  get_java_byte_buffer_storage_type : element -> string
}.

(** [str(n)] for an [int] *)
Definition str (n : Z) : string := DecimalString.NilEmpty.string_of_int (Z.to_int n).

(** *** get_java_import *)

(** [include.format(header)] *)
Definition include (header : string) : string :=
  header +:+ nl +:+
  "package com.tinkerforge;" +:+ nl +:+
  nl +:+
  "import java.nio.ByteBuffer;" +:+ nl +:+
  "import java.nio.ByteOrder;" +:+ nl +:+
  "import java.util.concurrent.CopyOnWriteArrayList;" +:+ nl +:+
  "import java.util.Arrays;" +:+ nl +:+
  "import java.util.List;" +:+ nl.

(** [now] is the clock; [version] is what [get_changelog_version] found
    ([None] when the changelog has no version line, in which case
    [*version] cannot be unpacked). *)
Definition get_java_import (now : datetime) (version : option (string * string * string))
  : res string :=
  let date := strftime_Ymd now in
  match version with
  | None => Raise (TypeError "format() argument after * must be a sequence, not NoneType")
  | Some _ => Ok (include (gen_text_star date))
  end.

(** *** get_java_response_expected *)

(** [re.format(name, setto)] *)
Definition re_format (name setto : string) : string :=
  tab +:+ tab +:+ "responseExpected[IPConnection.unsignedByte(" +:+ name +:+ ")] = " +:+
  setto +:+ nl.

Definition function_setto (h : heap) (p : Packet) : res string :=
  outs ← get_elements p (Some "out");
  Ok (if (0 <? length outs)%nat then "RESPONSE_EXPECTED_FLAG_ALWAYS_TRUE;"
      else if String.eqb (get_doc h p) "ccf" then "RESPONSE_EXPECTED_FLAG_TRUE;"
      else "RESPONSE_EXPECTED_FLAG_FALSE;").

Fixpoint functions_loop (h : heap) (ps : list Packet) (acc : string) : res string :=
  match ps with
  | [] => Ok acc
  | p :: ps' =>
      let name_upper := "FUNCTION_" +:+ get_upper_case_name h p in
      setto ← function_setto h p;
      functions_loop h ps' (acc +:+ re_format name_upper setto)
  end.

Fixpoint callbacks_loop (h : heap) (ps : list Packet) (acc : string) : string :=
  match ps with
  | [] => acc
  | p :: ps' =>
      let name_upper := "CALLBACK_" +:+ get_upper_case_name h p in
      let setto := "RESPONSE_EXPECTED_FLAG_ALWAYS_FALSE;" in
      callbacks_loop h ps' (acc +:+ re_format name_upper setto)
  end.

Definition get_java_response_expected (h : heap) (d : Device) : res string :=
  fs ← get_packets d (Some "function");
  acc ← functions_loop h fs EmptyString;
  cs ← get_packets d (Some "callback");
  Ok (callbacks_loop h cs acc).

(** *** The request marshalling of get_java_methods *)

(** [loop.format(count, body)] *)
Definition loop (count body : string) : string :=
  tab +:+ tab +:+ "for(int i = 0; i < " +:+ count +:+ "; i++) {" +:+ nl +:+
  body +:+ nl +:+
  tab +:+ tab +:+ "}" +:+ nl.

(** [string_loop.format(body)] *)
Definition string_loop (body : string) : string :=
  tab +:+ tab +:+ "try {" +:+ nl +:+
  tab +:+ tab +:+ body +:+ nl +:+
  tab +:+ tab +:+ tab +:+ "} catch(Exception e) {" +:+ nl +:+
  tab +:+ tab +:+ tab +:+ tab +:+ "bb.put((byte)0);" +:+ nl +:+
  tab +:+ tab +:+ tab +:+ "}".

(** [bbput.format(suffix, cast, name)] *)
Definition bbput (suffix cast name : string) : string :=
  tab +:+ tab +:+ "bb.put" +:+ suffix +:+ "(" +:+ cast +:+ name +:+ ");".

Section Marshalling.

Context `{JavaElement}.

(** The body of the loop over the in-elements: the text one element adds
    to [bbputs]. *)
Definition bbput_element (e : element) : string :=
  let name := get_headless_camel_case_name e in
  let name := if String.eqb (el_type e) "bool" then "(" +:+ name +:+ " ? 1 : 0)" else name in
  let storage_type := get_java_byte_buffer_storage_type e in
  let cast :=
    if negb (String.eqb storage_type (get_java_type e))
    then "(" +:+ storage_type +:+ ")" else EmptyString in
  let bbput_format := bbput (get_java_byte_buffer_method_suffix e) cast name in
  let bbput_format :=
    if (1 <? el_cardinality e)%Z then
      let body :=
        if String.eqb (el_type e) "string"
        then string_loop (Py.replace ");" ".charAt(i));" bbput_format)
        else Py.replace ");" "[i]);" bbput_format in
      loop (str (el_cardinality e)) (tab +:+ body)
    else bbput_format in
  bbput_format +:+ nl.

Fixpoint bbputs_loop (es : list element) (bbputs : string) : string :=
  match es with
  | [] => bbputs
  | e :: es' => bbputs_loop es' (bbputs +:+ bbput_element e)
  end.

(** The [bbputs] that [get_java_methods] builds for one function packet. *)
Definition get_java_bbputs (p : Packet) : res string :=
  es ← get_elements p (Some "in");
  Ok (bbputs_loop es EmptyString).

(** *** The response unmarshalling of get_java_bbgets *)

(** [bbget_other.format(typ, obj, name, cast, suffix, cast_extra, boolean)] *)
Definition bbget_other (typ obj name cast suffix cast_extra boolean : string) : string :=
  tab +:+ tab +:+ typ +:+ obj +:+ name +:+ " = " +:+ cast +:+ "(bb.get" +:+ suffix +:+
  "()" +:+ cast_extra +:+ ")" +:+ boolean +:+ ";".

(** [bbget_string.format(typ, obj, name, cast, suffix, cast_extra, boolean)] *)
Definition bbget_string (typ obj name cast suffix cast_extra boolean : string) : string :=
  tab +:+ tab +:+ typ +:+ obj +:+ name +:+ " = " +:+ cast +:+ "(bb" +:+ suffix +:+
  cast_extra +:+ ")" +:+ boolean +:+ ";".

(** [new_arr.format(typ, name, count)] *)
Definition new_arr (typ name count : string) : string :=
  typ +:+ "[] " +:+ name +:+ " = new " +:+ typ +:+ "[" +:+ count +:+ "];".

(** The [loop] template of [get_java_bbgets]: [loop.format(count, body, decl)] *)
Definition loop_decl (count body decl : string) : string :=
  tab +:+ tab +:+ decl +:+ "for(int i = 0; i < " +:+ count +:+ "; i++) {" +:+ nl +:+
  body +:+ nl +:+
  tab +:+ tab +:+ "}" +:+ nl.

(** The body of the loop over the out-elements: the text one element adds
    to [bbgets], and the value it leaves in [bbret]. *)
Definition bbget_element (with_obj : bool) (e : element) : string * string :=
  let typ := if negb with_obj then get_java_type e +:+ " " else EmptyString in
  let bbret := get_headless_camel_case_name e in
  let obj := if with_obj then "obj." else EmptyString in
  let '(cast, cast_extra, boolean) :=
    if String.eqb (el_type e) "uint8" then ("IPConnection.unsignedByte", EmptyString, EmptyString)
    else if String.eqb (el_type e) "uint16" then ("IPConnection.unsignedShort", EmptyString, EmptyString)
    else if String.eqb (el_type e) "uint32" then ("IPConnection.unsignedInt", EmptyString, EmptyString)
    else if String.eqb (el_type e) "bool" then (EmptyString, EmptyString, " != 0")
    else if String.eqb (el_type e) "char" then ("(char)", EmptyString, EmptyString)
    else if String.eqb (el_type e) "string"
         then ("IPConnection.string", ", " +:+ str (el_cardinality e), EmptyString)
    else (EmptyString, EmptyString, EmptyString) in
  let format_typ :=
    if (negb (1 <? el_cardinality e)%Z ||
        (String.eqb (el_type e) "string" && negb with_obj))%bool
    then typ else EmptyString in
  let bbget := if String.eqb (el_type e) "string" then bbget_string else bbget_other in
  let bbget_format :=
    bbget format_typ obj bbret cast (get_java_byte_buffer_method_suffix e) cast_extra boolean in
  let bbget_format :=
    if ((1 <? el_cardinality e)%Z && negb (String.eqb (el_type e) "string"))%bool then
      if with_obj then
        loop_decl (str (el_cardinality e))
                  (tab +:+ Py.replace " =" "[i] =" bbget_format) EmptyString
      else
        let arr := new_arr (Py.replace " " EmptyString typ) bbret (str (el_cardinality e)) in
        loop_decl (str (el_cardinality e))
                  (tab +:+ Py.replace " =" "[i] =" bbget_format) (arr +:+ nl +:+ tab +:+ tab)
    else bbget_format in
  (bbget_format +:+ nl, bbret).

(** [bbret] is bound by the loop body only. *)
Fixpoint bbgets_loop (with_obj : bool) (es : list element) (bbgets : string)
    (bbret : option string) : string * option string :=
  match es with
  | [] => (bbgets, bbret)
  | e :: es' =>
      let '(text, name) := bbget_element with_obj e in
      bbgets_loop with_obj es' (bbgets +:+ text) (Some name)
  end.

Definition get_java_bbgets (p : Packet) (with_obj : bool) : res (string * string) :=
  es ← get_elements p (Some "out");
  match bbgets_loop with_obj es EmptyString None with
  | (bbgets, Some bbret) => Ok (bbgets, bbret)
  | (_, None) => Raise (NameError "bbret")
  end.

End Marshalling.

End Java.

Import Common.

(** ** Reference definitions used in the statements *)

(** The width table as a case distinction on the type name. *)
Definition width_table (typ : string) : option Z :=
  if bool_decide (typ ∈ ["int8"; "uint8"; "bool"; "char"; "string"]) then Some 1
  else if bool_decide (typ ∈ ["int16"; "uint16"]) then Some 2
  else if bool_decide (typ ∈ ["int32"; "uint32"; "float"]) then Some 4
  else if bool_decide (typ ∈ ["int64"; "uint64"]) then Some 8
  else None.

Definition is_in (e : element) : bool := String.eqb (el_direction e) "in".
Definition is_out (e : element) : bool := String.eqb (el_direction e) "out".
Definition valid_direction (e : element) : bool := (is_in e || is_out e)%bool.

Definition is_function (h : heap) (p : Packet) : bool :=
  String.eqb (get_type h p) "function".
Definition is_callback (h : heap) (p : Packet) : bool :=
  String.eqb (get_type h p) "callback".

(** The four values of the response-expected flag and their Java names. *)
Inductive response_expected : Type :=
| AlwaysTrue
| ExpectedTrue
| ExpectedFalse
| AlwaysFalse.

Definition flag_text (f : response_expected) : string :=
  match f with
  | AlwaysTrue => "RESPONSE_EXPECTED_FLAG_ALWAYS_TRUE;"
  | ExpectedTrue => "RESPONSE_EXPECTED_FLAG_TRUE;"
  | ExpectedFalse => "RESPONSE_EXPECTED_FLAG_FALSE;"
  | AlwaysFalse => "RESPONSE_EXPECTED_FLAG_ALWAYS_FALSE;"
  end.

(** The flag of a function packet, from whether it has an out-element and
    whether the packet overrides the default. *)
Definition function_flag (has_out override : bool) : response_expected :=
  if has_out then AlwaysTrue
  else if override then ExpectedTrue
  else ExpectedFalse.

(** [s1 + s2 + ...] *)
Definition concat_all (l : list string) : string := foldr String.append EmptyString l.

(** [4 + Σ width(e.type) × e.cardinality] for a given width assignment. *)
Definition frame_length (width : string -> Z) (es : list element) : Z :=
  4 + foldr (fun e s => width (el_type e) * el_cardinality e + s) 0 es.

(** What [Packet(packet)] builds when it returns. *)
Definition packet_of (h : heap) (l : loc) : Packet :=
  {| packet := l; all_elements := p_elements (h l);
     in_elements := List.filter is_in (p_elements (h l));
     out_elements := List.filter is_out (p_elements (h l)) |}.

Definition packet_ok (d : packet_dict) : bool :=
  (negb (name_mismatch d) && forallb valid_direction (p_elements d))%bool.

(** The only write of [Device.__init__]: the record at [l] gets
    ['function_id'] [i + 1] unless it has one. *)
Definition assign_one (h : heap) (i : Z) (l : loc) : heap :=
  match p_function_id (h l) with
  | None => store h l (set_function_id (i + 1) (h l))
  | Some _ => h
  end.

(** The store after the first loop has gone through [ps], starting at
    index [i]. *)
Fixpoint assign_ids (h : heap) (i : Z) (ps : list loc) : heap :=
  match ps with
  | [] => h
  | l :: ps' => assign_ids (assign_one h i l) (i + 1) ps'
  end.

(** Two stores that differ at most in the ['function_id'] entries. *)
Definition same_schema (h h' : heap) : Prop :=
  forall l, p_type (h' l) = p_type (h l) /\ p_name (h' l) = p_name (h l) /\
            p_elements (h' l) = p_elements (h l) /\ p_doc_tag (h' l) = p_doc_tag (h l).

Definition valid_type (h : heap) (p : Packet) : bool := (is_function h p || is_callback h p)%bool.

(** The checks of [Device(com)] as one test on the configuration. *)
Definition names_and_directions_ok (h : heap) (c : com_dict) : bool :=
  forallb (fun l => packet_ok (h l)) (com_packets c).

Definition types_ok (h : heap) (c : com_dict) : bool :=
  forallb (fun l => valid_type h (packet_of h l)) (com_packets c).

(** The device that [Device(com)] builds when it returns. *)
Definition device_of (h : heap) (c : com_dict) : Device :=
  let ps := packet_of h <$> com_packets c in
  {| com := c; all_packets := ps;
     function_packets := List.filter (is_function h) ps;
     callback_packets := List.filter (is_callback h) ps |}.

(** The configurations that [Device(com)] rejects. *)
Definition rejected (h : heap) (c : com_dict) : Prop :=
  exists l, l ∈ com_packets c /\
    (Py.lower (fst (p_name (h l))) <> Py.replace "_" EmptyString (snd (p_name (h l))) \/
     (exists e, e ∈ p_elements (h l) /\ el_direction e <> "in" /\ el_direction e <> "out") \/
     (p_type (h l) <> "function" /\ p_type (h l) <> "callback")).

Definition has_out (p : Packet) : bool := (0 <? length (out_elements p))%nat.

(** The per-packet override: the record of the packet has the tag ['ccf']
    in its ['doc'] entry. *)
Definition overrides (h : heap) (p : Packet) : bool :=
  String.eqb (p_doc_tag (h (packet p))) "ccf".

(** The line of the Java table that sets the entry of the constant
    [constant] to the flag [f]. *)
Definition flag_line (constant : string) (f : response_expected) : string :=
  String (ascii_of_nat 9) (String (ascii_of_nat 9)
    ("responseExpected[IPConnection.unsignedByte(" +:+ constant +:+ ")] = " +:+
     flag_text f +:+ String (ascii_of_nat 10) EmptyString)).

(** The Java constant of a packet: the prefix and the wire name in capital
    letters. *)
Definition constant_name (pre : string) (h : heap) (p : Packet) : string :=
  pre +:+ Py.upper (snd (p_name (h (packet p)))).

Definition function_line (h : heap) (p : Packet) : string :=
  flag_line (constant_name "FUNCTION_" h p) (function_flag (has_out p) (overrides h p)).

Definition callback_line (h : heap) (p : Packet) : string :=
  flag_line (constant_name "CALLBACK_" h p) AlwaysFalse.

(** The configs that get the common packets. *)
Definition is_brick_config (config : string) : bool :=
  (Py.endswith "_config.py" config && Py.contains "brick_" config)%bool.

(** ** Further string methods *)

Module PyStr.

Definition is_upper (c : ascii) : bool :=
  let n := nat_of_ascii c in ((65 <=? n)%nat && (n <=? 90)%nat)%bool.

Definition is_lower (c : ascii) : bool :=
  let n := nat_of_ascii c in ((97 <=? n)%nat && (n <=? 122)%nat)%bool.

(** The class [\d] of a byte-string pattern. *)
Definition is_digit (c : ascii) : bool :=
  let n := nat_of_ascii c in ((48 <=? n)%nat && (n <=? 57)%nat)%bool.

Definition is_newline (c : ascii) : bool := Ascii.eqb c (ascii_of_nat 10).

(** The longest prefix of [s] whose characters satisfy [f], and the rest. *)
Fixpoint span (f : ascii -> bool) (s : string) : string * string :=
  match s with
  | EmptyString => (EmptyString, EmptyString)
  | String c s' =>
      if f c then (String c (fst (span f s')), snd (span f s'))
      else (EmptyString, s)
  end.

(** [c * n] for a one-character string *)
Fixpoint repeat_char (c : ascii) (n : nat) : string :=
  match n with
  | O => EmptyString
  | S k => String c (repeat_char c k)
  end.

(** The parts of [s.split(sep)] for a non-empty [sep]; a character that
    is not part of a separator goes in front of the first part of what
    follows. *)
Fixpoint split_from (sep : string) (skip : nat) (s : string) : list string :=
  match s with
  | EmptyString => [EmptyString]
  | String c s' =>
      match skip with
      | S k => split_from sep k s'
      | O =>
          if Py.startswith sep s
          then EmptyString :: split_from sep (String.length sep - 1) s'
          else match split_from sep O s' with
               | part :: parts => String c part :: parts
               | [] => [String c EmptyString]
               end
      end
  end.

(** [s.split(sep)]: an empty separator is a [ValueError]. *)
Definition split (sep s : string) : res (list string) :=
  match sep with
  | EmptyString => Raise (ValueError "empty separator")
  | String _ _ => Ok (split_from sep O s)
  end.

(** The lines a file with content [s] yields, each with its newline. *)
Fixpoint readlines (s : string) : list string :=
  match s with
  | EmptyString => []
  | String c s' =>
      if is_newline c then String c EmptyString :: readlines s'
      else match readlines s' with
           | line :: lines => String c line :: lines
           | [] => [String c EmptyString]
           end
  end.

End PyStr.

(** ** common.py: names, text and the changelog *)

Module CommonText.

(** [shift_right(text, n)] *)
Definition shift_right (text : string) (n : nat) : string :=
  Py.replace nl (nl +:+ PyStr.repeat_char " " n) text.

(** [re_camel_case_to_space.sub(...)]: going from left to right, a match
    of [[A-Z][A-Z][a-z]] or of [[a-z][A-Z]] gets a space after its first
    character and the search goes on behind the match.  [copy] counts the
    characters of a match that are still to be copied. *)
Fixpoint camel_case_to_space_from (copy : nat) (s : string) : string :=
  match s with
  | EmptyString => EmptyString
  | String a s1 =>
      match copy with
      | S k => String a (camel_case_to_space_from k s1)
      | O =>
          match s1 with
          | String b s2 =>
              if (PyStr.is_upper a && PyStr.is_upper b &&
                  match s2 with
                  | String c _ => PyStr.is_lower c
                  | EmptyString => false
                  end)%bool
              then String a (String " " (camel_case_to_space_from 2 s1))
              else if (PyStr.is_lower a && PyStr.is_upper b)%bool
              then String a (String " " (camel_case_to_space_from 1 s1))
              else String a (camel_case_to_space_from O s1)
          | EmptyString => String a EmptyString
          end
      end
  end.

Definition camel_case_to_space (name : string) : string :=
  camel_case_to_space_from O name.

(** [part[0].upper() + part[1:]]; [None] is the [IndexError] of [part[0]]
    on an empty part. *)
Definition capitalize_part (part : string) : option string :=
  match part with
  | EmptyString => None
  | String c rest => Some (String (Py.upper_ascii c) rest)
  end.

(** The loop [for part in parts[1:]: ret += ...]. *)
Fixpoint append_parts (ret : string) (parts : list string) : option string :=
  match parts with
  | [] => Some ret
  | part :: parts' =>
      match capitalize_part part with
      | None => None
      | Some p => append_parts (ret +:+ p) parts'
      end
  end.

(** [underscore_to_headless_camel_case(name)]; [None] is the
    [IndexError] raised on an empty part. *)
Definition underscore_to_headless_camel_case (name : string) : option string :=
  match PyStr.split_from "_" O name with
  | [] => None
  | first :: rest => append_parts first rest
  end.

(** What [.*] matches: everything up to the first newline. *)
Fixpoint until_newline (s : string) : string :=
  match s with
  | EmptyString => EmptyString
  | String c s' => if PyStr.is_newline c then EmptyString else String c (until_newline s')
  end.

(** The body of [get_headless_camel_case_name] of [Packet] and [Device]:
    [name] is matched against a first group [[A-Z]+] followed by a second
    group [.*], and the result is [m.group(1).lower() + m.group(2)];
    [None] is the [AttributeError] raised when there is no match. *)
Definition headless_camel_case (name : string) : option string :=
  let '(upper_run, rest) := PyStr.span PyStr.is_upper name in
  match upper_run with
  | EmptyString => None
  | String _ _ => Some (Py.lower upper_run +:+ until_newline rest)
  end.

Definition Packet_get_headless_camel_case_name (h : heap) (p : Packet) : option string :=
  headless_camel_case (get_camel_case_name h p).

Definition Device_get_headless_camel_case_name (d : Device) : option string :=
  headless_camel_case (fst (fst (com_name (com d)))).

(** A group [(\d+)]: the digits at the beginning of [s], at least one,
    and what follows them. *)
Definition number (s : string) : option (string * string) :=
  let '(digits, rest) := PyStr.span PyStr.is_digit s in
  match digits with
  | EmptyString => None
  | String _ _ => Some (digits, rest)
  end.

(** The character [c] of the pattern: what follows it in [s]. *)
Definition expect (c : ascii) (s : string) : option string :=
  match s with
  | String c' rest => if Ascii.eqb c' c then Some rest else None
  | EmptyString => None
  end.

(** [r.match(line)] for [r = re.compile('^(\d+)\.(\d+)\.(\d+):')]: the
    three groups. *)
Definition match_version (line : string) : option (string * string * string) :=
  '(major, r1) ← number line;
  r2 ← expect "." r1;
  '(minor, r3) ← number r2;
  r4 ← expect "." r3;
  '(patch, r5) ← number r4;
  _ ← expect ":" r5;
  Some (major, minor, patch).

(** The loop over the lines: [last] is the latest match so far. *)
Fixpoint last_version (lines : list string) (last : option (string * string * string))
  : option (string * string * string) :=
  match lines with
  | [] => last
  | line :: lines' =>
      match match_version line with
      | Some v => last_version lines' (Some v)
      | None => last_version lines' last
      end
  end.

(** [get_changelog_version(path)], where [changelog] is the content of
    [path + '/changelog.txt']. *)
Definition get_changelog_version (changelog : string) : option (string * string * string) :=
  last_version (PyStr.readlines changelog) None.

End CommonText.

(** ** java/generate_java_bindings.py: identifiers and the response part *)

Module JavaText.

Import Java.

(** [function_id.format(name, id, typ)] of
    [get_java_function_id_definitions] *)
Definition function_id_format (name id typ : string) : string :=
  tab +:+ "public final static byte " +:+ typ +:+ "_" +:+ name +:+ " = (byte)" +:+ id +:+
  ";" +:+ nl.

Fixpoint function_ids_loop (h : heap) (ps : list Packet) (function_ids : string)
  : res string :=
  match ps with
  | [] => Ok function_ids
  | p :: ps' =>
      id ← get_function_id h p;
      function_ids_loop h ps'
        (function_ids +:+
         function_id_format (get_upper_case_name h p) (str id) (Py.upper (get_type h p)))
  end.

Definition get_java_function_id_definitions (h : heap) (d : Device) : res string :=
  ps ← get_packets d None;
  function_ids_loop h ps EmptyString.

(** The packet method that [java_common.JavaPacket] supplies for the
    response part. *)
Class JavaPacket : Type := {
  get_java_object_name : Packet -> string
}.

(** [method_response.format(name_upper, bbgets, bbret)] *)
Definition method_response (bbgets bbret : string) : string :=
  tab +:+ tab +:+ "byte[] response = sendRequest(bb.array());" +:+ nl +:+
  nl +:+
  tab +:+ tab +:+ "bb = ByteBuffer.wrap(response, 8, response.length - 8);" +:+ nl +:+
  tab +:+ tab +:+ "bb.order(ByteOrder.LITTLE_ENDIAN);" +:+ nl +:+
  nl +:+
  bbgets +:+ nl +:+
  tab +:+ tab +:+ "return " +:+ bbret +:+ ";".

Definition method_noresponse : string :=
  tab +:+ tab +:+ "sendRequest(bb.array());".

Section Response.

Context `{JavaElement} `{JavaPacket}.

(** The part of the loop body of [get_java_methods] that builds
    [response] from the out-elements of one function packet. *)
Definition get_java_response (p : Packet) : res string :=
  outs0 ← get_elements p (Some "out");
  gets ←
    (if (length outs0 =? 0)%nat then Ok (EmptyString, EmptyString)
     else
       outs1 ← get_elements p (Some "out");
       if (1 <? length outs1)%nat then
         r ← get_java_bbgets p true;
         let obj_name := get_java_object_name p in
         let obj := tab +:+ tab +:+ obj_name +:+ " obj = new " +:+ obj_name +:+ "();" +:+ nl in
         Ok (obj +:+ fst r, "obj")
       else get_java_bbgets p false);
  outs2 ← get_elements p (Some "out");
  if (length outs2 =? 0)%nat then Ok method_noresponse
  else Ok (method_response (fst gets) (snd gets)).

End Response.

End JavaText.

(** ** copy_all.py *)

Module CopyAll.

(** [os.path.join(a, b)] on POSIX *)
Definition path_join (a b : string) : string :=
  if Py.startswith "/" b then b
  else if (String.eqb a EmptyString || Py.endswith "/" a)%bool then a +:+ b
  else a +:+ "/" +:+ b.

(** [map(None, f1, f2)]: the lines of both files side by side, the
    shorter file filled up with [None]. *)
Fixpoint zip_longest (l1 l2 : list string) : list (option string * option string) :=
  match l1 with
  | [] => List.map (fun y => (None, Some y)) l2
  | x :: l1' =>
      match l2 with
      | [] => List.map (fun x' => (Some x', None)) l1
      | y :: l2' => (Some x, Some y) :: zip_longest l1' l2'
      end
  end.

Definition line_differs (l1 l2 : option string) : bool :=
  match l1, l2 with
  | Some x, Some y => negb (String.eqb x y)
  | None, None => false
  | _, _ => true
  end.

(** The loop over the line pairs; [i] is the line number. *)
Fixpoint compare_lines (example : bool) (i : nat)
    (pairs : list (option string * option string)) : bool :=
  match pairs with
  | [] => false
  | (l1, l2) :: rest =>
      if ((example || (2 <? i)%nat) && line_differs l1 l2)%bool then true
      else compare_lines example (i + 1) rest
  end.

(** [files_are_not_the_same(src_file, dest_path)], where [fs] gives the
    content of the files that can be opened. *)
Definition files_are_not_the_same (fs : string -> option string)
    (src_file dest_path : string) : bool :=
  let dest_file := path_join dest_path (List.last (PyStr.split_from "/" O src_file) EmptyString) in
  match fs src_file, fs dest_file with
  | Some f1, Some f2 =>
      let example := Py.contains "example" (Py.lower src_file) in
      compare_lines example 0 (zip_longest (PyStr.readlines f1) (PyStr.readlines f2))
  | _, _ => true
  end.

End CopyAll.

(** ** Reference definitions for the further properties *)

(** The width of a type of the table, 0 for any other name. *)
Definition type_width (typ : string) : Z := default 0 (types !! typ).

Definition unknown_type (e : element) : bool :=
  match types !! el_type e with
  | Some _ => false
  | None => true
  end.

(** The line [get_java_function_id_definitions] emits for a packet whose
    function id is [id]. *)
Definition function_id_line (h : heap) (p : Packet) (id : Z) : string :=
  JavaText.function_id_format (get_upper_case_name h p) (Java.str id)
                              (Py.upper (get_type h p)).

(** The function id stored in the record of [p], 0 when there is none. *)
Definition stored_id (h : heap) (p : Packet) : Z :=
  default 0 (p_function_id (h (packet p))).

(** The cast and the beginning of the put statement that
    [get_java_methods] emits for an element without the bool wrapping. *)
Definition put_cast `{Java.JavaElement} (e : element) : string :=
  if negb (String.eqb (Java.get_java_byte_buffer_storage_type e) (Java.get_java_type e))
  then "(" +:+ Java.get_java_byte_buffer_storage_type e +:+ ")" else EmptyString.

Definition put_prefix `{Java.JavaElement} (e : element) : string :=
  tab +:+ tab +:+ "bb.put" +:+ Java.get_java_byte_buffer_method_suffix e +:+ "(" +:+
  put_cast e +:+ Java.get_headless_camel_case_name e.

(** The declaration of the return object in [get_java_methods]. *)
Definition obj_declaration `{JavaText.JavaPacket} (p : Packet) : string :=
  tab +:+ tab +:+ JavaText.get_java_object_name p +:+ " obj = new " +:+
  JavaText.get_java_object_name p +:+ "();" +:+ nl.

(** Every character equal to [a] replaced by the string [new]. *)
Fixpoint subst_char (a : ascii) (new : string) (s : string) : string :=
  match s with
  | EmptyString => EmptyString
  | String c s' =>
      if Ascii.eqb a c then new +:+ subst_char a new s' else String c (subst_char a new s')
  end.

(** All characters of [s] satisfy [f]. *)
Fixpoint all_chars (f : ascii -> bool) (s : string) : bool :=
  match s with
  | EmptyString => true
  | String c s' => (f c && all_chars f s')%bool
  end.

Definition no_newline (s : string) : bool := all_chars (fun c => negb (PyStr.is_newline c)) s.

(** A non-empty string of decimal digits. *)
Definition is_number (s : string) : bool :=
  (negb (String.eqb s EmptyString) && all_chars PyStr.is_digit s)%bool.

Definition no_underscore (s : string) : bool :=
  all_chars (fun c => negb (Ascii.eqb "_" c)) s.

(** The first character of [s] satisfies [f]. *)
Definition head_is (f : ascii -> bool) (s : string) : bool :=
  match s with
  | EmptyString => false
  | String c _ => f c
  end.

(** The file that [files_are_not_the_same] compares [src_file] with. *)
Definition dest_file_of (src_file dest_path : string) : string :=
  CopyAll.path_join dest_path (List.last (PyStr.split_from "/" O src_file) EmptyString).

(** The number of lines at the beginning of a file that
    [files_are_not_the_same] does not look at. *)
Definition skipped_lines (src_file : string) : nat :=
  if Py.contains "example" (Py.lower src_file) then 0%nat else 3%nat.

(** ** Sample configurations *)

Module Samples.

(** The four packets of [bricklet_piezo_speaker_config.py]. *)
Definition beep : packet_dict :=
  {| p_type := "function"; p_name := ("Beep", "beep");
     p_elements := [ Element "duration" "uint32" 1 "in";
                     Element "frequency" "uint16" 1 "in" ];
     p_doc_tag := "bf"; p_function_id := None |}.

Definition morse_code : packet_dict :=
  {| p_type := "function"; p_name := ("MorseCode", "morse_code");
     p_elements := [ Element "morse" "string" 60 "in";
                     Element "frequency" "uint16" 1 "in" ];
     p_doc_tag := "bf"; p_function_id := None |}.

Definition beep_finished : packet_dict :=
  {| p_type := "callback"; p_name := ("BeepFinished", "beep_finished");
     p_elements := [];
     p_doc_tag := "c"; p_function_id := None |}.

Definition morse_code_finished : packet_dict :=
  {| p_type := "callback"; p_name := ("MorseCodeFinished", "morse_code_finished");
     p_elements := [];
     p_doc_tag := "c"; p_function_id := None |}.

(** The store after the config module has been loaded. *)
Definition piezo_heap : heap := fun l =>
  match l with
  | O => beep
  | 1%nat => morse_code
  | 2%nat => beep_finished
  | _ => morse_code_finished
  end.

Definition piezo_com : com_dict :=
  {| com_name := ("PiezoSpeaker", "piezo_speaker", "Piezo Speaker");
     com_category := "Bricklet";
     com_packets := [0; 1; 2; 3]%nat;
     com_common_included := false |}.

(** Two function packets that both declare function id 1. *)
Definition clash_heap : heap := fun l =>
  match l with
  | O => set_function_id 1 beep
  | _ => set_function_id 1 morse_code
  end.

Definition clash_com : com_dict :=
  {| com_name := ("Clash", "clash", "Clash");
     com_category := "Bricklet";
     com_packets := [0; 1]%nat;
     com_common_included := false |}.

(** A brick with one packet of its own, next to the piezo speaker, and
    two common packets with declared ids. *)
Definition get_stack_voltage : packet_dict :=
  {| p_type := "function"; p_name := ("GetStackVoltage", "get_stack_voltage");
     p_elements := [ Element "voltage" "uint16" 1 "out" ];
     p_doc_tag := "bf"; p_function_id := None |}.

Definition get_chip_temperature : packet_dict :=
  {| p_type := "function"; p_name := ("GetChipTemperature", "get_chip_temperature");
     p_elements := [ Element "temperature" "int16" 1 "out" ];
     p_doc_tag := "bf"; p_function_id := Some 242 |}.

Definition reset : packet_dict :=
  {| p_type := "function"; p_name := ("Reset", "reset");
     p_elements := [];
     p_doc_tag := "af"; p_function_id := Some 243 |}.

Definition brick_heap : heap := fun l =>
  match l with
  | 10%nat => get_stack_voltage
  | 20%nat => get_chip_temperature
  | 21%nat => reset
  | _ => piezo_heap l
  end.

Definition master_com : com_dict :=
  {| com_name := ("Master", "master", "Master");
     com_category := "Brick";
     com_packets := [10%nat];
     com_common_included := false |}.

Definition brick_world : world :=
  {| w_heap := brick_heap;
     w_modules := <["brick_master_config" := master_com]>
                    (<["bricklet_piezo_speaker_config" := piezo_com]> ∅);
     w_common_packets := Some [20; 21]%nat |}.

(** Two bricks that share two common packets without declared ids. *)
Definition enable : packet_dict :=
  {| p_type := "function"; p_name := ("Enable", "enable");
     p_elements := [ Element "servo_num" "uint8" 1 "in" ];
     p_doc_tag := "bf"; p_function_id := None |}.

Definition disable : packet_dict :=
  {| p_type := "function"; p_name := ("Disable", "disable");
     p_elements := [ Element "servo_num" "uint8" 1 "in" ];
     p_doc_tag := "bf"; p_function_id := None |}.

Definition get_version : packet_dict :=
  {| p_type := "function"; p_name := ("GetVersion", "get_version");
     p_elements := [ Element "version" "uint8" 3 "out" ];
     p_doc_tag := "af"; p_function_id := None |}.

Definition identify : packet_dict :=
  {| p_type := "function"; p_name := ("Identify", "identify");
     p_elements := [];
     p_doc_tag := "af"; p_function_id := None |}.

Definition shared_heap : heap := fun l =>
  match l with
  | 10%nat => get_stack_voltage
  | 11%nat => enable
  | 12%nat => disable
  | 30%nat => get_version
  | _ => identify
  end.

Definition servo_com : com_dict :=
  {| com_name := ("Servo", "servo", "Servo");
     com_category := "Brick";
     com_packets := [11; 12]%nat;
     com_common_included := false |}.

Definition shared_world : world :=
  {| w_heap := shared_heap;
     w_modules := <["brick_master_config" := master_com]>
                    (<["brick_servo_config" := servo_com]> ∅);
     w_common_packets := Some [30; 31]%nat |}.

Definition shared_listing : list string :=
  [ "brick_commonconfig.py"; "brick_master_config.py"; "brick_servo_config.py" ].

(** A record whose wire name does not fit its display name, and a
    record of an unknown kind, each between two good records. *)
Definition misnamed : packet_dict :=
  {| p_type := "function"; p_name := ("SetMode", "set_modus");
     p_elements := [];
     p_doc_tag := "bf"; p_function_id := None |}.

Definition misnamed_heap : heap := fun l =>
  match l with
  | O => beep
  | 1%nat => misnamed
  | _ => morse_code
  end.

Definition unknown_kind : packet_dict :=
  {| p_type := "event"; p_name := ("BeepFinished", "beep_finished");
     p_elements := [];
     p_doc_tag := "c"; p_function_id := None |}.

Definition unknown_kind_heap : heap := fun l =>
  match l with
  | O => beep
  | 1%nat => unknown_kind
  | _ => morse_code
  end.

Definition three_com : com_dict :=
  {| com_name := ("Three", "three", "Three");
     com_category := "Bricklet";
     com_packets := [0; 1; 2]%nat;
     com_common_included := false |}.

(** A device with a getter, a setter that asks for a response, a setter
    that does not, and a callback with one out-element. *)
Definition set_period : packet_dict :=
  {| p_type := "function"; p_name := ("SetPeriod", "set_period");
     p_elements := [ Element "period" "uint32" 1 "in" ];
     p_doc_tag := "ccf"; p_function_id := None |}.

Definition voltage_reached : packet_dict :=
  {| p_type := "callback"; p_name := ("VoltageReached", "voltage_reached");
     p_elements := [ Element "voltage" "uint8" 1 "out" ];
     p_doc_tag := "c"; p_function_id := None |}.

Definition flags_heap : heap := fun l =>
  match l with
  | O => get_stack_voltage
  | 1%nat => set_period
  | 2%nat => beep
  | _ => voltage_reached
  end.

Definition flags_com : com_dict :=
  {| com_name := ("Flags", "flags", "Flags");
     com_category := "Bricklet";
     com_packets := [0; 1; 2; 3]%nat;
     com_common_included := false |}.

(** A listing without the common config. *)
Definition listing_without_common : list string :=
  [ "brick_master_config.py"; "bricklet_piezo_speaker_config.py" ].

(** A file system with a generated Java file and the copy that was
    generated the day before. *)
Definition generated_files (path : string) : option string :=
  if String.eqb path "bindings/BrickletPiezoSpeaker.java" then
    Some (gen_text_star "2012-05-02" +:+ nl +:+ "package com.tinkerforge;" +:+ nl)
  else if String.eqb path "/home/user/java/BrickletPiezoSpeaker.java" then
    Some (gen_text_star "2012-05-01" +:+ nl +:+ "package com.tinkerforge;" +:+ nl)
  else None.

(** One choice of the Java tables, for the examples. *)
Definition java_tables : Java.JavaElement :=
  {| Java.get_headless_camel_case_name := el_name;
     Java.get_java_type := fun e =>
       if String.eqb (el_type e) "bool" then "boolean" else "String";
     Java.get_java_byte_buffer_method_suffix := fun _ => EmptyString;
     Java.get_java_byte_buffer_storage_type := fun _ => "byte" |}.

(** The directory listing of [configs/]. *)
Definition listing : list string :=
  [ "brick_commonconfig.py"; "brick_master_config.py";
    "bricklet_piezo_speaker_config.py"; "__init__.py" ].

End Samples.

(** ** Properties *)

Local Open Scope list_scope.

(** *** The string methods on examples *)

Example lower_SetMode : Py.lower "SetMode" = "setmode".
Proof. reflexivity. Qed.

Example replace_underscore : Py.replace "_" EmptyString "morse_code_finished" = "morsecodefinished".
Proof. reflexivity. Qed.

Example replace_no_overlap : Py.replace "aa" "b" "aaaaa" = "bba".
Proof. reflexivity. Qed.

Example endswith_config : Py.endswith "_config.py" "brick_master_config.py" = true.
Proof. reflexivity. Qed.

Example endswith_commonconfig : Py.endswith "_config.py" "brick_commonconfig.py" = false.
Proof. reflexivity. Qed.

Example contains_brick : Py.contains "brick_" "bricklet_piezo_speaker_config.py" = false.
Proof. reflexivity. Qed.


Ltac not_listed :=
  rewrite ?elem_of_cons, elem_of_nil; intuition congruence.

(** *** Type sizes *)

(** C2, as amended: [get_type_size] is exactly the fixed table int8, uint8,
    bool, char, string ↦ 1; int16, uint16 ↦ 2; int32, uint32, float ↦ 4;
    int64, uint64 ↦ 8 (the 32-bit float type is spelled [float]), and it
    raises [KeyError] for every other type name. *)
Theorem get_type_size_table (typ : string) :
  get_type_size typ =
  match width_table typ with
  | Some n => Ok n
  | None => Raise (KeyError typ)
  end.
Proof.
  unfold get_type_size, types. cbn [list_to_map foldr uncurry fst snd].
  repeat match goal with
  | |- context [ <[?k := _]> _ !! typ ] =>
      destruct (decide (typ = k)) as [->|];
        [ vm_compute; reflexivity | rewrite lookup_insert_ne by congruence ]
  end.
  rewrite lookup_empty. unfold width_table.
  repeat (rewrite bool_decide_eq_false_2; [| not_listed ]).
  reflexivity.
Qed.

(** C2 as stated fails: the name [float32] is not a key of the table, so
    looking it up raises instead of giving 4. *)
Lemma get_type_size_float32 :
  get_type_size "float32" = Raise (KeyError "float32") /\ get_type_size "float32" <> Ok 4.
Proof. split; [ vm_compute; reflexivity | vm_compute; discriminate ]. Qed.

(** *** Packet construction *)

Lemma split_elements_valid (es ins outs : list element) :
  forallb valid_direction es = true ->
  split_elements es ins outs =
  Ok (ins ++ List.filter is_in es, outs ++ List.filter is_out es).
Proof.
  revert ins outs. induction es as [|e es IH]; intros ins outs Hv; simpl.
  - by rewrite !app_nil_r.
  - simpl in Hv. apply andb_prop in Hv as [He Hes].
    unfold valid_direction, is_in, is_out in *.
    destruct (String.eqb_spec (el_direction e) "in") as [Ein|Ein].
    + rewrite IH by done. rewrite Ein. simpl. by rewrite <- !app_assoc.
    + destruct (String.eqb_spec (el_direction e) "out") as [Eout|Eout]; [|done].
      rewrite IH by done. by rewrite <- !app_assoc.
Qed.

Lemma split_elements_invalid (es ins outs : list element) :
  forallb valid_direction es = false ->
  exists msg, split_elements es ins outs = Raise (ValueError msg).
Proof.
  revert ins outs. induction es as [|e es IH]; intros ins outs Hv; simpl in *.
  - discriminate.
  - unfold valid_direction, is_in, is_out in Hv.
    destruct (String.eqb (el_direction e) "in"); [by apply IH|].
    destruct (String.eqb (el_direction e) "out"); [by apply IH|].
    eauto.
Qed.

Lemma Packet_init_ok (h : heap) (l : loc) :
  packet_ok (h l) = true -> Packet_init h l = Ok (packet_of h l).
Proof.
  unfold packet_ok, Packet_init. intros [Hn Hv]%andb_prop.
  apply negb_true_iff in Hn. rewrite Hn.
  by rewrite split_elements_valid.
Qed.

Lemma Packet_init_raise (h : heap) (l : loc) :
  packet_ok (h l) = false -> exists msg, Packet_init h l = Raise (ValueError msg).
Proof.
  unfold packet_ok, Packet_init. intros Hb.
  destruct (name_mismatch (h l)); [eauto|]. simpl in Hb.
  destruct (split_elements_invalid (p_elements (h l)) [] [] Hb) as [msg ->].
  eauto.
Qed.

Lemma Packet_init_inv (h : heap) (l : loc) (p : Packet) :
  Packet_init h l = Ok p -> packet_ok (h l) = true /\ p = packet_of h l.
Proof.
  intros Hp. destruct (packet_ok (h l)) eqn:Hok.
  - rewrite Packet_init_ok in Hp by done. by inversion Hp.
  - destruct (Packet_init_raise h l Hok) as [msg Hr]. congruence.
Qed.

(** *** Frame lengths *)

Lemma add_sizes_width (width : string -> Z) (es : list element) (length : Z) :
  (forall e, e ∈ es -> get_type_size (el_type e) = Ok (width (el_type e))) ->
  add_sizes length es =
  Ok (length + foldr (fun e s => width (el_type e) * el_cardinality e + s) 0 es).
Proof.
  revert length. induction es as [|e es IH]; intros length Hw; simpl.
  - f_equal. lia.
  - unfold get_element_size. rewrite (Hw e) by apply list_elem_of_here. simpl.
    rewrite IH by (intros e' He'; apply Hw; by apply list_elem_of_further).
    f_equal. lia.
Qed.

Lemma elem_of_List_filter {A : Type} (f : A -> bool) (x : A) (l : list A) :
  x ∈ List.filter f l -> x ∈ l.
Proof. rewrite !list_elem_of_In. intros Hx. by apply filter_In in Hx as [? _]. Qed.

(** C1: for every constructed packet (all its elements are in- or
    out-elements) whose element types have a width, [get_request_length]
    is 4 plus the sum of width × cardinality over the in-elements and
    [get_response_length] is 4 plus that sum over the out-elements; a packet
    with one uint32 and one uint16 in-element and no out-element has
    request length 10 and response length 4. *)
Theorem packet_lengths (h : heap) (l : loc) (p : Packet) (width : string -> Z) :
  Packet_init h l = Ok p ->
  (forall e, e ∈ p_elements (h l) -> get_type_size (el_type e) = Ok (width (el_type e))) ->
  (in_elements p = List.filter is_in (p_elements (h l)) /\
   out_elements p = List.filter is_out (p_elements (h l)) /\
   get_request_length p = Ok (frame_length width (in_elements p)) /\
   get_response_length p = Ok (frame_length width (out_elements p))) /\
  (forall (q : Packet) (n1 n2 : string),
     in_elements q = [Element n1 "uint32" 1 "in"; Element n2 "uint16" 1 "in"] ->
     out_elements q = [] ->
     get_request_length q = Ok 10 /\ get_response_length q = Ok 4).
Proof.
  intros Hp Hw. apply Packet_init_inv in Hp as [_ ->]. split.
  - repeat split; unfold get_request_length, get_response_length, frame_length; simpl;
      apply add_sizes_width; intros e He; apply Hw; by apply elem_of_List_filter in He.
  - intros q n1 n2 Hi Ho. unfold get_request_length, get_response_length.
    rewrite Hi, Ho. split; reflexivity.
Qed.

(** The first packet of the piezo speaker config has request length 10 and
    response length 4. *)
Lemma packet_lengths_beep :
  exists p, Packet_init Samples.piezo_heap 0%nat = Ok p /\
            get_request_length p = Ok 10 /\ get_response_length p = Ok 4.
Proof.
  exists (packet_of Samples.piezo_heap 0%nat).
  split; [reflexivity|].
  pose proof (packet_lengths Samples.piezo_heap 0%nat (packet_of Samples.piezo_heap 0%nat)
                (fun t => if String.eqb t "uint32" then 4 else 2)) as Hl.
  destruct Hl as [(_ & _ & Hreq & Hresp) _].
  - reflexivity.
  - intros e He. simpl in He.
    repeat (apply elem_of_cons in He as [->|He]; [reflexivity|]).
    by apply elem_of_nil in He.
  - split; [exact Hreq | exact Hresp].
Defined.

(** *** Device construction *)

Lemma same_schema_refl (h : heap) : same_schema h h.
Proof. by intros l. Qed.

Lemma same_schema_trans (h1 h2 h3 : heap) :
  same_schema h1 h2 -> same_schema h2 h3 -> same_schema h1 h3.
Proof.
  intros H12 H23 l. destruct (H12 l) as (?&?&?&?), (H23 l) as (?&?&?&?).
  repeat split; congruence.
Qed.

Lemma store_eq (h : heap) (l : loc) (d : packet_dict) : store h l d l = d.
Proof. unfold store. by rewrite Nat.eqb_refl. Qed.

Lemma store_ne (h : heap) (l l' : loc) (d : packet_dict) :
  l' <> l -> store h l d l' = h l'.
Proof. unfold store. intros Hne. by apply Nat.eqb_neq in Hne as ->. Qed.

Lemma assign_one_other (h : heap) (i : Z) (l l' : loc) :
  l' <> l -> assign_one h i l l' = h l'.
Proof.
  intros Hne. unfold assign_one. destruct (p_function_id (h l)); [done|].
  by apply store_ne.
Qed.

Lemma assign_one_explicit (h : heap) (i : Z) (l l' : loc) (v : Z) :
  p_function_id (h l') = Some v -> assign_one h i l l' = h l'.
Proof.
  intros Hv. destruct (decide (l' = l)) as [->|Hne].
  - unfold assign_one. by rewrite Hv.
  - by apply assign_one_other.
Qed.

Lemma assign_one_fresh (h : heap) (i : Z) (l : loc) :
  p_function_id (h l) = None -> assign_one h i l l = set_function_id (i + 1) (h l).
Proof. intros Hn. unfold assign_one. rewrite Hn. apply store_eq. Qed.

Lemma assign_one_schema (h : heap) (i : Z) (l : loc) : same_schema h (assign_one h i l).
Proof.
  intros l'. unfold assign_one. destruct (p_function_id (h l)); [done|].
  destruct (decide (l' = l)) as [->|Hne].
  - by rewrite store_eq.
  - by rewrite store_ne.
Qed.

Lemma assign_ids_schema (h : heap) (i : Z) (ps : list loc) :
  same_schema h (assign_ids h i ps).
Proof.
  revert h i. induction ps as [|l ps IH]; intros h i; simpl.
  - apply same_schema_refl.
  - eapply same_schema_trans; [apply assign_one_schema | apply IH].
Qed.

Lemma assign_ids_other (h : heap) (i : Z) (ps : list loc) (l : loc) :
  l ∉ ps -> assign_ids h i ps l = h l.
Proof.
  revert h i. induction ps as [|l0 ps IH]; intros h i Hl; simpl; [done|].
  apply not_elem_of_cons in Hl as [Hne Hl].
  rewrite IH by done. by apply assign_one_other.
Qed.

Lemma assign_ids_explicit (h : heap) (i : Z) (ps : list loc) (l : loc) (v : Z) :
  p_function_id (h l) = Some v -> assign_ids h i ps l = h l.
Proof.
  revert h i. induction ps as [|l0 ps IH]; intros h i Hv; simpl; [done|].
  pose proof (assign_one_explicit h i l0 l v Hv) as H1.
  rewrite IH by (by rewrite H1). done.
Qed.

(** A record without ['function_id'] gets the 1-based position of its
    first occurrence. *)
Lemma assign_ids_fresh (h : heap) (i : Z) (ps : list loc) (k : nat) (l : loc) :
  ps !! k = Some l ->
  (forall j, (j < k)%nat -> ps !! j <> Some l) ->
  p_function_id (h l) = None ->
  assign_ids h i ps l = set_function_id (i + Z.of_nat k + 1) (h l).
Proof.
  revert h i k. induction ps as [|l0 ps IH]; intros h i k Hk Hfirst Hn; [done|].
  destruct k as [|k]; simpl in *.
  - inversion Hk; subst l0.
    rewrite (assign_ids_explicit _ _ _ _ (i + 1)).
    + rewrite assign_one_fresh by done. f_equal. lia.
    + by rewrite assign_one_fresh.
  - assert (l <> l0) as Hne.
    { intros ->. by apply (Hfirst 0%nat); [lia|]. }
    rewrite (IH _ _ k); [| done | | ].
    + rewrite assign_one_other by done. f_equal. lia.
    + intros j Hj. apply (Hfirst (S j)). lia.
    + by rewrite assign_one_other.
Qed.

(** Every record is either left as it was or differs from before in
    nothing but a ['function_id'] that it did not have. *)
Lemma assign_ids_effect (h : heap) (i : Z) (ps : list loc) (l : loc) :
  assign_ids h i ps l = h l \/
  (l ∈ ps /\ p_function_id (h l) = None /\
   exists v, assign_ids h i ps l = set_function_id v (h l)).
Proof.
  destruct (p_function_id (h l)) as [v|] eqn:Hv.
  - left. by eapply assign_ids_explicit.
  - destruct (decide (l ∈ ps)) as [Hin|Hnin].
    + right. split; [done|]. split; [done|].
      revert h i Hv. induction ps as [|l0 ps IH]; intros h i Hv; [by apply elem_of_nil in Hin|].
      simpl. destruct (decide (l = l0)) as [->|Hne].
      * exists (i + 1).
        rewrite (assign_ids_explicit _ _ _ _ (i + 1)); rewrite assign_one_fresh; done.
      * apply elem_of_cons in Hin as [?|Hin]; [done|].
        destruct (IH Hin (assign_one h i l0) (i + 1)) as [v Hv'].
        { by rewrite assign_one_other. }
        exists v. rewrite Hv'. by rewrite assign_one_other.
    + left. by apply assign_ids_other.
Qed.

Lemma forallb_ext_bool {A : Type} (f g : A -> bool) (l : list A) :
  (forall x, f x = g x) -> forallb f l = forallb g l.
Proof. intros Hfg. induction l as [|x l IH]; simpl; [done|]. by rewrite Hfg, IH. Qed.

Lemma packet_of_schema (h h' : heap) (l : loc) :
  same_schema h h' -> packet_of h' l = packet_of h l.
Proof. intros Hs. destruct (Hs l) as (_ & _ & He & _). unfold packet_of. by rewrite He. Qed.

Lemma packet_ok_schema (h h' : heap) (l : loc) :
  same_schema h h' -> packet_ok (h' l) = packet_ok (h l).
Proof.
  intros Hs. destruct (Hs l) as (_ & Hn & He & _).
  unfold packet_ok, name_mismatch. by rewrite Hn, He.
Qed.

Lemma valid_type_schema (h h' : heap) (p : Packet) :
  same_schema h h' ->
  is_function h' p = is_function h p /\ is_callback h' p = is_callback h p /\
  valid_type h' p = valid_type h p.
Proof.
  intros Hs. destruct (Hs (packet p)) as (Ht & _).
  unfold valid_type, is_function, is_callback, get_type. by rewrite Ht.
Qed.

Lemma build_packets_ok (h : heap) (i : Z) (ps : list loc) (acc : list Packet) :
  forallb (fun l => packet_ok (h l)) ps = true ->
  build_packets h i ps acc = (assign_ids h i ps, Ok (acc ++ (packet_of h <$> ps))).
Proof.
  revert h i acc. induction ps as [|l ps IH]; intros h i acc Hok; simpl.
  - by rewrite app_nil_r.
  - simpl in Hok. apply andb_prop in Hok as [Hl Hps].
    change (match p_function_id (h l) with
            | Some _ => h
            | None => store h l (set_function_id (i + 1) (h l))
            end) with (assign_one h i l).
    pose proof (assign_one_schema h i l) as Hs.
    rewrite Packet_init_ok by (by rewrite (packet_ok_schema h)).
    rewrite IH.
    + rewrite (packet_of_schema h) by done. rewrite <- app_assoc. simpl.
      do 4 f_equal. apply list_fmap_ext. intros ? l' _. by apply packet_of_schema.
    + rewrite <- Hps. apply forallb_ext_bool. intros l'. by apply packet_ok_schema.
Qed.

Lemma build_packets_raise (h : heap) (i : Z) (ps : list loc) (acc : list Packet) :
  forallb (fun l => packet_ok (h l)) ps = false ->
  exists k msg,
    build_packets h i ps acc = (assign_ids h i (take k ps), Raise (ValueError msg)).
Proof.
  revert h i acc. induction ps as [|l ps IH]; intros h i acc Hok; simpl in *; [done|].
  change (match p_function_id (h l) with
          | Some _ => h
          | None => store h l (set_function_id (i + 1) (h l))
          end) with (assign_one h i l).
  pose proof (assign_one_schema h i l) as Hs.
  destruct (packet_ok (h l)) eqn:Hl; simpl in Hok.
  - rewrite Packet_init_ok by (by rewrite (packet_ok_schema h)).
    destruct (IH (assign_one h i l) (i + 1) (acc ++ [packet_of (assign_one h i l) l]))
      as (k & msg & Hb).
    { rewrite <- Hok. apply forallb_ext_bool. intros l'. by apply packet_ok_schema. }
    exists (S k), msg. by rewrite Hb.
  - destruct (Packet_init_raise (assign_one h i l) l) as [msg Hr].
    { by rewrite (packet_ok_schema h). }
    exists 1%nat, msg. by rewrite Hr.
Qed.

Lemma sort_packets_valid (h : heap) (ps fs cs : list Packet) :
  forallb (valid_type h) ps = true ->
  sort_packets h ps fs cs =
  Ok (fs ++ List.filter (is_function h) ps, cs ++ List.filter (is_callback h) ps).
Proof.
  revert fs cs. induction ps as [|p ps IH]; intros fs cs Hv; simpl.
  - by rewrite !app_nil_r.
  - simpl in Hv. apply andb_prop in Hv as [Hp Hps].
    unfold valid_type, is_function, is_callback in *.
    destruct (String.eqb_spec (get_type h p) "function") as [Ef|Ef].
    + rewrite IH by done. rewrite Ef. simpl. by rewrite <- !app_assoc.
    + destruct (String.eqb_spec (get_type h p) "callback") as [Ec|Ec]; [|done].
      rewrite IH by done. by rewrite <- !app_assoc.
Qed.

Lemma sort_packets_invalid (h : heap) (ps fs cs : list Packet) :
  forallb (valid_type h) ps = false ->
  exists msg, sort_packets h ps fs cs = Raise (ValueError msg).
Proof.
  revert fs cs. induction ps as [|p ps IH]; intros fs cs Hv; simpl in *; [done|].
  unfold valid_type, is_function, is_callback in Hv.
  destruct (String.eqb (get_type h p) "function"); [by apply IH|].
  destruct (String.eqb (get_type h p) "callback"); [by apply IH|].
  eauto.
Qed.

Lemma forallb_map {A B : Type} (f : B -> bool) (g : A -> B) (l : list A) :
  forallb f (g <$> l) = forallb (fun x => f (g x)) l.
Proof. induction l as [|x l IH]; simpl; [done|]. by f_equal. Qed.

Lemma filter_ext_bool {A : Type} (f g : A -> bool) (l : list A) :
  (forall x, f x = g x) -> List.filter f l = List.filter g l.
Proof. intros Hfg. induction l as [|x l IH]; simpl; [done|]. by rewrite Hfg, IH. Qed.

Lemma Device_init_ok (h : heap) (c : com_dict) :
  names_and_directions_ok h c = true -> types_ok h c = true ->
  Device_init h c = (assign_ids h 0 (com_packets c), Ok (device_of h c)).
Proof.
  intros Hn Ht. unfold Device_init. rewrite build_packets_ok by done. simpl.
  pose proof (assign_ids_schema h 0 (com_packets c)) as Hs.
  rewrite sort_packets_valid.
  - simpl. unfold device_of. do 3 f_equal;
      apply filter_ext_bool; intros p; by apply valid_type_schema.
  - rewrite forallb_map. rewrite <- Ht. apply forallb_ext_bool. intros l.
    by apply valid_type_schema.
Qed.

Lemma Device_init_raise (h : heap) (c : com_dict) :
  (names_and_directions_ok h c && types_ok h c)%bool = false ->
  exists k msg,
    Device_init h c = (assign_ids h 0 (take k (com_packets c)), Raise (ValueError msg)).
Proof.
  intros Hb. unfold Device_init.
  destruct (names_and_directions_ok h c) eqn:Hn; simpl in Hb.
  - rewrite build_packets_ok by done. simpl.
    pose proof (assign_ids_schema h 0 (com_packets c)) as Hs.
    destruct (sort_packets_invalid (assign_ids h 0 (com_packets c))
                (packet_of h <$> com_packets c) [] []) as [msg Hr].
    + rewrite forallb_map. rewrite <- Hb. apply forallb_ext_bool. intros l.
      by apply valid_type_schema.
    + exists (length (com_packets c)), msg. rewrite Hr. by rewrite firstn_all.
  - destruct (build_packets_raise h 0 (com_packets c) [] Hn) as (k & msg & Hr).
    exists k, msg. by rewrite Hr.
Qed.

Lemma Device_init_inv (h h' : heap) (c : com_dict) (d : Device) :
  Device_init h c = (h', Ok d) ->
  names_and_directions_ok h c = true /\ types_ok h c = true /\
  h' = assign_ids h 0 (com_packets c) /\ d = device_of h c.
Proof.
  intros Hd.
  destruct (names_and_directions_ok h c && types_ok h c)%bool eqn:Hb.
  - apply andb_prop in Hb as [Hn Ht]. rewrite Device_init_ok in Hd by done.
    by inversion Hd.
  - destruct (Device_init_raise h c Hb) as (k & msg & Hr). congruence.
Qed.

Lemma assign_ids_position (h : heap) (ps : list loc) (k : nat) (l : loc) :
  ps !! k = Some l ->
  p_function_id (h l) = None ->
  (forall j, (j < k)%nat -> ps !! j <> Some l) ->
  p_function_id (assign_ids h 0 ps l) = Some (Z.of_nat k + 1).
Proof.
  intros Hk Hn Hfirst. rewrite (assign_ids_fresh h 0 _ k) by done.
  simpl. f_equal; lia.
Qed.

Lemma all_packets_refs (h : heap) (ps : list loc) : packet <$> (packet_of h <$> ps) = ps.
Proof. induction ps as [|l ps IH]; simpl; [done|]. by f_equal. Qed.

(** *** Function identifiers *)

(** C3: building a Device goes through the configured packet records in
    declared order; a record that carries a function id is left as it is,
    and a record without one gets the 1-based position at which it (first)
    occurs; three distinct records without ids get 1, 2 and 3. *)
Theorem Device_init_function_ids (h h' : heap) (c : com_dict) (d : Device) :
  Device_init h c = (h', Ok d) ->
  packet <$> all_packets d = com_packets c /\
  (forall l v, p_function_id (h l) = Some v -> h' l = h l) /\
  (forall k l, com_packets c !! k = Some l ->
     p_function_id (h l) = None ->
     (forall j, (j < k)%nat -> com_packets c !! j <> Some l) ->
     p_function_id (h' l) = Some (Z.of_nat k + 1)) /\
  (forall l1 l2 l3, com_packets c = [l1; l2; l3] -> NoDup [l1; l2; l3] ->
     p_function_id (h l1) = None -> p_function_id (h l2) = None ->
     p_function_id (h l3) = None ->
     get_function_id h' <$> all_packets d = [Ok 1; Ok 2; Ok 3]).
Proof.
  intros Hd. apply Device_init_inv in Hd as (_ & _ & -> & ->).
  pose proof (assign_ids_position h (com_packets c)) as Hfresh.
  split; [apply all_packets_refs|]. split; [|split; [exact Hfresh|]].
  - intros l v Hv. by eapply assign_ids_explicit.
  - intros l1 l2 l3 Hc Hnd H1 H2 H3.
    apply NoDup_cons in Hnd as [Hn1 Hnd]. apply NoDup_cons in Hnd as [Hn2 _].
    apply not_elem_of_cons in Hn1 as [H12 Hn1].
    apply not_elem_of_cons in Hn1 as [H13 _].
    apply not_elem_of_cons in Hn2 as [H23 _].
    pose proof (Hfresh 0%nat l1) as E1.
    pose proof (Hfresh 1%nat l2) as E2.
    pose proof (Hfresh 2%nat l3) as E3.
    set (h' := assign_ids h 0 (com_packets c)) in *.
    rewrite Hc in E1, E2, E3. unfold device_of. cbn [all_packets]. rewrite Hc.
    unfold get_function_id. simpl.
    rewrite E1, E2, E3; try done.
    + intros [|[|j]] Hj; simpl; [congruence | congruence | lia].
    + intros [|j] Hj; simpl; [congruence | lia].
    + intros j Hj. lia.
Qed.

(** In the piezo speaker config no packet declares an id; the second
    packet gets id 2. *)
Lemma Device_init_function_ids_piezo :
  p_function_id (fst (Device_init Samples.piezo_heap Samples.piezo_com) 1%nat) = Some 2.
Proof.
  pose proof (Device_init_function_ids Samples.piezo_heap
                (fst (Device_init Samples.piezo_heap Samples.piezo_com))
                Samples.piezo_com
                (device_of Samples.piezo_heap Samples.piezo_com)) as Hids.
  destruct Hids as (_ & _ & Hfresh & _); [reflexivity|].
  apply (Hfresh 1%nat 1%nat); [reflexivity | reflexivity |].
  intros [|j] Hj; [discriminate | lia].
Defined.

Lemma Packet_init_schema (h h' : heap) (l : loc) :
  same_schema h h' -> Packet_init h' l = Packet_init h l.
Proof.
  intros Hs. destruct (Hs l) as (_ & Hn & He & _).
  unfold Packet_init, name_mismatch. by rewrite Hn, He.
Qed.

Lemma same_schema_sym (h1 h2 : heap) : same_schema h1 h2 -> same_schema h2 h1.
Proof. intros H12 l. destruct (H12 l) as (?&?&?&?). by repeat split. Qed.

Lemma build_packets_schema (h h2 : heap) (i : Z) (ps : list loc) (acc : list Packet) :
  same_schema h h2 ->
  snd (build_packets h2 i ps acc) = snd (build_packets h i ps acc) /\
  same_schema (fst (build_packets h i ps acc)) (fst (build_packets h2 i ps acc)).
Proof.
  revert h h2 i acc. induction ps as [|l ps IH]; intros h h2 i acc Hs; [done|].
  cbn [build_packets].
  change (match p_function_id (h l) with
          | Some _ => h
          | None => store h l (set_function_id (i + 1) (h l))
          end) with (assign_one h i l).
  change (match p_function_id (h2 l) with
          | Some _ => h2
          | None => store h2 l (set_function_id (i + 1) (h2 l))
          end) with (assign_one h2 i l).
  assert (same_schema (assign_one h i l) (assign_one h2 i l)) as Hs1.
  { eapply same_schema_trans; [apply same_schema_sym, assign_one_schema|].
    eapply same_schema_trans; [exact Hs | apply assign_one_schema]. }
  rewrite (Packet_init_schema (assign_one h i l) (assign_one h2 i l) l Hs1).
  destruct (Packet_init (assign_one h i l) l) as [p|e]; [by apply IH | done].
Qed.

Lemma sort_packets_schema (h h2 : heap) (ps fs cs : list Packet) :
  same_schema h h2 -> sort_packets h2 ps fs cs = sort_packets h ps fs cs.
Proof.
  intros Hs. revert fs cs. induction ps as [|p ps IH]; intros fs cs; [done|].
  cbn [sort_packets]. unfold get_type. destruct (Hs (packet p)) as (-> & _).
  by rewrite !IH.
Qed.

Lemma Device_init_schema (h h2 : heap) (c : com_dict) :
  same_schema h h2 -> snd (Device_init h2 c) = snd (Device_init h c).
Proof.
  intros Hs. unfold Device_init.
  destruct (build_packets_schema h h2 0 (com_packets c) [] Hs) as [Hr Hs'].
  destruct (build_packets h 0 (com_packets c) []) as [h' r].
  destruct (build_packets h2 0 (com_packets c) []) as [h2' r2].
  simpl in Hr, Hs'. subst r2. destruct r as [ps|e]; [|done].
  simpl. by rewrite (sort_packets_schema h' h2').
Qed.

Lemma Device_init_explicit (h : heap) (c : com_dict) (l : loc) (v : Z) :
  p_function_id (h l) = Some v -> fst (Device_init h c) l = h l.
Proof.
  intros Hv. destruct (names_and_directions_ok h c && types_ok h c)%bool eqn:Hb.
  - apply andb_prop in Hb as [Hn Ht]. rewrite Device_init_ok by done. simpl.
    by eapply assign_ids_explicit.
  - destruct (Device_init_raise h c Hb) as (k & msg & ->). simpl.
    by eapply assign_ids_explicit.
Qed.

(** C4 as stated fails: two packets that both declare function id 1 give
    a Device, and its function ids are not pairwise distinct. *)
Lemma Device_init_duplicate_ids :
  exists h' d,
    Device_init Samples.clash_heap Samples.clash_com = (h', Ok d) /\
    get_function_id h' <$> all_packets d = [Ok 1; Ok 1] /\
    ~ NoDup (get_function_id h' <$> all_packets d).
Proof.
  exists (fst (Device_init Samples.clash_heap Samples.clash_com)),
         (device_of Samples.clash_heap Samples.clash_com).
  split; [reflexivity|]. split; [reflexivity|].
  intros Hnd. apply NoDup_cons in Hnd as [Hn _]. apply Hn. apply list_elem_of_here.
Qed.

(** C4, as amended: a Device built from distinct packet records none of
    which declares a function id has the ids 1, 2, ... in declaration
    order, which are pairwise distinct.  Declared ids are taken as they
    are: a record that has an id is left unchanged, whether or not the
    construction returns, and the Device gives that id back.  They are not
    checked: two configurations that differ in function ids only give the
    same result, the same Device or the same error. *)
Theorem Device_init_ids_unique (h : heap) (c : com_dict) :
  (forall h' d,
     Device_init h c = (h', Ok d) ->
     NoDup (com_packets c) ->
     (forall l, l ∈ com_packets c -> p_function_id (h l) = None) ->
     (forall k p, all_packets d !! k = Some p ->
        get_function_id h' p = Ok (Z.of_nat k + 1)) /\
     NoDup (get_function_id h' <$> all_packets d)) /\
  (forall l v, p_function_id (h l) = Some v -> fst (Device_init h c) l = h l) /\
  (forall h' d p v,
     Device_init h c = (h', Ok d) ->
     p ∈ all_packets d ->
     p_function_id (h (packet p)) = Some v ->
     get_function_id h' p = Ok v) /\
  (forall h2, same_schema h h2 -> snd (Device_init h2 c) = snd (Device_init h c)).
Proof.
  split; [|split; [|split]].
  - intros h' d Hd Hnd Hnone.
    apply Device_init_inv in Hd as (Hn & Ht & -> & ->).
    pose proof (assign_ids_position h (com_packets c)) as Hfresh.
    assert (forall k p, all_packets (device_of h c) !! k = Some p ->
              get_function_id (assign_ids h 0 (com_packets c)) p = Ok (Z.of_nat k + 1))
      as Hpos.
    { intros k p Hk. simpl in Hk.
      apply list_lookup_fmap_Some in Hk as (l & -> & Hl).
      unfold get_function_id. simpl. rewrite (Hfresh k l); [done | done | |].
      - apply Hnone. by eapply list_elem_of_lookup_2.
      - intros j Hj Hj'. pose proof (NoDup_lookup _ _ _ _ Hnd Hl Hj'). lia. }
    split; [exact Hpos|].
    apply NoDup_alt. intros i j r Hi Hj.
    apply list_lookup_fmap_Some in Hi as (p & -> & Hi).
    apply list_lookup_fmap_Some in Hj as (q & Heq & Hj).
    rewrite (Hpos i p Hi), (Hpos j q Hj) in Heq. inversion Heq. lia.
  - intros l v. apply Device_init_explicit.
  - intros h' d p v Hd _ Hv. unfold get_function_id.
    replace h' with (fst (Device_init h c)) by (by rewrite Hd).
    by rewrite (Device_init_explicit h c (packet p) v Hv), Hv.
  - intros h2. apply Device_init_schema.
Qed.

(** The four packets of the piezo speaker config get pairwise distinct
    ids; with 7 declared for each of them, the same Device is built and
    every packet has the id 7. *)
Lemma Device_init_ids_unique_piezo :
  NoDup (get_function_id (fst (Device_init Samples.piezo_heap Samples.piezo_com))
           <$> all_packets (device_of Samples.piezo_heap Samples.piezo_com)) /\
  snd (Device_init (fun l => set_function_id 7 (Samples.piezo_heap l)) Samples.piezo_com) =
    Ok (device_of Samples.piezo_heap Samples.piezo_com) /\
  fst (Device_init (fun l => set_function_id 7 (Samples.piezo_heap l)) Samples.piezo_com)
      1%nat =
    set_function_id 7 Samples.morse_code.
Proof.
  destruct (Device_init_ids_unique Samples.piezo_heap Samples.piezo_com)
    as (Hfresh & _ & _ & Hsame).
  destruct (Device_init_ids_unique (fun l => set_function_id 7 (Samples.piezo_heap l))
              Samples.piezo_com) as (_ & Hkept & _).
  split; [|split].
  - destruct (Hfresh (fst (Device_init Samples.piezo_heap Samples.piezo_com))
                (device_of Samples.piezo_heap Samples.piezo_com)) as [_ Hnd].
    + reflexivity.
    + simpl. repeat (apply NoDup_cons; split; [not_listed|]). apply NoDup_nil_2.
    + intros l Hl. simpl in Hl.
      repeat (apply elem_of_cons in Hl as [->|Hl]; [reflexivity|]).
      by apply elem_of_nil in Hl.
    + exact Hnd.
  - rewrite (Hsame (fun l => set_function_id 7 (Samples.piezo_heap l))); [reflexivity|].
    intros l. by repeat split.
  - apply (Hkept 1%nat 7). reflexivity.
Defined.

(** *** Loading a configuration *)

Lemma forallb_false {A : Type} (f : A -> bool) (l : list A) :
  forallb f l = false <-> exists x, x ∈ l /\ f x = false.
Proof.
  induction l as [|x l IH]; simpl.
  - split; [done|]. intros (x & Hx & _). by apply elem_of_nil in Hx.
  - rewrite andb_false_iff, IH. split.
    + intros [Hx|(y & Hy & Hfy)].
      * exists x. split; [apply list_elem_of_here | done].
      * exists y. split; [by apply list_elem_of_further | done].
    + intros (y & Hy & Hfy). apply elem_of_cons in Hy as [->|Hy]; [by left|].
      right. eauto.
Qed.

Lemma valid_direction_false (e : element) :
  valid_direction e = false <-> el_direction e <> "in" /\ el_direction e <> "out".
Proof.
  unfold valid_direction, is_in, is_out.
  rewrite orb_false_iff, !String.eqb_neq. done.
Qed.

Lemma packet_ok_false (d : packet_dict) :
  packet_ok d = false <->
  Py.lower (fst (p_name d)) <> Py.replace "_" EmptyString (snd (p_name d)) \/
  (exists e, e ∈ p_elements d /\ el_direction e <> "in" /\ el_direction e <> "out").
Proof.
  unfold packet_ok, name_mismatch.
  rewrite andb_false_iff, negb_false_iff, negb_true_iff, String.eqb_neq, forallb_false.
  split; (intros [Hn|(e & He & Hd)]; [by left | right; exists e; split; [done|]]);
    by apply valid_direction_false.
Qed.

Lemma valid_type_false (h : heap) (l : loc) :
  valid_type h (packet_of h l) = false <->
  p_type (h l) <> "function" /\ p_type (h l) <> "callback".
Proof.
  unfold valid_type, is_function, is_callback, get_type. simpl.
  rewrite orb_false_iff, !String.eqb_neq. done.
Qed.

Lemma rejected_iff (h : heap) (c : com_dict) :
  rejected h c <-> (names_and_directions_ok h c && types_ok h c)%bool = false.
Proof.
  unfold rejected, names_and_directions_ok, types_ok.
  rewrite andb_false_iff, !forallb_false. split.
  - intros (l & Hl & [Hn|[Hd|Ht]]).
    + left. exists l. split; [done|]. apply packet_ok_false. by left.
    + left. exists l. split; [done|]. apply packet_ok_false. by right.
    + right. exists l. split; [done|]. by apply valid_type_false.
  - intros [(l & Hl & Hb)|(l & Hl & Hb)]; exists l; (split; [done|]).
    + apply packet_ok_false in Hb as [Hn|Hd]; [by left | right; by left].
    + right; right. by apply valid_type_false.
Qed.

(** C7 as stated fails: loading the piezo speaker config returns a Device
    and leaves the first packet record of the configuration changed. *)
Lemma Device_init_writes_config :
  (exists d, snd (Device_init Samples.piezo_heap Samples.piezo_com) = Ok d) /\
  fst (Device_init Samples.piezo_heap Samples.piezo_com) 0%nat <> Samples.piezo_heap 0%nat.
Proof.
  split.
  - exists (device_of Samples.piezo_heap Samples.piezo_com). reflexivity.
  - intros Heq. apply (f_equal p_function_id) in Heq. vm_compute in Heq. discriminate.
Qed.

(** C7, as amended: loading a configuration raises, and then a
    [ValueError], exactly when (a) some packet's lowercased display name
    differs from its wire name with the underscores removed, (b) some
    element's direction is neither [in] nor [out], or (c) some packet's kind
    is neither [function] nor [callback]; apart from raising or returning
    the Device, its only effect is to store a function id into packet
    records of the configuration that had none. *)
Theorem Device_init_failure (h : heap) (c : com_dict) :
  ((exists e, snd (Device_init h c) = Raise e) <-> rejected h c) /\
  (forall e, snd (Device_init h c) = Raise e -> is_ValueError e = true) /\
  (forall l, fst (Device_init h c) l = h l \/
     (l ∈ com_packets c /\ p_function_id (h l) = None /\
      exists v, fst (Device_init h c) l = set_function_id v (h l))).
Proof.
  rewrite rejected_iff.
  destruct (names_and_directions_ok h c && types_ok h c)%bool eqn:Hb.
  - apply andb_prop in Hb as [Hn Ht]. rewrite Device_init_ok by done. simpl.
    split; [|split].
    + split; [by intros [e He] | done].
    + done.
    + intros l. apply assign_ids_effect.
  - destruct (Device_init_raise h c Hb) as (k & msg & ->). simpl.
    split; [|split].
    + split; [done | eauto].
    + intros e He. by inversion He.
    + intros l.
      destruct (assign_ids_effect h 0 (take k (com_packets c)) l)
        as [Hl|(Hin & Hnone & Hv)]; [by left | right].
      split; [|done]. apply elem_of_take in Hin as (j & Hj & _).
      by eapply list_elem_of_lookup_2.
Qed.

(** *** Selecting elements and packets *)

(** C10: on a constructed Packet, [get_elements] gives all elements for
    no direction, the in-elements for [in], the out-elements for [out] and
    raises a [ValueError] for any other direction; on a constructed Device,
    [get_packets] gives all packets for no selector, the function packets
    for [function], the callback packets for [callback] and raises a
    [ValueError] for any other selector. *)
Theorem get_elements_get_packets
    (h : heap) (l : loc) (p : Packet) (c : com_dict) (h' : heap) (d : Device) :
  Packet_init h l = Ok p ->
  Device_init h c = (h', Ok d) ->
  (get_elements p None = Ok (p_elements (h l)) /\
   get_elements p (Some "in") = Ok (List.filter is_in (p_elements (h l))) /\
   get_elements p (Some "out") = Ok (List.filter is_out (p_elements (h l))) /\
   (forall s, s <> "in" -> s <> "out" -> exists msg, get_elements p (Some s) = Raise (ValueError msg))) /\
  (packet <$> all_packets d = com_packets c /\
   get_packets d None = Ok (all_packets d) /\
   get_packets d (Some "function") = Ok (List.filter (is_function h') (all_packets d)) /\
   get_packets d (Some "callback") = Ok (List.filter (is_callback h') (all_packets d)) /\
   (forall s, s <> "function" -> s <> "callback" ->
      exists msg, get_packets d (Some s) = Raise (ValueError msg))).
Proof.
  intros Hp Hd. apply Packet_init_inv in Hp as [_ ->].
  apply Device_init_inv in Hd as (_ & _ & -> & ->).
  pose proof (assign_ids_schema h 0 (com_packets c)) as Hs.
  split.
  - repeat split. intros s Hin Hout. unfold get_elements.
    apply String.eqb_neq in Hin as ->. apply String.eqb_neq in Hout as ->. eauto.
  - split; [apply all_packets_refs|]. split; [done|]. simpl.
    split; [|split].
    + f_equal. apply filter_ext_bool. intros q. symmetry. by apply valid_type_schema.
    + f_equal. apply filter_ext_bool. intros q. symmetry. by apply valid_type_schema.
    + intros s Hf Hc. unfold get_packets.
      apply String.eqb_neq in Hf as ->. apply String.eqb_neq in Hc as ->. eauto.
Qed.

(** On the piezo speaker config: the second packet has two in-elements
    and the device has two callbacks. *)
Lemma get_elements_get_packets_piezo :
  (exists p, Packet_init Samples.piezo_heap 1%nat = Ok p /\
             get_elements p (Some "in") =
             Ok [Element "morse" "string" 60 "in"; Element "frequency" "uint16" 1 "in"]) /\
  (exists h' d, Device_init Samples.piezo_heap Samples.piezo_com = (h', Ok d) /\
             packet <$> default [] (match get_packets d (Some "callback") with
                                    | Ok ps => Some ps
                                    | Raise _ => None
                                    end) = [2; 3]%nat).
Proof.
  pose proof (get_elements_get_packets Samples.piezo_heap 1%nat
                (packet_of Samples.piezo_heap 1%nat) Samples.piezo_com
                (fst (Device_init Samples.piezo_heap Samples.piezo_com))
                (device_of Samples.piezo_heap Samples.piezo_com)) as Hsel.
  destruct Hsel as [(_ & Hin & _) (_ & _ & _ & Hcb & _)]; [reflexivity | reflexivity |].
  split.
  - exists (packet_of Samples.piezo_heap 1%nat).
    split; [reflexivity|]. rewrite Hin. reflexivity.
  - exists (fst (Device_init Samples.piezo_heap Samples.piezo_com)),
           (device_of Samples.piezo_heap Samples.piezo_com).
    split; [reflexivity|]. rewrite Hcb. reflexivity.
Defined.

(** *** Facts about strings *)

Lemma append_nil_l (s : string) : EmptyString +:+ s = s.
Proof. reflexivity. Qed.

Lemma append_cons (c : ascii) (s t : string) : String c s +:+ t = String c (s +:+ t).
Proof. reflexivity. Qed.

Lemma append_nil_r (s : string) : s +:+ EmptyString = s.
Proof. induction s as [|c s IH]; [done|]. by rewrite append_cons, IH. Qed.

Lemma append_assoc (s1 s2 s3 : string) : (s1 +:+ s2) +:+ s3 = s1 +:+ (s2 +:+ s3).
Proof. induction s1 as [|c s1 IH]; [done|]. by rewrite !append_cons, IH. Qed.

Lemma length_append (s t : string) :
  String.length (s +:+ t) = (String.length s + String.length t)%nat.
Proof. induction s as [|c s IH]; [done|]. rewrite append_cons. simpl. by rewrite IH. Qed.

Lemma append_inv_tail (s1 s2 t : string) : s1 +:+ t = s2 +:+ t -> s1 = s2.
Proof.
  revert s2. induction s1 as [|c s1 IH]; intros [|c2 s2] Heq.
  - done.
  - apply (f_equal String.length) in Heq.
    rewrite append_nil_l, length_append in Heq. simpl in Heq. lia.
  - apply (f_equal String.length) in Heq.
    rewrite append_nil_l, length_append in Heq. simpl in Heq. lia.
  - rewrite !append_cons in Heq. inversion Heq. f_equal. by apply IH.
Qed.

(** *** Response-expected flags *)

Lemma function_setto_flag (h : heap) (p : Packet) :
  Java.function_setto h p = Ok (flag_text (function_flag (has_out p) (overrides h p))).
Proof.
  unfold Java.function_setto, function_flag, has_out, overrides, get_doc. simpl.
  destruct (0 <? length (out_elements p))%nat; [done|].
  by destruct (String.eqb (p_doc_tag (h (packet p))) "ccf").
Qed.

Lemma re_format_flag_line (pre : string) (h : heap) (p : Packet) (f : response_expected) :
  Java.re_format (pre +:+ get_upper_case_name h p) (flag_text f) =
  flag_line (constant_name pre h p) f.
Proof.
  unfold Java.re_format, flag_line, constant_name, get_upper_case_name, tab, nl.
  by rewrite !append_cons, !append_nil_l.
Qed.

Lemma functions_loop_lines (h : heap) (ps : list Packet) (acc : string) :
  Java.functions_loop h ps acc = Ok (acc +:+ concat_all (function_line h <$> ps)).
Proof.
  revert acc. induction ps as [|p ps IH]; intros acc.
  - simpl. by rewrite append_nil_r.
  - cbn [Java.functions_loop]. rewrite function_setto_flag.
    cbn [mbind res_bind]. rewrite IH, re_format_flag_line.
    cbn [fmap list_fmap concat_all foldr]. unfold function_line.
    by rewrite append_assoc.
Qed.

Lemma callbacks_loop_lines (h : heap) (ps : list Packet) (acc : string) :
  Java.callbacks_loop h ps acc = acc +:+ concat_all (callback_line h <$> ps).
Proof.
  revert acc. induction ps as [|p ps IH]; intros acc.
  - simpl. by rewrite append_nil_r.
  - cbn [Java.callbacks_loop]. rewrite IH.
    change "RESPONSE_EXPECTED_FLAG_ALWAYS_FALSE;" with (flag_text AlwaysFalse).
    rewrite re_format_flag_line.
    cbn [fmap list_fmap concat_all foldr]. unfold callback_line.
    by rewrite append_assoc.
Qed.

Lemma flag_text_inj (f g : response_expected) : flag_text f = flag_text g -> f = g.
Proof. destruct f, g; simpl; intros Heq; congruence. Qed.

Lemma flag_line_inj (constant : string) (f g : response_expected) :
  flag_line constant f = flag_line constant g -> f = g.
Proof.
  unfold flag_line. intros Heq. injection Heq as Heq.
  do 3 apply String.app_inj in Heq.
  apply append_inv_tail in Heq. by apply flag_text_inj.
Qed.

(** C5: the emitted table has one line per function packet followed by
    one line per callback packet, each setting the entry of the packet's
    constant to its flag.  The flag that the code chooses for a function
    packet is always-true exactly when the packet has an out-element and
    otherwise true or false according to the packet's override (false
    without one); the line of a callback packet has always-false whatever
    its out-elements are.  A line has one flag only. *)
Theorem get_java_response_expected_flags (h : heap) (d : Device) :
  Java.get_java_response_expected h d =
    Ok (concat_all (function_line h <$> function_packets d) +:+
        concat_all (callback_line h <$> callback_packets d)) /\
  (forall p, function_flag (has_out p) (overrides h p) = AlwaysTrue <-> out_elements p <> []) /\
  (forall p, out_elements p = [] ->
     function_flag (has_out p) (overrides h p) =
     if overrides h p then ExpectedTrue else ExpectedFalse) /\
  (forall f g, flag_text f = flag_text g -> f = g) /\
  (forall p,
     Java.functions_loop h [p] EmptyString =
       Ok (flag_line (constant_name "FUNCTION_" h p) AlwaysTrue) <->
     out_elements p <> []) /\
  (forall p, out_elements p = [] ->
     Java.functions_loop h [p] EmptyString =
     Ok (flag_line (constant_name "FUNCTION_" h p)
           (if String.eqb (p_doc_tag (h (packet p))) "ccf"
            then ExpectedTrue else ExpectedFalse))) /\
  (forall p,
     Java.callbacks_loop h [p] EmptyString =
     flag_line (constant_name "CALLBACK_" h p) AlwaysFalse) /\
  (forall constant f g, flag_line constant f = flag_line constant g -> f = g).
Proof.
  assert (forall p, function_flag (has_out p) (overrides h p) = AlwaysTrue <->
                    out_elements p <> []) as Hflag.
  { intros p. unfold function_flag, has_out.
    destruct (out_elements p) as [|e es]; simpl.
    - split; [by destruct (overrides h p) | done].
    - done. }
  assert (forall p, Java.functions_loop h [p] EmptyString = Ok (function_line h p)) as Hone.
  { intros p. rewrite functions_loop_lines. cbn [fmap list_fmap concat_all foldr].
    by rewrite append_nil_l, append_nil_r. }
  split; [|split; [|split; [|split; [|split; [|split; [|split]]]]]].
  - unfold Java.get_java_response_expected. simpl.
    rewrite functions_loop_lines. simpl. by rewrite callbacks_loop_lines.
  - exact Hflag.
  - intros p Hout. unfold function_flag, has_out. by rewrite Hout.
  - apply flag_text_inj.
  - intros p. rewrite Hone, <- Hflag. unfold function_line. split.
    + intros Heq. apply (flag_line_inj (constant_name "FUNCTION_" h p)). congruence.
    + by intros ->.
  - intros p Hout. rewrite Hone.
    unfold function_line, function_flag, has_out, overrides. by rewrite Hout.
  - intros p. rewrite callbacks_loop_lines. cbn [fmap list_fmap concat_all foldr].
    by rewrite append_nil_l, append_nil_r.
  - apply flag_line_inj.
Qed.

(** On a device with a getter, a setter with the override, a setter
    without it and a callback with an out-element, the table is these four
    lines. *)
Lemma get_java_response_expected_flags_sample :
  Java.get_java_response_expected
    (fst (Device_init Samples.flags_heap Samples.flags_com))
    (device_of Samples.flags_heap Samples.flags_com) =
  Ok (tab +:+ tab +:+ "responseExpected[IPConnection.unsignedByte(FUNCTION_GET_STACK_VOLTAGE)] = RESPONSE_EXPECTED_FLAG_ALWAYS_TRUE;" +:+ nl +:+
      tab +:+ tab +:+ "responseExpected[IPConnection.unsignedByte(FUNCTION_SET_PERIOD)] = RESPONSE_EXPECTED_FLAG_TRUE;" +:+ nl +:+
      tab +:+ tab +:+ "responseExpected[IPConnection.unsignedByte(FUNCTION_BEEP)] = RESPONSE_EXPECTED_FLAG_FALSE;" +:+ nl +:+
      tab +:+ tab +:+ "responseExpected[IPConnection.unsignedByte(CALLBACK_VOLTAGE_REACHED)] = RESPONSE_EXPECTED_FLAG_ALWAYS_FALSE;" +:+ nl).
Proof.
  destruct (get_java_response_expected_flags
              (fst (Device_init Samples.flags_heap Samples.flags_com))
              (device_of Samples.flags_heap Samples.flags_com)) as [Htable _].
  rewrite Htable. reflexivity.
Defined.

(** The same table, computed by the code alone, and the construction of
    the device it belongs to. *)
Example get_java_response_expected_text :
  snd (Device_init Samples.flags_heap Samples.flags_com) =
    Ok (device_of Samples.flags_heap Samples.flags_com) /\
  Java.get_java_response_expected
    (fst (Device_init Samples.flags_heap Samples.flags_com))
    (device_of Samples.flags_heap Samples.flags_com) =
  Ok (tab +:+ tab +:+ "responseExpected[IPConnection.unsignedByte(FUNCTION_GET_STACK_VOLTAGE)] = RESPONSE_EXPECTED_FLAG_ALWAYS_TRUE;" +:+ nl +:+
      tab +:+ tab +:+ "responseExpected[IPConnection.unsignedByte(FUNCTION_SET_PERIOD)] = RESPONSE_EXPECTED_FLAG_TRUE;" +:+ nl +:+
      tab +:+ tab +:+ "responseExpected[IPConnection.unsignedByte(FUNCTION_BEEP)] = RESPONSE_EXPECTED_FLAG_FALSE;" +:+ nl +:+
      tab +:+ tab +:+ "responseExpected[IPConnection.unsignedByte(CALLBACK_VOLTAGE_REACHED)] = RESPONSE_EXPECTED_FLAG_ALWAYS_FALSE;" +:+ nl).
Proof. split; reflexivity. Qed.

(** *** The generation date in the output *)

Lemma gen_text_star_inj (date1 date2 : string) :
  gen_text_star date1 = gen_text_star date2 -> date1 = date2.
Proof.
  unfold gen_text_star. intros Heq.
  do 3 apply String.app_inj in Heq.
  rewrite <- !append_assoc in Heq.
  by do 12 apply append_inv_tail in Heq.
Qed.

Lemma gen_text_rst_inj (date1 date2 : string) :
  gen_text_rst date1 = gen_text_rst date2 -> date1 = date2.
Proof.
  unfold gen_text_rst. intros Heq.
  do 5 apply String.app_inj in Heq.
  rewrite <- !append_assoc in Heq.
  by do 12 apply append_inv_tail in Heq.
Qed.

(** C9 as stated fails: two runs over the same configuration on two
    different days give different file headers. *)
Lemma get_java_import_two_days :
  Java.get_java_import (DateTime 2013 1 7) (Some ("2", "0", "0")) <>
  Java.get_java_import (DateTime 2013 1 8) (Some ("2", "0", "0")).
Proof.
  intros Heq. vm_compute in Heq. inversion Heq.
Qed.

(** C9, as amended: the generated headers depend on the run only through
    the generation date: two runs over the same configuration give the same
    Java import header, and the same RST header, exactly when they format
    the same date. *)
Theorem headers_depend_on_date (now1 now2 : datetime) :
  (forall v1 v2,
     Java.get_java_import now1 (Some v1) = Java.get_java_import now2 (Some v2) <->
     strftime_Ymd now1 = strftime_Ymd now2) /\
  (forall device ref_name title,
     make_rst_header now1 device ref_name title = make_rst_header now2 device ref_name title <->
     strftime_Ymd now1 = strftime_Ymd now2).
Proof.
  split.
  - intros v1 v2. unfold Java.get_java_import. split.
    + intros Heq.
      assert (Java.include (gen_text_star (strftime_Ymd now1)) =
              Java.include (gen_text_star (strftime_Ymd now2))) as Hinc by congruence.
      unfold Java.include in Hinc.
      apply append_inv_tail in Hinc. by apply gen_text_star_inj.
    + by intros ->.
  - intros device ref_name title. unfold make_rst_header. split.
    + cbv zeta. intros Heq. apply append_inv_tail in Heq. by apply gen_text_rst_inj.
    + by intros ->.
Qed.

(** *** Merging the common packets *)

Lemma list_remove_other (x y : string) (l l' : list string) :
  list_remove x l = Ok l' -> y ∈ l -> y <> x -> y ∈ l'.
Proof.
  revert l'. induction l as [|z l IH]; intros l' Hr Hy Hne; simpl in Hr; [done|].
  destruct (String.eqb_spec z x) as [->|Hzx].
  - inversion Hr; subst. apply elem_of_cons in Hy as [?|?]; done.
  - destruct (list_remove x l) as [r|e] eqn:Hrec; simpl in Hr; [|done].
    inversion Hr; subst. apply elem_of_cons in Hy as [->|Hy].
    + apply list_elem_of_here.
    + apply list_elem_of_further. by apply IH.
Qed.

Section GenerateTwice.

Variable make_files : string -> world -> world * option exn.

(** The callback leaves the [com] objects of the config modules as they
    are. *)
Hypothesis make_files_modules :
  forall name w, w_modules (fst (make_files name w)) = w_modules w.

(** A module that has the marker is not changed any more. *)
Lemma run_configs_keeps_merged (cp : list loc) (configs : list string) (w : world)
    (name : string) (c : com_dict) :
  w_modules w !! name = Some c -> com_common_included c = true ->
  w_modules (fst (run_configs make_files cp configs w)) !! name = Some c.
Proof.
  revert w. induction configs as [|config rest IH]; intros w Hc Hm; simpl; [done|].
  destruct (Py.endswith "_config.py" config); [|by apply IH].
  destruct (w_modules w !! Py.drop_last 3 config) as [c0|] eqn:Hc0; [|done].
  set (w1 := if (Py.contains "brick_" config && negb (com_common_included c0))%bool
             then set_module (Py.drop_last 3 config) (include_common cp c0) w else w).
  assert (w_modules w1 !! name = Some c) as Hw1.
  { subst w1. destruct (Py.contains "brick_" config && negb (com_common_included c0))%bool
      eqn:Hcond; [|done].
    simpl. destruct (decide (Py.drop_last 3 config = name)) as [Heq|Hne].
    - rewrite Heq, Hc in Hc0. inversion Hc0; subst c0.
      rewrite Hm in Hcond. by rewrite andb_false_r in Hcond.
    - by rewrite lookup_insert_ne. }
  pose proof (make_files_modules (Py.drop_last 3 config) w1) as Hmf.
  destruct (make_files (Py.drop_last 3 config) w1) as [w2 [e|]]; simpl in *.
  - by rewrite Hmf.
  - apply IH; [by rewrite Hmf | done].
Qed.

(** Each [com] is either left alone or extended by the common packets
    once. *)
Lemma run_configs_once (cp : list loc) (configs : list string) (w : world)
    (name : string) (c : com_dict) :
  w_modules w !! name = Some c ->
  w_modules (fst (run_configs make_files cp configs w)) !! name = Some c \/
  (com_common_included c = false /\
   w_modules (fst (run_configs make_files cp configs w)) !! name =
   Some (include_common cp c)).
Proof.
  revert w. induction configs as [|config rest IH]; intros w Hc; simpl; [by left|].
  destruct (Py.endswith "_config.py" config); [|by apply IH].
  destruct (w_modules w !! Py.drop_last 3 config) as [c0|] eqn:Hc0; [|by left].
  set (w1 := if (Py.contains "brick_" config && negb (com_common_included c0))%bool
             then set_module (Py.drop_last 3 config) (include_common cp c0) w else w).
  pose proof (make_files_modules (Py.drop_last 3 config) w1) as Hmf.
  assert (w_modules w1 !! name = Some c \/
          (com_common_included c = false /\
           w_modules w1 !! name = Some (include_common cp c))) as [Hw1|[Hm Hw1]].
  { subst w1. destruct (Py.contains "brick_" config && negb (com_common_included c0))%bool
      eqn:Hcond; [|by left].
    simpl. destruct (decide (Py.drop_last 3 config = name)) as [Heq|Hne].
    - rewrite Heq, Hc in Hc0. inversion Hc0; subst c0. right.
      apply andb_prop in Hcond as [_ Hcond]. apply negb_true_iff in Hcond.
      split; [done|]. rewrite Heq. apply lookup_insert_eq.
    - left. by rewrite lookup_insert_ne. }
  - destruct (make_files (Py.drop_last 3 config) w1) as [w2 [e|]]; simpl in *.
    + left. by rewrite Hmf.
    + apply IH. by rewrite Hmf.
  - right. split; [done|].
    destruct (make_files (Py.drop_last 3 config) w1) as [w2 [e|]]; simpl in *.
    + by rewrite Hmf.
    + apply run_configs_keeps_merged; [by rewrite Hmf | done].
Qed.

(** After a run that returns, the module of every brick config has the
    marker. *)
Lemma run_configs_merges (cp : list loc) (configs : list string) (w w' : world)
    (config : string) :
  run_configs make_files cp configs w = (w', None) ->
  config ∈ configs -> is_brick_config config = true ->
  exists c, w_modules w' !! Py.drop_last 3 config = Some c /\ com_common_included c = true.
Proof.
  unfold is_brick_config.
  revert w. induction configs as [|config0 rest IH]; intros w Hrun Hin Hb;
    [by apply elem_of_nil in Hin|].
  simpl in Hrun. apply andb_prop in Hb as [Hend Hbrick].
  destruct (decide (config = config0)) as [<-|Hne].
  - rewrite Hend in Hrun.
    destruct (w_modules w !! Py.drop_last 3 config) as [c0|] eqn:Hc0; [|done].
    rewrite Hbrick in Hrun. simpl in Hrun.
    set (w1 := if negb (com_common_included c0)
               then set_module (Py.drop_last 3 config) (include_common cp c0) w else w) in *.
    pose proof (make_files_modules (Py.drop_last 3 config) w1) as Hmf.
    assert (exists c, w_modules w1 !! Py.drop_last 3 config = Some c /\
                      com_common_included c = true) as (c & Hc & Hm).
    { subst w1. destruct (com_common_included c0) eqn:Hm0; simpl.
      - by exists c0.
      - exists (include_common cp c0). split; [apply lookup_insert_eq | done]. }
    destruct (make_files (Py.drop_last 3 config) w1) as [w2 [e|]]; simpl in *; [done|].
    exists c. split; [|done].
    replace w' with (fst (run_configs make_files cp rest w2)) by (by rewrite Hrun).
    apply run_configs_keeps_merged; [by rewrite Hmf | done].
  - apply elem_of_cons in Hin as [?|Hin]; [done|].
    destruct (Py.endswith "_config.py" config0).
    + destruct (w_modules w !! Py.drop_last 3 config0) as [c0|]; [|done].
      destruct (make_files _ _) as [w2 [e|]]; [done|].
      apply (IH w2); [done | done | by rewrite Hend, Hbrick].
    + apply (IH w); [done | done | by rewrite Hend, Hbrick].
Qed.

(** A run over configs whose modules all have the marker changes no
    [com]. *)
Lemma run_configs_noop (cp : list loc) (configs : list string) (w : world) :
  (forall config c, config ∈ configs -> is_brick_config config = true ->
     w_modules w !! Py.drop_last 3 config = Some c -> com_common_included c = true) ->
  w_modules (fst (run_configs make_files cp configs w)) = w_modules w.
Proof.
  unfold is_brick_config.
  revert w. induction configs as [|config rest IH]; intros w Hall; simpl; [done|].
  destruct (Py.endswith "_config.py" config) eqn:Hend.
  - destruct (w_modules w !! Py.drop_last 3 config) as [c0|] eqn:Hc0; [|done].
    assert ((Py.contains "brick_" config && negb (com_common_included c0))%bool = false)
      as ->.
    { destruct (Py.contains "brick_" config) eqn:Hbrick; [|done]. simpl.
      rewrite (Hall config c0); [done | apply list_elem_of_here | by rewrite Hend | done]. }
    pose proof (make_files_modules (Py.drop_last 3 config) w) as Hmf.
    destruct (make_files (Py.drop_last 3 config) w) as [w2 [e|]]; simpl in *; [done|].
    rewrite IH; [done|]. intros config' c Hin Hb. rewrite Hmf.
    apply Hall; [by apply list_elem_of_further | done].
  - apply IH. intros config' c Hin. apply Hall. by apply list_elem_of_further.
Qed.

Lemma load_common_configs (configs : list string) (w w' : world) :
  fst (load_common configs w) = fst (load_common configs w').
Proof.
  unfold load_common. destruct (list_remove "brick_commonconfig.py" configs); [|done].
  by destruct (w_common_packets w), (w_common_packets w').
Qed.

Lemma load_common_keeps (configs : list string) (w : world) (config : string) :
  config ∈ configs -> Py.endswith "_config.py" config = true ->
  config ∈ fst (load_common configs w).
Proof.
  intros Hin Hend. unfold load_common.
  destruct (list_remove "brick_commonconfig.py" configs) as [configs'|] eqn:Hr; [|done].
  assert (config ∈ configs') as Hin'.
  { eapply list_remove_other; [done | done |]. intros ->. discriminate. }
  by destruct (w_common_packets w).
Qed.

(** C6: in a generation run that returns, the [com] of every brick config
    that did not have the marker gets the common packets appended once, and
    a second run over the same configs changes no [com] at all, so every
    packet sequence is the one the first run left. *)
Theorem generate_merges_once (configs : list string) (w w1 : world) :
  generate make_files configs w = (w1, None) ->
  (forall config c, config ∈ configs -> is_brick_config config = true ->
     w_modules w !! Py.drop_last 3 config = Some c ->
     com_common_included c = false ->
     exists c1, w_modules w1 !! Py.drop_last 3 config = Some c1 /\
       com_common_included c1 = true /\
       com_packets c1 = com_packets c ++ snd (load_common configs w)) /\
  w_modules (fst (generate make_files configs w1)) = w_modules w1.
Proof.
  unfold generate. intros Hrun.
  pose proof (load_common_configs configs w w1) as Hsame.
  pose proof (load_common_keeps configs w) as Hkeep.
  destruct (load_common configs w) as [configs' cp].
  destruct (load_common configs w1) as [configs1 cp1]. simpl in *. subst configs1.
  split.
  - intros config c Hin Hb Hc Hm.
    pose proof Hb as [Hend _]%andb_prop.
    destruct (run_configs_merges cp configs' w w1 config Hrun (Hkeep _ Hin Hend) Hb)
      as (c1 & Hc1 & Hm1).
    exists c1. split; [done|]. split; [done|].
    destruct (run_configs_once cp configs' w _ c Hc) as [Hsame|[_ Hmerged]];
      rewrite Hrun in *; simpl in *.
    + congruence.
    + rewrite Hc1 in Hmerged. by inversion Hmerged.
  - apply run_configs_noop. intros config c Hin Hb Hc.
    destruct (run_configs_merges cp configs' w w1 config Hrun Hin Hb) as (c1 & Hc1 & Hm1).
    congruence.
Qed.

End GenerateTwice.

Lemma make_files_device_modules (name : string) (w : world) :
  w_modules (fst (make_files_device name w)) = w_modules w.
Proof.
  unfold make_files_device. destruct (w_modules w !! name) as [c|]; [|done].
  by destruct (Device_init (w_heap w) c).
Qed.

(** With the Device-building callback, the master brick has its own
    packet followed by the two common packets after one run and after two. *)
Lemma generate_merges_once_master :
  com_packets <$>
    (w_modules (fst (generate make_files_device Samples.listing Samples.brick_world))
       !! "brick_master_config") = Some [10; 20; 21]%nat /\
  w_modules (fst (generate make_files_device Samples.listing
                    (fst (generate make_files_device Samples.listing Samples.brick_world)))) =
  w_modules (fst (generate make_files_device Samples.listing Samples.brick_world)).
Proof.
  set (w1 := fst (generate make_files_device Samples.listing Samples.brick_world)).
  pose proof (generate_merges_once make_files_device make_files_device_modules
                Samples.listing Samples.brick_world w1) as [Hfirst Hsecond].
  { vm_compute. reflexivity. }
  split; [|exact Hsecond].
  destruct (Hfirst "brick_master_config.py" Samples.master_com) as (c1 & Hc1 & _ & Hp).
  - unfold Samples.listing. apply list_elem_of_further, list_elem_of_here.
  - reflexivity.
  - vm_compute. reflexivity.
  - reflexivity.
  - change (Py.drop_last 3 "brick_master_config.py") with "brick_master_config" in Hc1.
    rewrite Hc1. simpl. rewrite Hp. reflexivity.
Defined.

(** The common packet records are shared by the bricks.  Without declared
    ids they get their ids when the first brick is built (2 and 3 after the
    master's own packet) and keep them in the second, where the second own
    packet has id 2 as well. *)
Example shared_common_packets_keep_first_ids :
  snd (generate make_files_device Samples.shared_listing Samples.shared_world) = None /\
  (fun l => p_function_id
              (w_heap (fst (generate make_files_device Samples.shared_listing
                              Samples.shared_world)) l))
    <$> [11; 12; 30; 31]%nat = [Some 1; Some 2; Some 2; Some 3].
Proof. split; vm_compute; reflexivity. Qed.

(** *** Request marshalling of arrays *)

Lemma replace_from_cons (old new : string) (a : ascii) (x : string) :
  Py.replace_from old new 0 (String a x) =
  if Py.startswith old (String a x)
  then new +:+ Py.replace_from old new (String.length old - 1) x
  else String a (Py.replace_from old new 0 x).
Proof. reflexivity. Qed.

Lemma replace_from_skip (old new : string) (k : nat) (a : ascii) (x : string) :
  Py.replace_from old new (S k) (String a x) = Py.replace_from old new k x.
Proof. reflexivity. Qed.

Lemma startswith_semicolon_app (s t : string) :
  Py.startswith ";" t = false ->
  Py.startswith ";" (s +:+ t) = Py.startswith ";" s.
Proof. intros Ht. destruct s as [|b s]; [by rewrite append_nil_l | done]. Qed.

(** Replacing [");"] in [s +:+ t] can be done in [s] and [t] separately
    when [t] does not begin with [";"]: no occurrence lies across the
    seam. *)
Lemma replace_paren_app (new s t : string) :
  Py.startswith ";" t = false ->
  Py.replace_from ");" new 0 (s +:+ t) =
    Py.replace_from ");" new 0 s +:+ Py.replace_from ");" new 0 t /\
  (s <> EmptyString ->
   Py.replace_from ");" new 1 (s +:+ t) =
     Py.replace_from ");" new 1 s +:+ Py.replace_from ");" new 0 t).
Proof.
  intros Ht. induction s as [|a s [IH0 IH1]].
  - split; [by rewrite !append_nil_l | done].
  - split.
    + rewrite append_cons, !replace_from_cons.
      change (Py.startswith ");" (String a (s +:+ t)))
        with (Ascii.eqb ")" a && Py.startswith ";" (s +:+ t))%bool.
      change (Py.startswith ");" (String a s))
        with (Ascii.eqb ")" a && Py.startswith ";" s)%bool.
      rewrite startswith_semicolon_app by done.
      destruct (Ascii.eqb ")" a && Py.startswith ";" s)%bool eqn:Hm.
      * apply andb_prop in Hm as [_ Hm]. change (String.length ");" - 1)%nat with 1%nat.
        rewrite IH1 by (intros ->; discriminate). by rewrite append_assoc.
      * by rewrite IH0, append_cons.
    + intros _. by rewrite append_cons, !replace_from_skip.
Qed.

(** C8, the failing case: for a bool element of cardinality above 1 the
    emitted request statement indexes the parenthesised conditional,
    [(name ? 1 : 0)[i]], not the array [name], whatever the Java tables
    are. *)
Theorem bbput_element_bool_array (J : Java.JavaElement) (e : element) :
  el_type e = "bool" -> 1 < el_cardinality e ->
  exists pre,
    Java.bbput_element e =
    Java.loop (Java.str (el_cardinality e)) (tab +:+ pre +:+ " ? 1 : 0)[i]);") +:+ nl.
Proof.
  intros Ht Hc. unfold Java.bbput_element. rewrite Ht.
  change (String.eqb "bool" "bool") with true.
  change (String.eqb "bool" "string") with false.
  apply Z.ltb_lt in Hc as ->. cbv iota.
  set (cast := if negb _ then _ else _).
  set (name := Java.get_headless_camel_case_name e).
  set (suffix := Java.get_java_byte_buffer_method_suffix e).
  set (X := tab +:+ tab +:+ "bb.put" +:+ suffix +:+ "(" +:+ cast +:+ "(" +:+ name).
  exists (Py.replace_from ");" "[i]);" 0 X).
  assert (Java.bbput suffix cast ("(" +:+ name +:+ " ? 1 : 0)") =
          (X +:+ " ? 1 : 0)") +:+ ");") as ->.
  { unfold Java.bbput, X. by rewrite !append_assoc. }
  unfold Py.replace.
  destruct (replace_paren_app "[i]);" (X +:+ " ? 1 : 0)") ");" eq_refl) as [-> _].
  destruct (replace_paren_app "[i]);" X " ? 1 : 0)" eq_refl) as [-> _].
  change (Py.replace_from ");" "[i]);" 0 " ? 1 : 0)") with " ? 1 : 0)".
  change (Py.replace_from ");" "[i]);" 0 ");") with "[i]);".
  by rewrite !append_assoc.
Qed.

(** The request statement emitted for [('value', 'bool', 4, 'in')]. *)
Lemma bbput_element_bool_array_value :
  exists pre,
    @Java.bbput_element Samples.java_tables (Element "value" "bool" 4 "in") =
    Java.loop "4" (tab +:+ pre +:+ " ? 1 : 0)[i]);") +:+ nl.
Proof.
  apply (bbput_element_bool_array Samples.java_tables (Element "value" "bool" 4 "in")).
  - reflexivity.
  - simpl. lia.
Defined.

Example bbput_element_bool_array_text :
  @Java.bbput_element Samples.java_tables (Element "value" "bool" 4 "in") =
  tab +:+ tab +:+ "for(int i = 0; i < 4; i++) {" +:+ nl +:+
  tab +:+ tab +:+ tab +:+ "bb.put((byte)(value ? 1 : 0)[i]);" +:+ nl +:+
  tab +:+ tab +:+ "}" +:+ nl +:+ nl.
Proof. vm_compute. reflexivity. Qed.

(** The response side indexes the array itself: for the same element as an
    out-element, [get_java_bbgets] emits an assignment to [value[i]]. *)
Example bbget_element_bool_array_text :
  fst (@Java.bbget_element Samples.java_tables false (Element "value" "bool" 4 "out")) =
  tab +:+ tab +:+ "boolean[] value = new boolean[4];" +:+ nl +:+
  tab +:+ tab +:+ "for(int i = 0; i < 4; i++) {" +:+ nl +:+
  tab +:+ tab +:+ tab +:+ "value[i] = (bb.get()) != 0;" +:+ nl +:+
  tab +:+ tab +:+ "}" +:+ nl +:+ nl.
Proof. vm_compute. reflexivity. Qed.

(** A string element is written character by character, with a zero byte
    where the string has ended. *)
Example bbput_element_string_text :
  @Java.bbput_element Samples.java_tables (Element "morse" "string" 60 "in") =
  tab +:+ tab +:+ "for(int i = 0; i < 60; i++) {" +:+ nl +:+
  tab +:+ tab +:+ tab +:+ "try {" +:+ nl +:+
  tab +:+ tab +:+ tab +:+ tab +:+ "bb.put((byte)morse.charAt(i));" +:+ nl +:+
  tab +:+ tab +:+ tab +:+ "} catch(Exception e) {" +:+ nl +:+
  tab +:+ tab +:+ tab +:+ tab +:+ "bb.put((byte)0);" +:+ nl +:+
  tab +:+ tab +:+ tab +:+ "}" +:+ nl +:+
  tab +:+ tab +:+ "}" +:+ nl +:+ nl.
Proof. vm_compute. reflexivity. Qed.

(** ** Further properties *)

(** *** Elements and lengths of a packet *)

Lemma filter_in_out_length (es : list element) :
  forallb valid_direction es = true ->
  (length (List.filter is_in es) + length (List.filter is_out es))%nat = length es.
Proof.
  induction es as [|e es IH]; simpl; [done|].
  intros [He Hes]%andb_prop. specialize (IH Hes).
  unfold valid_direction, is_in, is_out in *.
  destruct (String.eqb_spec (el_direction e) "in") as [Ein|Ein].
  - rewrite Ein. simpl. lia.
  - destruct (String.eqb_spec (el_direction e) "out") as [Eout|Eout]; [|done].
    simpl. lia.
Qed.

Lemma filter_in_out_size (width : string -> Z) (es : list element) :
  forallb valid_direction es = true ->
  frame_length width (List.filter is_in es) + frame_length width (List.filter is_out es) =
  4 + frame_length width es.
Proof.
  unfold frame_length.
  induction es as [|e es IH]; simpl; [lia|].
  intros [He Hes]%andb_prop. specialize (IH Hes).
  unfold valid_direction, is_in, is_out in *.
  destruct (String.eqb_spec (el_direction e) "in") as [Ein|Ein].
  - rewrite Ein. simpl. lia.
  - destruct (String.eqb_spec (el_direction e) "out") as [Eout|Eout]; [|done].
    simpl. lia.
Qed.

Lemma in_or_out (es : list element) (e : element) :
  forallb valid_direction es = true ->
  e ∈ es ->
  (e ∈ List.filter is_in es \/ e ∈ List.filter is_out es) /\
  ~ (e ∈ List.filter is_in es /\ e ∈ List.filter is_out es).
Proof.
  intros Hdir He. rewrite !list_elem_of_In, !filter_In, <- !list_elem_of_In.
  rewrite forallb_forall in Hdir. specialize (Hdir e).
  rewrite <- list_elem_of_In in Hdir. specialize (Hdir He).
  unfold valid_direction, is_in, is_out in *.
  destruct (String.eqb_spec (el_direction e) "in") as [Ein|Ein].
  - split; [by left|]. intros [_ [_ Hout]]. rewrite Ein in Hout. discriminate.
  - split; [by right|]. by intros [[_ Hin] _].
Qed.

(** Every element of a constructed packet is an in-element or an
    out-element and not both, whatever its type is: the two lists have as
    many elements as the packet.  When the types of the elements have a
    width, request and response length together are the two headers plus
    the size of all elements. *)
Theorem packet_elements_partition (h : heap) (l : loc) (p : Packet) :
  Packet_init h l = Ok p ->
  (length (in_elements p) + length (out_elements p))%nat = length (all_elements p) /\
  (forall e, e ∈ all_elements p ->
     (e ∈ in_elements p \/ e ∈ out_elements p) /\
     ~ (e ∈ in_elements p /\ e ∈ out_elements p)) /\
  (forall width : string -> Z,
     (forall e, e ∈ p_elements (h l) -> get_type_size (el_type e) = Ok (width (el_type e))) ->
     exists request response,
       get_request_length p = Ok request /\ get_response_length p = Ok response /\
       request + response = 4 + frame_length width (all_elements p)).
Proof.
  intros Hp. pose proof Hp as [Hok ->]%Packet_init_inv.
  apply andb_prop in Hok as [_ Hdir]. simpl. split; [|split].
  - by apply filter_in_out_length.
  - intros e He. by apply in_or_out.
  - intros width Hw.
    exists (frame_length width (List.filter is_in (p_elements (h l)))),
           (frame_length width (List.filter is_out (p_elements (h l)))).
    unfold get_request_length, get_response_length, frame_length. simpl.
    split; [|split].
    + apply add_sizes_width. intros e He. apply Hw. by apply elem_of_List_filter in He.
    + apply add_sizes_width. intros e He. apply Hw. by apply elem_of_List_filter in He.
    + by apply filter_in_out_size.
Qed.

Lemma packet_elements_partition_morse :
  exists request response,
    get_request_length (packet_of Samples.piezo_heap 1%nat) = Ok request /\
    get_response_length (packet_of Samples.piezo_heap 1%nat) = Ok response /\
    request + response = 70.
Proof.
  destruct (packet_elements_partition Samples.piezo_heap 1%nat
              (packet_of Samples.piezo_heap 1%nat)) as (_ & _ & Hsum); [reflexivity|].
  destruct (Hsum type_width) as (rq & rs & H1 & H2 & H3).
  - intros e He. simpl in He.
    repeat (apply elem_of_cons in He as [->|He]; [reflexivity|]).
    by apply elem_of_nil in He.
  - exists rq, rs. split; [done|]. split; [done|]. rewrite H3. reflexivity.
Defined.

(** A packet with an element of an unknown type is constructed all the
    same, and its elements are sorted by direction. *)
Example packet_elements_partition_unknown_type :
  let h : heap := fun _ =>
    {| p_type := "function"; p_name := ("SetValue", "set_value");
       p_elements := [ Element "value" "float32" 1 "in"; Element "old" "uint8" 1 "out" ];
       p_doc_tag := "bf"; p_function_id := None |} in
  exists p, Packet_init h O = Ok p /\
            length (in_elements p) = 1%nat /\ length (out_elements p) = 1%nat /\
            get_request_length p = Raise (KeyError "float32").
Proof. eexists. split; [reflexivity|]. by repeat split. Qed.

Lemma get_element_size_known (e : element) :
  unknown_type e = false ->
  get_element_size e = Ok (type_width (el_type e) * el_cardinality e).
Proof.
  unfold unknown_type, get_element_size, get_type_size, type_width.
  by destruct (types !! el_type e).
Qed.

Lemma get_element_size_unknown (e : element) :
  unknown_type e = true -> get_element_size e = Raise (KeyError (el_type e)).
Proof.
  unfold unknown_type, get_element_size, get_type_size.
  by destruct (types !! el_type e).
Qed.

Lemma add_sizes_find (es : list element) (length : Z) :
  add_sizes length es =
  match List.find unknown_type es with
  | Some e => Raise (KeyError (el_type e))
  | None => Ok (length + (frame_length type_width es - 4))
  end.
Proof.
  unfold frame_length. revert length. induction es as [|e es IH]; intros length; simpl.
  - f_equal. lia.
  - destruct (unknown_type e) eqn:Hu.
    + by rewrite get_element_size_unknown.
    + rewrite get_element_size_known by done. simpl. rewrite IH.
      destruct (List.find unknown_type es); [done|]. f_equal. lia.
Qed.

(** The lengths fail on the first element of their direction whose type
    is not in the table, with that type as the key of the [KeyError], and
    are the sum otherwise; elements of the other direction play no role. *)
Theorem lengths_first_unknown_type (p : Packet) :
  get_request_length p =
    match List.find unknown_type (in_elements p) with
    | Some e => Raise (KeyError (el_type e))
    | None => Ok (frame_length type_width (in_elements p))
    end /\
  get_response_length p =
    match List.find unknown_type (out_elements p) with
    | Some e => Raise (KeyError (el_type e))
    | None => Ok (frame_length type_width (out_elements p))
    end.
Proof.
  unfold get_request_length, get_response_length. rewrite !add_sizes_find.
  split; (destruct (List.find unknown_type _); [done|]); f_equal; lia.
Qed.

(** *** Packets of a device *)

Lemma filter_kind_length (h : heap) (ps : list Packet) :
  forallb (valid_type h) ps = true ->
  (length (List.filter (is_function h) ps) + length (List.filter (is_callback h) ps))%nat =
  length ps.
Proof.
  induction ps as [|p ps IH]; simpl; [done|].
  intros [Hp Hps]%andb_prop. specialize (IH Hps).
  unfold valid_type, is_function, is_callback in *.
  destruct (String.eqb_spec (get_type h p) "function") as [Ef|Ef].
  - rewrite Ef. simpl. lia.
  - destruct (String.eqb_spec (get_type h p) "callback") as [Ec|Ec]; [|done].
    simpl. lia.
Qed.

Lemma elem_of_List_filter_iff {A : Type} (f : A -> bool) (x : A) (l : list A) :
  x ∈ List.filter f l <-> x ∈ l /\ f x = true.
Proof. rewrite !list_elem_of_In. apply filter_In. Qed.

Lemma callback_count_config (h : heap) (ps : list loc) :
  length (List.filter (is_callback h) (packet_of h <$> ps)) =
  length (List.filter (fun l => String.eqb (p_type (h l)) "callback") ps).
Proof.
  induction ps as [|l ps IH]; [done|].
  cbn [fmap list_fmap List.filter].
  change (is_callback h (packet_of h l)) with (String.eqb (p_type (h l)) "callback").
  destruct (String.eqb (p_type (h l)) "callback"); simpl; by f_equal.
Qed.

(** In a constructed Device every packet is a function or a callback and
    not both: the two lists have together as many packets as the
    configuration, a packet is in the one or the other according to its
    kind, and [get_callback_count] counts the callbacks. *)
Theorem device_packets_partition (h h' : heap) (c : com_dict) (d : Device) :
  Device_init h c = (h', Ok d) ->
  (length (function_packets d) + length (callback_packets d))%nat = length (com_packets c) /\
  get_callback_count d =
    length (List.filter (fun l => String.eqb (p_type (h l)) "callback") (com_packets c)) /\
  (forall p, p ∈ all_packets d ->
     (p ∈ function_packets d <-> get_type h' p = "function") /\
     (p ∈ callback_packets d <-> get_type h' p = "callback") /\
     ~ (p ∈ function_packets d /\ p ∈ callback_packets d)).
Proof.
  intros Hd. apply Device_init_inv in Hd as (_ & Ht & -> & ->).
  pose proof (assign_ids_schema h 0 (com_packets c)) as Hs.
  unfold types_ok in Ht. rewrite <- forallb_map in Ht.
  split; [|split].
  - simpl. rewrite filter_kind_length by done. by rewrite length_fmap.
  - unfold get_callback_count. simpl. apply callback_count_config.
  - intros p Hp. simpl in *.
    assert (get_type (assign_ids h 0 (com_packets c)) p = get_type h p) as ->.
    { unfold get_type. by destruct (Hs (packet p)) as (-> & _). }
    rewrite !elem_of_List_filter_iff. unfold is_function, is_callback.
    rewrite !String.eqb_eq. split; [tauto|]. split; [tauto|].
    intros [[_ Hf] [_ Hc]]. congruence.
Qed.

Lemma device_packets_partition_piezo :
  get_callback_count (device_of Samples.piezo_heap Samples.piezo_com) = 2%nat.
Proof.
  destruct (device_packets_partition Samples.piezo_heap
              (fst (Device_init Samples.piezo_heap Samples.piezo_com))
              Samples.piezo_com
              (device_of Samples.piezo_heap Samples.piezo_com)) as (_ & Hcount & _).
  - reflexivity.
  - rewrite Hcount. reflexivity.
Defined.

Lemma assign_ids_defined (h : heap) (i : Z) (ps : list loc) (l : loc) :
  l ∈ ps -> p_function_id (assign_ids h i ps l) <> None.
Proof.
  intros Hl. destruct (assign_ids_effect h i ps l) as [Heq|(_ & Hn & v & ->)]; [|done].
  rewrite Heq. destruct (p_function_id (h l)) as [v|] eqn:Hv; [done|].
  exfalso. revert h i Heq Hv. induction ps as [|l0 ps IH]; intros h i Heq Hv;
    [by apply elem_of_nil in Hl|].
  simpl in Heq. destruct (decide (l = l0)) as [->|Hne].
  - rewrite (assign_ids_explicit _ _ _ _ (i + 1)) in Heq
      by (by rewrite assign_one_fresh).
    rewrite assign_one_fresh in Heq by done.
    apply (f_equal p_function_id) in Heq. rewrite Hv in Heq. done.
  - apply elem_of_cons in Hl as [?|Hl]; [done|].
    apply (IH Hl (assign_one h i l0) (i + 1)).
    + by rewrite assign_one_other.
    + by rewrite assign_one_other.
Qed.

Lemma assign_ids_all_defined (h : heap) (i : Z) (ps : list loc) :
  (forall l, l ∈ ps -> p_function_id (h l) <> None) -> assign_ids h i ps = h.
Proof.
  revert h i. induction ps as [|l ps IH]; intros h i Hall; simpl; [done|].
  assert (assign_one h i l = h) as ->.
  { unfold assign_one. specialize (Hall l (list_elem_of_here _ _)).
    by destruct (p_function_id (h l)). }
  apply IH. intros l' Hl'. apply Hall. by apply list_elem_of_further.
Qed.

Lemma function_ids_loop_lines (h : heap) (ps : list Packet) (acc : string) :
  (forall p, p ∈ ps -> p_function_id (h (packet p)) <> None) ->
  JavaText.function_ids_loop h ps acc =
  Ok (acc +:+ concat_all ((fun p => function_id_line h p (stored_id h p)) <$> ps)).
Proof.
  revert acc. induction ps as [|p ps IH]; intros acc Hall.
  - simpl. by rewrite append_nil_r.
  - cbn [JavaText.function_ids_loop]. unfold get_function_id at 1.
    pose proof (Hall p (list_elem_of_here _ _)) as Hp.
    destruct (p_function_id (h (packet p))) as [v|] eqn:Hv; [|done].
    cbn [mbind res_bind]. rewrite IH by (intros q Hq; apply Hall; by apply list_elem_of_further).
    cbn [fmap list_fmap concat_all foldr]. rewrite append_assoc.
    unfold function_id_line at 2, stored_id at 2. by rewrite Hv.
Qed.

(** After a Device has been constructed every one of its packets has a
    function id: [get_function_id] returns for each of them, and
    [get_java_function_id_definitions] returns one constant per packet,
    in declared order, and does not raise. *)
Theorem function_ids_defined (h h' : heap) (c : com_dict) (d : Device) :
  Device_init h c = (h', Ok d) ->
  (forall p, p ∈ all_packets d -> get_function_id h' p = Ok (stored_id h' p)) /\
  JavaText.get_java_function_id_definitions h' d =
    Ok (concat_all ((fun p => function_id_line h' p (stored_id h' p)) <$> all_packets d)).
Proof.
  intros Hd. pose proof Hd as (_ & _ & -> & ->)%Device_init_inv.
  assert (forall p, p ∈ all_packets (device_of h c) ->
            p_function_id (assign_ids h 0 (com_packets c) (packet p)) <> None) as Hdef.
  { intros p Hp. simpl in Hp. apply list_elem_of_fmap in Hp as (l & -> & Hl).
    by apply assign_ids_defined. }
  split.
  - intros p Hp. unfold get_function_id, stored_id.
    specialize (Hdef p Hp). by destruct (p_function_id _).
  - unfold JavaText.get_java_function_id_definitions. simpl.
    by rewrite function_ids_loop_lines.
Qed.

Lemma function_ids_defined_piezo :
  exists text,
    JavaText.get_java_function_id_definitions
      (fst (Device_init Samples.piezo_heap Samples.piezo_com))
      (device_of Samples.piezo_heap Samples.piezo_com) = Ok text.
Proof.
  destruct (function_ids_defined Samples.piezo_heap
              (fst (Device_init Samples.piezo_heap Samples.piezo_com))
              Samples.piezo_com
              (device_of Samples.piezo_heap Samples.piezo_com)) as [_ Htext].
  - reflexivity.
  - eexists. exact Htext.
Defined.

(** Before the construction the ids may be missing: the first constant
    cannot be emitted for the piezo speaker records as they are loaded. *)
Example function_ids_missing_before :
  JavaText.get_java_function_id_definitions Samples.piezo_heap
    (device_of Samples.piezo_heap Samples.piezo_com) = Raise (KeyError "function_id").
Proof. reflexivity. Qed.

(** Constructing the Device of a configuration a second time changes no
    record and gives the same Device. *)
Theorem Device_init_twice (h h' : heap) (c : com_dict) (d : Device) :
  Device_init h c = (h', Ok d) -> Device_init h' c = (h', Ok d).
Proof.
  intros Hd. pose proof Hd as (Hn & Ht & -> & ->)%Device_init_inv.
  pose proof (assign_ids_schema h 0 (com_packets c)) as Hs.
  rewrite Device_init_ok.
  - f_equal.
    + apply assign_ids_all_defined. intros l Hl. by apply assign_ids_defined.
    + f_equal. unfold device_of.
      rewrite (list_fmap_ext (packet_of (assign_ids h 0 (com_packets c))) (packet_of h))
        by (intros ? l _; by apply packet_of_schema).
      f_equal; apply filter_ext_bool; intros p; by apply valid_type_schema.
  - rewrite <- Hn. apply forallb_ext_bool. intros l. by apply packet_ok_schema.
  - rewrite <- Ht. apply forallb_ext_bool. intros l.
    rewrite (packet_of_schema h) by done. by apply valid_type_schema.
Qed.

Lemma Device_init_twice_piezo :
  Device_init (fst (Device_init Samples.piezo_heap Samples.piezo_com)) Samples.piezo_com =
  (fst (Device_init Samples.piezo_heap Samples.piezo_com),
   Ok (device_of Samples.piezo_heap Samples.piezo_com)).
Proof.
  apply (Device_init_twice Samples.piezo_heap). reflexivity.
Defined.

(** *** Which error a failing construction raises, and what it leaves *)

Lemma build_packets_first_bad (h : heap) (i : Z) (ps : list loc) (acc : list Packet)
    (k : nat) (l : loc) :
  ps !! k = Some l ->
  packet_ok (h l) = false ->
  (forall j l', (j < k)%nat -> ps !! j = Some l' -> packet_ok (h l') = true) ->
  exists e, Packet_init h l = Raise e /\
            build_packets h i ps acc = (assign_ids h i (take (S k) ps), Raise e).
Proof.
  revert h i acc k. induction ps as [|l0 ps IH]; intros h i acc k Hk Hbad Hbefore; [done|].
  pose proof (assign_one_schema h i l0) as Hs.
  cbn [build_packets].
  change (match p_function_id (h l0) with
          | Some _ => h
          | None => store h l0 (set_function_id (i + 1) (h l0))
          end) with (assign_one h i l0).
  destruct k as [|k]; simpl in Hk.
  - inversion Hk; subst l0.
    destruct (Packet_init_raise h l Hbad) as [msg Hr].
    exists (ValueError msg). split; [done|].
    rewrite (Packet_init_schema h (assign_one h i l)) by done. by rewrite Hr.
  - rewrite (Packet_init_ok (assign_one h i l0) l0).
    2:{ rewrite (packet_ok_schema h (assign_one h i l0)) by done. apply (Hbefore 0%nat); [lia | done]. }
    destruct (IH (assign_one h i l0) (i + 1) (acc ++ [packet_of (assign_one h i l0) l0]) k)
      as (e & He & Hb).
    + done.
    + by rewrite (packet_ok_schema h (assign_one h i l0)).
    + intros j l' Hj Hl'. rewrite (packet_ok_schema h (assign_one h i l0)) by done.
      apply (Hbefore (S j)); [lia | done].
    + exists e. split; [by rewrite <- (Packet_init_schema h (assign_one h i l0))|].
      by rewrite Hb.
Qed.

(** When the first record with a wrong name or direction is at position
    [k], constructing the Device raises what [Packet] raises for that
    record.  The records up to and including it have been gone through: the
    failing record has a function id afterwards, and the records that occur
    only behind it are as they were. *)
Theorem Device_init_first_error (h : heap) (c : com_dict) (k : nat) (l : loc) :
  com_packets c !! k = Some l ->
  packet_ok (h l) = false ->
  (forall j l', (j < k)%nat -> com_packets c !! j = Some l' -> packet_ok (h l') = true) ->
  exists e,
    Packet_init h l = Raise e /\
    snd (Device_init h c) = Raise e /\
    p_function_id (fst (Device_init h c) l) <> None /\
    (forall l', l' ∉ take (S k) (com_packets c) -> fst (Device_init h c) l' = h l').
Proof.
  intros Hk Hbad Hbefore.
  destruct (build_packets_first_bad h 0 (com_packets c) [] k l Hk Hbad Hbefore)
    as (e & He & Hb).
  exists e. unfold Device_init. rewrite Hb. simpl. split; [done|]. split; [done|]. split.
  - apply assign_ids_defined. apply elem_of_take. exists k. split; [done | lia].
  - intros l' Hl'. by apply assign_ids_other.
Qed.

Lemma sort_packets_first_bad (h : heap) (ps fs cs : list Packet) (k : nat) (p : Packet) :
  ps !! k = Some p ->
  valid_type h p = false ->
  (forall j q, (j < k)%nat -> ps !! j = Some q -> valid_type h q = true) ->
  sort_packets h ps fs cs = Raise (ValueError ("Invalid packet type " +:+ get_type h p)).
Proof.
  revert fs cs k. induction ps as [|p0 ps IH]; intros fs cs k Hk Hbad Hbefore; [done|].
  cbn [sort_packets]. destruct k as [|k]; simpl in Hk.
  - inversion Hk; subst p0. unfold valid_type, is_function, is_callback in Hbad.
    apply orb_false_iff in Hbad as [-> ->]. done.
  - pose proof (Hbefore 0%nat p0 ltac:(lia) eq_refl) as Hp0.
    assert (forall j q, (j < k)%nat -> ps !! j = Some q -> valid_type h q = true) as Hb'.
    { intros j q Hj Hq. apply (Hbefore (S j)); [lia | done]. }
    unfold valid_type, is_function, is_callback in Hp0.
    destruct (String.eqb (get_type h p0) "function"); [by eapply IH|].
    destruct (String.eqb (get_type h p0) "callback"); [by eapply IH | done].
Qed.

(** The kinds are looked at only after all records have been gone
    through: when all names and directions are right and the first record
    of a wrong kind is at position [k], the construction raises the
    [ValueError] for that kind, and every record of the configuration has a
    function id by then. *)
Theorem Device_init_kind_error (h : heap) (c : com_dict) (k : nat) (l : loc) :
  names_and_directions_ok h c = true ->
  com_packets c !! k = Some l ->
  p_type (h l) <> "function" -> p_type (h l) <> "callback" ->
  (forall j l', (j < k)%nat -> com_packets c !! j = Some l' ->
     p_type (h l') = "function" \/ p_type (h l') = "callback") ->
  snd (Device_init h c) = Raise (ValueError ("Invalid packet type " +:+ p_type (h l))) /\
  (forall l', l' ∈ com_packets c -> p_function_id (fst (Device_init h c) l') <> None).
Proof.
  intros Hn Hk Hf Hc Hbefore. unfold Device_init.
  rewrite build_packets_ok by done. simpl.
  pose proof (assign_ids_schema h 0 (com_packets c)) as Hs.
  rewrite (sort_packets_first_bad _ _ _ _ k (packet_of h l)).
  - simpl. split.
    + unfold get_type. simpl. by destruct (Hs l) as (-> & _).
    + intros l' Hl'. by apply assign_ids_defined.
  - by apply list_lookup_fmap_Some_2.
  - destruct (valid_type_schema h _ (packet_of h l) Hs) as (_ & _ & ->).
    apply valid_type_false. done.
  - intros j q Hj Hq. apply list_lookup_fmap_Some in Hq as (l' & -> & Hl').
    destruct (valid_type_schema h _ (packet_of h l') Hs) as (_ & _ & ->).
    unfold valid_type, is_function, is_callback, get_type. simpl.
    destruct (Hbefore j l' Hj Hl') as [-> | ->]; reflexivity.
Qed.

Lemma Device_init_first_error_misnamed :
  snd (Device_init Samples.misnamed_heap Samples.three_com) =
    Raise (ValueError "Name mismatch: SetMode != set_modus") /\
  p_function_id (fst (Device_init Samples.misnamed_heap Samples.three_com) 1%nat) <> None /\
  fst (Device_init Samples.misnamed_heap Samples.three_com) 2%nat = Samples.morse_code.
Proof.
  destruct (Device_init_first_error Samples.misnamed_heap Samples.three_com 1%nat 1%nat)
    as (e & He & Hsnd & Hid & Hrest).
  - reflexivity.
  - reflexivity.
  - intros [|j] l' Hj Hl'; [|lia]. inversion Hl'. reflexivity.
  - split; [|split].
    + rewrite Hsnd. vm_compute in He. by inversion He.
    + exact Hid.
    + apply Hrest. simpl. not_listed.
Defined.

Lemma Device_init_kind_error_event :
  snd (Device_init Samples.unknown_kind_heap Samples.three_com) =
    Raise (ValueError "Invalid packet type event") /\
  p_function_id (fst (Device_init Samples.unknown_kind_heap Samples.three_com) 2%nat) <> None.
Proof.
  destruct (Device_init_kind_error Samples.unknown_kind_heap Samples.three_com 1%nat 1%nat)
    as [Hsnd Hids].
  - reflexivity.
  - reflexivity.
  - simpl. discriminate.
  - simpl. discriminate.
  - intros [|j] l' Hj Hl'; [|lia]. inversion Hl'. by left.
  - split; [exact Hsnd|]. apply Hids. simpl. not_listed.
Defined.

(** *** What generate does to the configurations *)

Lemma list_remove_subset (x y : string) (l l' : list string) :
  list_remove x l = Ok l' -> y ∈ l' -> y ∈ l.
Proof.
  revert l'. induction l as [|z l IH]; intros l' Hr Hy; simpl in Hr; [done|].
  destruct (String.eqb z x).
  - inversion Hr; subst. by apply list_elem_of_further.
  - destruct (list_remove x l) as [r|e] eqn:Hrec; simpl in Hr; [|done].
    inversion Hr; subst. apply elem_of_cons in Hy as [->|Hy].
    + apply list_elem_of_here.
    + apply list_elem_of_further. by eapply IH.
Qed.

Lemma list_remove_absent (x : string) (l : list string) :
  x ∉ l -> exists e, list_remove x l = Raise e.
Proof.
  induction l as [|z l IH]; intros Hx; simpl; [eauto|].
  apply not_elem_of_cons in Hx as [Hne Hx].
  destruct (String.eqb_spec z x) as [->|_]; [done|].
  destruct (IH Hx) as [e ->]. simpl. eauto.
Qed.

Section GenerateEffects.

Variable make_files : string -> world -> world * option exn.

(** The callback leaves the [com] objects of the config modules as they
    are. *)
Hypothesis make_files_modules :
  forall name w, w_modules (fst (make_files name w)) = w_modules w.

Lemma run_configs_track (cp : list loc) (configs : list string) (w : world)
    (name : string) (c : com_dict) :
  w_modules w !! name = Some c ->
  w_modules (fst (run_configs make_files cp configs w)) !! name = Some c \/
  (com_common_included c = false /\
   (exists config, config ∈ configs /\ is_brick_config config = true /\
                   Py.drop_last 3 config = name) /\
   w_modules (fst (run_configs make_files cp configs w)) !! name =
   Some (include_common cp c)).
Proof.
  revert w. induction configs as [|config rest IH]; intros w Hc; simpl; [by left|].
  destruct (Py.endswith "_config.py" config) eqn:Hend.
  2:{ destruct (IH w Hc) as [Hsame|(Hm & (cf & Hin & Hb & Hname) & Hl)]; [by left|].
      right. split; [done|]. split; [|done].
      exists cf. split; [by apply list_elem_of_further | done]. }
  destruct (w_modules w !! Py.drop_last 3 config) as [c0|] eqn:Hc0; [|by left].
  set (w1 := if (Py.contains "brick_" config && negb (com_common_included c0))%bool
             then set_module (Py.drop_last 3 config) (include_common cp c0) w else w).
  pose proof (make_files_modules (Py.drop_last 3 config) w1) as Hmf.
  assert (w_modules w1 !! name = Some c \/
          (com_common_included c = false /\
           is_brick_config config = true /\ Py.drop_last 3 config = name /\
           w_modules w1 !! name = Some (include_common cp c)))
    as [Hw1|(Hm & Hb & Hname & Hw1)].
  { subst w1. destruct (Py.contains "brick_" config && negb (com_common_included c0))%bool
      eqn:Hcond; [|by left].
    simpl. destruct (decide (Py.drop_last 3 config = name)) as [Heq|Hne].
    - rewrite Heq, Hc in Hc0. inversion Hc0; subst c0. right.
      apply andb_prop in Hcond as [Hbrick Hcond]. apply negb_true_iff in Hcond.
      split; [done|]. split; [unfold is_brick_config; by rewrite Hend, Hbrick|].
      split; [done|]. rewrite Heq. apply lookup_insert_eq.
    - left. by rewrite lookup_insert_ne. }
  - destruct (make_files (Py.drop_last 3 config) w1) as [w2 [e|]]; simpl in *.
    + left. by rewrite Hmf.
    + destruct (IH w2) as [Hsame|(Hm & (cf & Hin & Hb & Hname) & Hl)];
        [by rewrite Hmf | by left |].
      right. split; [done|]. split; [|done].
      exists cf. split; [by apply list_elem_of_further | done].
  - right. split; [done|]. split.
    { exists config. split; [apply list_elem_of_here | done]. }
    destruct (make_files (Py.drop_last 3 config) w1) as [w2 [e|]]; simpl in *.
    + by rewrite Hmf.
    + apply (run_configs_keeps_merged make_files make_files_modules);
        [by rewrite Hmf | done].
Qed.

(** Whatever the listing is and however the run ends, [generate] only
    ever appends to a packet list: every module's [com] keeps its name, its
    category and its declared packets at the front, and a [com] is changed
    at all only if it had no marker and the listing has a brick config for
    its module. *)
Theorem generate_keeps_declared_packets (configs : list string) (w : world)
    (name : string) (c : com_dict) :
  w_modules w !! name = Some c ->
  exists c',
    w_modules (fst (generate make_files configs w)) !! name = Some c' /\
    com_name c' = com_name c /\ com_category c' = com_category c /\
    (exists extra, com_packets c' = com_packets c ++ extra) /\
    (c' <> c ->
     com_common_included c = false /\
     exists config, config ∈ configs /\ is_brick_config config = true /\
                    Py.drop_last 3 config = name).
Proof.
  intros Hc. unfold generate.
  assert (forall y, y ∈ fst (load_common configs w) -> y ∈ configs) as Hsub.
  { unfold load_common. intros y.
    destruct (list_remove "brick_commonconfig.py" configs) as [configs'|] eqn:Hr; [|done].
    destruct (w_common_packets w); simpl; by apply (list_remove_subset _ _ _ _ Hr). }
  destruct (load_common configs w) as [configs' cp]. simpl in Hsub.
  destruct (run_configs_track cp configs' w name c Hc)
    as [Hsame|(Hm & (cf & Hin & Hb & Hname) & Hl)].
  - exists c. split; [done|]. split; [done|]. split; [done|]. split; [|done].
    exists []. by rewrite app_nil_r.
  - exists (include_common cp c). split; [done|]. split; [done|]. split; [done|].
    split; [by exists cp|]. intros _. split; [done|]. exists cf. auto.
Qed.

(** When the listing has no [brick_commonconfig.py], or that module
    cannot be imported, [generate] goes on with no common packets: no packet
    list is changed. *)
Theorem generate_without_common (configs : list string) (w : world)
    (name : string) (c : com_dict) :
  "brick_commonconfig.py" ∉ configs \/ w_common_packets w = None ->
  w_modules w !! name = Some c ->
  exists c',
    w_modules (fst (generate make_files configs w)) !! name = Some c' /\
    com_packets c' = com_packets c.
Proof.
  intros Hno Hc. unfold generate.
  assert (snd (load_common configs w) = []) as Hcp.
  { unfold load_common. destruct Hno as [Habs|Hnone].
    - by destruct (list_remove_absent _ _ Habs) as [e ->].
    - destruct (list_remove "brick_commonconfig.py" configs); [|done]. by rewrite Hnone. }
  destruct (load_common configs w) as [configs' cp]. simpl in Hcp. subst cp.
  destruct (run_configs_track [] configs' w name c Hc) as [Hsame|(_ & _ & Hl)].
  - by exists c.
  - exists (include_common [] c). split; [done|]. simpl. by rewrite app_nil_r.
Qed.

End GenerateEffects.

Lemma generate_keeps_declared_packets_piezo :
  exists c' extra,
    w_modules (fst (generate make_files_device Samples.listing Samples.brick_world))
      !! "bricklet_piezo_speaker_config" = Some c' /\
    com_packets c' = [0; 1; 2; 3]%nat ++ extra.
Proof.
  destruct (generate_keeps_declared_packets make_files_device make_files_device_modules
              Samples.listing Samples.brick_world "bricklet_piezo_speaker_config"
              Samples.piezo_com) as (c' & Hc' & _ & _ & (extra & Hextra) & _).
  - vm_compute. reflexivity.
  - exists c', extra. split; [exact Hc' | exact Hextra].
Defined.

Lemma generate_without_common_master :
  exists c',
    w_modules (fst (generate make_files_device Samples.listing_without_common
                      Samples.brick_world)) !! "brick_master_config" = Some c' /\
    com_packets c' = [10%nat].
Proof.
  destruct (generate_without_common make_files_device make_files_device_modules
              Samples.listing_without_common Samples.brick_world "brick_master_config"
              Samples.master_com) as (c' & Hc' & Hp).
  - left. unfold Samples.listing_without_common. not_listed.
  - vm_compute. reflexivity.
  - exists c'. split; [exact Hc' | exact Hp].
Defined.

(** *** Response statements *)

Lemma bbget_element_bbret (J : Java.JavaElement) (with_obj : bool) (e : element) :
  snd (Java.bbget_element with_obj e) = Java.get_headless_camel_case_name e.
Proof.
  unfold Java.bbget_element.
  repeat (destruct (String.eqb (el_type e) _); [reflexivity|]). reflexivity.
Qed.

Lemma bbgets_loop_last (J : Java.JavaElement) (with_obj : bool) (es : list element)
    (bbgets : string) (bbret : option string) :
  Java.bbgets_loop with_obj es bbgets bbret =
  (bbgets +:+ concat_all ((fun e => fst (Java.bbget_element with_obj e)) <$> es),
   match last es with
   | Some e => Some (Java.get_headless_camel_case_name e)
   | None => bbret
   end).
Proof.
  revert bbgets bbret. induction es as [|e es IH]; intros bbgets bbret.
  - simpl. by rewrite append_nil_r.
  - cbn [Java.bbgets_loop].
    pose proof (bbget_element_bbret J with_obj e) as Hret.
    destruct (Java.bbget_element with_obj e) as [text name] eqn:He. simpl in Hret. subst name.
    rewrite IH. cbn [fmap list_fmap concat_all foldr]. rewrite He. simpl fst.
    rewrite append_assoc. apply f_equal2; [reflexivity|].
    destruct es as [|e' es]; [done|]. rewrite last_cons_cons.
    destruct (last (e' :: es)) eqn:Hlast; [done|]. by apply last_None in Hlast.
Qed.

Lemma get_java_bbgets_eq (J : Java.JavaElement) (p : Packet) (with_obj : bool) :
  Java.get_java_bbgets p with_obj =
  match last (out_elements p) with
  | None => Raise (NameError "bbret")
  | Some e =>
      Ok (concat_all ((fun e => fst (Java.bbget_element with_obj e)) <$> out_elements p),
          Java.get_headless_camel_case_name e)
  end.
Proof.
  unfold Java.get_java_bbgets. simpl. rewrite bbgets_loop_last.
  rewrite append_nil_l. by destruct (last (out_elements p)).
Qed.

(** [get_java_bbgets] raises a [NameError] exactly for a packet without
    out-elements; otherwise it returns the statements of the out-elements in
    their order together with the name of the last one. *)
Theorem get_java_bbgets_last (J : Java.JavaElement) (p : Packet) (with_obj : bool) :
  (Java.get_java_bbgets p with_obj = Raise (NameError "bbret") <-> out_elements p = []) /\
  (forall es e, out_elements p = es ++ [e] ->
     Java.get_java_bbgets p with_obj =
     Ok (concat_all ((fun e => fst (Java.bbget_element with_obj e)) <$> out_elements p),
         Java.get_headless_camel_case_name e)).
Proof.
  rewrite get_java_bbgets_eq. split.
  - destruct (last (out_elements p)) eqn:Hl.
    + split; [done|]. intros Hnil. by rewrite Hnil in Hl.
    + apply last_None in Hl. by split.
  - intros es e Hout. by rewrite Hout at 1; rewrite last_snoc.
Qed.

(** The response part of [get_java_methods] never raises: without
    out-elements it is the bare [sendRequest], with one out-element it
    returns that element, and with more it fills and returns the object
    [obj]; [get_java_bbgets] is only called when there is an out-element. *)
Theorem get_java_response_returns (J : Java.JavaElement) (K : JavaText.JavaPacket)
    (p : Packet) :
  JavaText.get_java_response p =
  Ok (match out_elements p with
      | [] => JavaText.method_noresponse
      | [e] =>
          JavaText.method_response (fst (Java.bbget_element false e))
                                   (Java.get_headless_camel_case_name e)
      | es =>
          JavaText.method_response
            (obj_declaration p +:+
             concat_all ((fun e => fst (Java.bbget_element true e)) <$> es))
            "obj"
      end).
Proof.
  unfold JavaText.get_java_response. cbn [get_elements String.eqb Ascii.eqb Bool.eqb].
  cbn [mbind res_bind]. rewrite !get_java_bbgets_eq.
  destruct (out_elements p) as [|e1 [|e2 es]].
  - reflexivity.
  - cbn [length Nat.eqb Nat.ltb Nat.leb last]. cbn [mbind res_bind fst snd].
    cbn [fmap list_fmap concat_all foldr]. by rewrite append_nil_r.
  - set (outs := e1 :: e2 :: es).
    assert (exists e, last outs = Some e) as [e ->].
    { subst outs. rewrite last_cons_cons. clear e1.
      revert e2. induction es as [|e3 es IH]; intros e2; [by exists e2|].
      rewrite last_cons_cons. apply IH. }
    subst outs. cbn [length Nat.eqb Nat.ltb Nat.leb]. cbn [mbind res_bind fst snd].
    reflexivity.
Qed.

(** *** Request statements of arrays and strings *)

Lemma replace_from_absent (old new s : string) :
  Py.contains old s = false -> Py.replace_from old new 0 s = s.
Proof.
  induction s as [|c s IH]; [done|].
  cbn [Py.contains]. intros [Hs Hc]%orb_false_iff.
  rewrite replace_from_cons, Hs. by rewrite IH.
Qed.

Lemma replace_paren_end (new s : string) :
  Py.contains ");" s = false ->
  Py.replace ");" new (s +:+ ");") = s +:+ new.
Proof.
  intros Hs. unfold Py.replace.
  destruct (replace_paren_app new s ");" eq_refl) as [-> _].
  rewrite replace_from_absent by done.
  change (Py.replace_from ");" new 0 ");") with (new +:+ EmptyString).
  by rewrite append_nil_r.
Qed.

(** For an element of cardinality above 1 that is not a bool, the
    request statement is the scalar statement with the name indexed: with
    [name[i]] inside the loop for an array, and with [name.charAt(i)] inside
    the loop and a try block for a string, provided the only [");"] of the
    scalar statement is its end. *)
Theorem bbput_element_array (J : Java.JavaElement) (e : element) :
  1 < el_cardinality e ->
  el_type e <> "bool" ->
  Py.contains ");" (put_prefix e) = false ->
  Java.bbput_element e =
  Java.loop (Java.str (el_cardinality e))
    (tab +:+
     (if String.eqb (el_type e) "string"
      then Java.string_loop (put_prefix e +:+ ".charAt(i));")
      else put_prefix e +:+ "[i]);")) +:+ nl.
Proof.
  intros Hc Hb Hp. unfold Java.bbput_element.
  apply String.eqb_neq in Hb as ->. apply Z.ltb_lt in Hc as ->. cbv iota.
  fold (put_cast e).
  assert (Java.bbput (Java.get_java_byte_buffer_method_suffix e) (put_cast e)
            (Java.get_headless_camel_case_name e) = put_prefix e +:+ ");") as ->.
  { unfold Java.bbput, put_prefix. by rewrite !append_assoc. }
  rewrite !replace_paren_end by done. reflexivity.
Qed.

Lemma bbput_element_array_data :
  @Java.bbput_element Samples.java_tables (Element "data" "uint8" 8 "in") =
  Java.loop "8" (tab +:+ tab +:+ tab +:+ "bb.put((byte)data[i]);") +:+ nl.
Proof.
  rewrite (bbput_element_array Samples.java_tables (Element "data" "uint8" 8 "in")).
  - reflexivity.
  - simpl. lia.
  - simpl. discriminate.
  - reflexivity.
Defined.

(** *** Shifting text to the right *)

Lemma replace_char (a : ascii) (new s : string) :
  Py.replace (String a EmptyString) new s = subst_char a new s.
Proof.
  unfold Py.replace. induction s as [|c s IH]; [done|].
  rewrite replace_from_cons.
  change (Py.startswith (String a EmptyString) (String c s)) with (Ascii.eqb a c && true)%bool.
  rewrite andb_true_r. simpl subst_char.
  change (String.length (String a EmptyString) - 1)%nat with 0%nat.
  by rewrite IH.
Qed.

Lemma subst_char_app (a : ascii) (new s t : string) :
  subst_char a new (s +:+ t) = subst_char a new s +:+ subst_char a new t.
Proof.
  induction s as [|c s IH]; [done|].
  rewrite append_cons. simpl. rewrite IH.
  destruct (Ascii.eqb a c); [by rewrite append_assoc | by rewrite append_cons].
Qed.

Lemma subst_char_absent (a : ascii) (new s : string) :
  all_chars (fun c => negb (Ascii.eqb a c)) s = true -> subst_char a new s = s.
Proof.
  induction s as [|c s IH]; [done|]. simpl.
  intros [Hc Hs]%andb_prop. apply negb_true_iff in Hc. rewrite Hc. by rewrite IH.
Qed.

Lemma repeat_char_add (c : ascii) (n m : nat) :
  PyStr.repeat_char c n +:+ PyStr.repeat_char c m = PyStr.repeat_char c (n + m).
Proof. induction n as [|n IH]; [done|]. simpl. by rewrite append_cons, IH. Qed.

Lemma subst_char_self (a : ascii) (s : string) :
  subst_char a (String a EmptyString) s = s.
Proof.
  induction s as [|c s IH]; [done|]. simpl. rewrite IH.
  destruct (Ascii.eqb_spec a c) as [<-|]; done.
Qed.

Lemma subst_char_twice (a : ascii) (x y s : string) :
  all_chars (fun c => negb (Ascii.eqb a c)) x = true ->
  subst_char a (String a y) (subst_char a (String a x) s) =
  subst_char a (String a (y +:+ x)) s.
Proof.
  intros Hx. induction s as [|c s IH]; [done|]. simpl.
  destruct (Ascii.eqb a c) eqn:Hc.
  + rewrite subst_char_app, IH. f_equal. simpl. rewrite Ascii.eqb_refl.
    rewrite subst_char_absent by done. by rewrite append_cons.
  + simpl. by rewrite Hc, IH.
Qed.

Lemma spaces_no_char (a : ascii) (n : nat) :
  Ascii.eqb a " " = false ->
  all_chars (fun c => negb (Ascii.eqb a c)) (PyStr.repeat_char " " n) = true.
Proof. intros Ha. induction n as [|n IH]; [done|]. simpl. by rewrite Ha. Qed.

(** Shifting by 0 changes nothing, and shifting by [n] and then by [m]
    is shifting by [n + m]: the spaces of the first shift stay behind the
    newline they belong to. *)
Theorem shift_right_add (text : string) (n m : nat) :
  CommonText.shift_right text 0 = text /\
  CommonText.shift_right (CommonText.shift_right text n) m =
  CommonText.shift_right text (n + m).
Proof.
  unfold CommonText.shift_right, nl. rewrite !replace_char.
  rewrite !append_cons, !append_nil_l. split.
  - apply subst_char_self.
  - rewrite subst_char_twice by (by apply spaces_no_char).
    rewrite repeat_char_add. do 3 f_equal. lia.
Qed.

(** *** Names *)

Lemma camel_case_to_space_from_spaces (copy : nat) (s : string) :
  subst_char " " EmptyString (CommonText.camel_case_to_space_from copy s) =
  subst_char " " EmptyString s.
Proof.
  revert copy. induction s as [|a s1 IH]; intros copy; [done|].
  cbn [CommonText.camel_case_to_space_from].
  destruct copy as [|k].
  - destruct s1 as [|b s2]; [done|].
    destruct (PyStr.is_upper a && PyStr.is_upper b && _)%bool.
    + cbn [subst_char]. change (Ascii.eqb " " " ") with true. cbv iota.
      rewrite append_nil_l, IH. reflexivity.
    + destruct (PyStr.is_lower a && PyStr.is_upper b)%bool.
      * cbn [subst_char]. change (Ascii.eqb " " " ") with true. cbv iota.
        rewrite append_nil_l, IH. reflexivity.
      * cbn [subst_char]. by rewrite IH.
  - cbn [subst_char]. by rewrite IH.
Qed.

Lemma contains_char_absent (a : ascii) (s : string) :
  Py.contains (String a EmptyString) s = false ->
  all_chars (fun c => negb (Ascii.eqb a c)) s = true.
Proof.
  induction s as [|c s IH]; [done|].
  cbn [Py.contains]. intros [Hc Hs]%orb_false_iff.
  change (Py.startswith (String a EmptyString) (String c s))
    with (Ascii.eqb a c && true)%bool in Hc.
  rewrite andb_true_r in Hc. simpl. rewrite Hc. by apply IH.
Qed.

(** [camel_case_to_space] only puts spaces in: taking all spaces out of
    its result gives the same as taking them out of the name, which is the
    name itself when it has none. *)
Theorem camel_case_to_space_only_adds_spaces (name : string) :
  Py.replace " " EmptyString (CommonText.camel_case_to_space name) =
  Py.replace " " EmptyString name /\
  (Py.contains " " name = false ->
   Py.replace " " EmptyString (CommonText.camel_case_to_space name) = name).
Proof.
  rewrite !replace_char. unfold CommonText.camel_case_to_space.
  rewrite camel_case_to_space_from_spaces. split; [done|].
  intros Hn. apply subst_char_absent. by apply contains_char_absent.
Qed.

Example camel_case_to_space_names :
  CommonText.camel_case_to_space "GetADCValue" = "Get ADC Value" /\
  CommonText.camel_case_to_space "LCD20x4" = "LCD20x4" /\
  CommonText.camel_case_to_space "PiezoSpeaker" = "Piezo Speaker".
Proof. repeat split. Qed.

Lemma split_underscore_cons (c : ascii) (s : string) :
  PyStr.split_from "_" 0 (String c s) =
  if Ascii.eqb "_" c then EmptyString :: PyStr.split_from "_" 0 s
  else match PyStr.split_from "_" 0 s with
       | part :: parts => String c part :: parts
       | [] => [String c EmptyString]
       end.
Proof.
  cbn [PyStr.split_from].
  change (Py.startswith "_" (String c s)) with (Ascii.eqb "_" c && true)%bool.
  rewrite andb_true_r. reflexivity.
Qed.

Lemma split_underscore_nonempty (s : string) : PyStr.split_from "_" 0 s <> [].
Proof.
  induction s as [|c s IH]; [done|]. rewrite split_underscore_cons.
  destruct (Ascii.eqb "_" c); [done|]. by destruct (PyStr.split_from "_" 0 s).
Qed.

Lemma append_parts_None (ret : string) (parts : list string) :
  CommonText.append_parts ret parts = None <-> EmptyString ∈ parts.
Proof.
  revert ret. induction parts as [|part parts IH]; intros ret; simpl.
  - split; [done|]. intros H. by apply elem_of_nil in H.
  - destruct part as [|c rest]; simpl.
    + split; [intros _; apply list_elem_of_here | done].
    + rewrite IH. rewrite elem_of_cons. split; [by right|]. by intros [?|?].
Qed.

Lemma split_underscore_head_empty (s : string) :
  hd EmptyString (PyStr.split_from "_" 0 s) = EmptyString <->
  s = EmptyString \/ Py.startswith "_" s = true.
Proof.
  destruct s as [|c s]; [by split; [left|]|].
  rewrite split_underscore_cons.
  change (Py.startswith "_" (String c s)) with (Ascii.eqb "_" c && true)%bool.
  rewrite andb_true_r. destruct (Ascii.eqb "_" c); simpl.
  - split; [by right | done].
  - destruct (PyStr.split_from "_" 0 s); simpl; split; try done; by intros [?|?].
Qed.

Lemma split_underscore_tail_empty (s : string) :
  EmptyString ∈ tl (PyStr.split_from "_" 0 s) <->
  exists pre post, s = pre +:+ "_" +:+ post /\
                   (post = EmptyString \/ Py.startswith "_" post = true).
Proof.
  induction s as [|c s IH].
  - simpl. split; [intros H; by apply elem_of_nil in H|].
    intros (pre & post & Heq & _). by destruct pre.
  - rewrite split_underscore_cons. destruct (Ascii.eqb_spec "_" c) as [<-|Hne].
    + simpl tl. pose proof (split_underscore_nonempty s) as Hnonempty.
      pose proof (split_underscore_head_empty s) as Hhead.
      destruct (PyStr.split_from "_" 0 s) as [|part parts] eqn:Hs; [done|].
      simpl in Hhead, IH. rewrite elem_of_cons. split.
      * intros [Hp|Hin].
        -- exists EmptyString, s. split; [done|]. apply Hhead. done.
        -- apply IH in Hin as (pre & post & -> & Hpost).
           exists (String "_" pre), post. by split.
      * intros (pre & post & Heq & Hpost). destruct pre as [|c' pre].
        -- rewrite append_nil_l, append_cons, append_nil_l in Heq.
           inversion Heq; subst post. left. symmetry. by apply Hhead.
        -- rewrite append_cons in Heq. inversion Heq; subst c' s.
           right. apply IH. exists pre, post. by split.
    + assert (tl (match PyStr.split_from "_" 0 s with
                  | part :: parts => String c part :: parts
                  | [] => [String c EmptyString]
                  end) = tl (PyStr.split_from "_" 0 s)) as ->.
      { by destruct (PyStr.split_from "_" 0 s). }
      rewrite IH. split.
      * intros (pre & post & -> & Hpost). exists (String c pre), post. by split.
      * intros (pre & post & Heq & Hpost). destruct pre as [|c' pre].
        -- rewrite append_nil_l, append_cons in Heq. inversion Heq. done.
        -- rewrite append_cons in Heq. inversion Heq; subst c' s.
           exists pre, post. by split.
Qed.

(** [underscore_to_headless_camel_case] raises its [IndexError] exactly
    for the names that have an underscore at the end or directly before
    another underscore. *)
Theorem underscore_to_headless_camel_case_fails (name : string) :
  CommonText.underscore_to_headless_camel_case name = None <->
  exists pre post, name = pre +:+ "_" +:+ post /\
                   (post = EmptyString \/ Py.startswith "_" post = true).
Proof.
  rewrite <- split_underscore_tail_empty.
  unfold CommonText.underscore_to_headless_camel_case.
  pose proof (split_underscore_nonempty name) as Hne.
  destruct (PyStr.split_from "_" 0 name) as [|first rest]; [done|].
  simpl tl. apply append_parts_None.
Qed.

Lemma lower_app (s t : string) : Py.lower (s +:+ t) = Py.lower s +:+ Py.lower t.
Proof. induction s as [|c s IH]; [done|]. rewrite append_cons. simpl. by rewrite IH. Qed.

Lemma lower_upper_ascii (c : ascii) : Py.lower_ascii (Py.upper_ascii c) = Py.lower_ascii c.
Proof. by destruct c as [[] [] [] [] [] [] [] []]. Qed.

Lemma lower_ascii_underscore (c : ascii) :
  Ascii.eqb "_" (Py.lower_ascii c) = Ascii.eqb "_" c.
Proof. by destruct c as [[] [] [] [] [] [] [] []]. Qed.

Lemma upper_ascii_underscore (c : ascii) :
  Ascii.eqb "_" (Py.upper_ascii c) = Ascii.eqb "_" c.
Proof. by destruct c as [[] [] [] [] [] [] [] []]. Qed.

Lemma all_chars_app (f : ascii -> bool) (s t : string) :
  all_chars f (s +:+ t) = (all_chars f s && all_chars f t)%bool.
Proof.
  induction s as [|c s IH]; [done|]. rewrite append_cons. simpl.
  by rewrite IH, andb_assoc.
Qed.

Lemma split_underscore_parts (s : string) :
  Forall (fun part => no_underscore part = true) (PyStr.split_from "_" 0 s).
Proof.
  induction s as [|c s IH]; [by constructor|].
  rewrite split_underscore_cons. destruct (Ascii.eqb "_" c) eqn:Hc.
  - by constructor.
  - destruct (PyStr.split_from "_" 0 s) as [|part parts].
    + constructor; [|done]. unfold no_underscore. cbn [all_chars]. by rewrite Hc.
    + inversion IH; subst. constructor; [|done].
      unfold no_underscore in *. cbn [all_chars]. by rewrite Hc.
Qed.

Lemma split_underscore_lower (s : string) :
  subst_char "_" EmptyString (Py.lower s) =
  concat_all (Py.lower <$> PyStr.split_from "_" 0 s).
Proof.
  induction s as [|c s IH]; [done|].
  rewrite split_underscore_cons. cbn [Py.lower subst_char].
  rewrite lower_ascii_underscore. destruct (Ascii.eqb "_" c).
  - by rewrite IH.
  - rewrite IH. pose proof (split_underscore_nonempty s) as Hne.
    by destruct (PyStr.split_from "_" 0 s).
Qed.

Lemma append_parts_lower (ret : string) (parts : list string) (r : string) :
  CommonText.append_parts ret parts = Some r ->
  Py.lower r = Py.lower ret +:+ concat_all (Py.lower <$> parts) /\
  (no_underscore ret = true ->
   Forall (fun part => no_underscore part = true) parts ->
   no_underscore r = true).
Proof.
  revert ret. induction parts as [|part parts IH]; intros ret Hr; simpl in Hr.
  - inversion Hr; subst. simpl. by rewrite append_nil_r.
  - destruct part as [|c rest]; [done|]. simpl in Hr.
    apply IH in Hr as [Hl Hu]. split.
    + rewrite Hl, lower_app. cbn [Py.lower fmap list_fmap concat_all foldr].
      rewrite lower_upper_ascii. by rewrite append_assoc.
    + intros Hret Hparts. inversion Hparts as [|? ? Hpart Hrest]; subst.
      apply Hu; [|done]. unfold no_underscore in *.
      rewrite all_chars_app, Hret. cbn [all_chars andb] in *.
      by rewrite upper_ascii_underscore.
Qed.

(** When [underscore_to_headless_camel_case] returns, its result has no
    underscore and is, apart from the case of letters, the name with the
    underscores taken out: lowercased it is what the casing check of
    [Packet] compares a display name with. *)
Theorem underscore_to_headless_camel_case_result (name r : string) :
  CommonText.underscore_to_headless_camel_case name = Some r ->
  no_underscore r = true /\
  Py.lower r = Py.replace "_" EmptyString (Py.lower name).
Proof.
  unfold CommonText.underscore_to_headless_camel_case. intros Hr.
  rewrite replace_char, split_underscore_lower.
  pose proof (split_underscore_parts name) as Hparts.
  destruct (PyStr.split_from "_" 0 name) as [|first rest]; [done|].
  inversion Hparts; subst.
  apply append_parts_lower in Hr as [Hl Hu]. split; [by apply Hu | done].
Qed.

Lemma underscore_to_headless_camel_case_result_morse :
  CommonText.underscore_to_headless_camel_case "morse_code_finished" =
    Some "morseCodeFinished" /\
  Py.lower "morseCodeFinished" = Py.replace "_" EmptyString "morse_code_finished".
Proof.
  split; [reflexivity|].
  apply (underscore_to_headless_camel_case_result "morse_code_finished" "morseCodeFinished").
  reflexivity.
Defined.

Lemma span_spec (f : ascii -> bool) (s : string) :
  s = fst (PyStr.span f s) +:+ snd (PyStr.span f s) /\
  all_chars f (fst (PyStr.span f s)) = true /\
  head_is f (snd (PyStr.span f s)) = false.
Proof.
  induction s as [|c s (IH1 & IH2 & IH3)]; [done|].
  cbn [PyStr.span]. destruct (f c) eqn:Hc; cbn [fst snd].
  - rewrite append_cons, <- IH1. cbn [all_chars]. by rewrite Hc, IH2.
  - rewrite append_nil_l. cbn [head_is all_chars]. done.
Qed.

Lemma span_build (f : ascii -> bool) (a r : string) :
  all_chars f a = true -> head_is f r = false -> PyStr.span f (a +:+ r) = (a, r).
Proof.
  intros Ha Hr. induction a as [|c a IH].
  - rewrite append_nil_l. destruct r as [|c r]; [done|].
    cbn [PyStr.span]. cbn [head_is] in Hr. by rewrite Hr.
  - cbn [all_chars] in Ha. apply andb_prop in Ha as [Hc Ha].
    rewrite append_cons. cbn [PyStr.span]. by rewrite Hc, IH.
Qed.

Lemma lower_lower (s : string) : Py.lower (Py.lower s) = Py.lower s.
Proof.
  induction s as [|c s IH]; [done|]. simpl. rewrite IH. f_equal.
  by destruct c as [[] [] [] [] [] [] [] []].
Qed.

Lemma lower_length (s : string) : String.length (Py.lower s) = String.length s.
Proof. induction s as [|c s IH]; [done|]. simpl. by rewrite IH. Qed.

Lemma lower_ascii_not_upper (c : ascii) :
  PyStr.is_upper c = true -> PyStr.is_upper (Py.lower_ascii c) = false.
Proof. by destruct c as [[] [] [] [] [] [] [] []]. Qed.

Lemma until_newline_all (s : string) : no_newline s = true -> CommonText.until_newline s = s.
Proof.
  unfold no_newline. induction s as [|c s IH]; [done|]. cbn [all_chars CommonText.until_newline].
  intros [Hc Hs]%andb_prop. apply negb_true_iff in Hc. rewrite Hc. by rewrite IH.
Qed.

Lemma headless_camel_case_some (name r : string) :
  CommonText.headless_camel_case name = Some r ->
  no_newline name = true ->
  Py.lower r = Py.lower name /\
  String.length r = String.length name /\
  CommonText.headless_camel_case r = None.
Proof.
  unfold CommonText.headless_camel_case.
  destruct (span_spec PyStr.is_upper name) as (Hname & Hupper & Hrest).
  destruct (PyStr.span PyStr.is_upper name) as [u rest]. cbn [fst snd] in *.
  intros Hr Hnl. destruct u as [|c u]; [done|].
  assert (r = Py.lower (String c u) +:+ CommonText.until_newline rest) as -> by congruence.
  clear Hr.
  assert (no_newline rest = true) as Hnlrest.
  { unfold no_newline in *. rewrite Hname, all_chars_app in Hnl.
    by apply andb_prop in Hnl as [_ ?]. }
  rewrite until_newline_all by done. split; [|split].
  - by rewrite Hname, !lower_app, lower_lower.
  - by rewrite Hname, !length_append, lower_length.
  - cbn [Py.lower]. rewrite append_cons. cbn [PyStr.span].
    cbn [all_chars] in Hupper. apply andb_prop in Hupper as [Hc _].
    by rewrite lower_ascii_not_upper.
Qed.

(** [get_headless_camel_case_name] raises its [AttributeError] exactly
    for a name that does not begin with a capital letter A to Z.  When it
    returns for a name of one line, the result differs from the name only
    in the case of letters and does not begin with a capital letter, so the
    method fails on its own result. *)
Theorem headless_camel_case_lowers_start (name : string) :
  (CommonText.headless_camel_case name = None <-> head_is PyStr.is_upper name = false) /\
  (forall r, CommonText.headless_camel_case name = Some r ->
     no_newline name = true ->
     Py.lower r = Py.lower name /\
     String.length r = String.length name /\
     CommonText.headless_camel_case r = None).
Proof.
  split; [|intros r; apply headless_camel_case_some].
  unfold CommonText.headless_camel_case.
  destruct (span_spec PyStr.is_upper name) as (Hname & Hupper & Hrest).
  destruct (PyStr.span PyStr.is_upper name) as [u rest]. cbn [fst snd] in *.
  destruct u as [|c u].
  - rewrite append_nil_l in Hname. subst rest. done.
  - rewrite Hname, append_cons. cbn [head_is all_chars] in *.
    apply andb_prop in Hupper as [-> _]. done.
Qed.

Example headless_camel_case_names :
  CommonText.headless_camel_case "SetMode" = Some "setMode" /\
  CommonText.headless_camel_case "LCD20x4" = Some "lcd20x4" /\
  CommonText.headless_camel_case "GetADCValue" = Some "getADCValue" /\
  CommonText.headless_camel_case "ADCValue" = Some "adcvalue" /\
  CommonText.headless_camel_case "setMode" = None.
Proof. repeat split. Qed.

(** For a constructed Packet whose display name is one line, the
    headless camel-case name, lowercased, is the underscore name with the
    underscores taken out. *)
Theorem Packet_headless_name_fits (h : heap) (l : loc) (p : Packet) (r : string) :
  Packet_init h l = Ok p ->
  CommonText.Packet_get_headless_camel_case_name h p = Some r ->
  no_newline (get_camel_case_name h p) = true ->
  Py.lower r = Py.replace "_" EmptyString (get_underscore_name h p).
Proof.
  intros Hp Hr Hnl. apply Packet_init_inv in Hp as [Hok ->].
  unfold CommonText.Packet_get_headless_camel_case_name in Hr.
  destruct (headless_camel_case_some (get_camel_case_name h (packet_of h l)) r Hr Hnl)
    as [Hl _].
  rewrite Hl. unfold get_camel_case_name, get_underscore_name. simpl.
  apply andb_prop in Hok as [Hn _]. unfold name_mismatch in Hn.
  rewrite negb_involutive in Hn. by apply String.eqb_eq in Hn.
Qed.

Lemma Packet_headless_name_fits_morse :
  CommonText.Packet_get_headless_camel_case_name Samples.piezo_heap
    (packet_of Samples.piezo_heap 1%nat) = Some "morseCode" /\
  Py.lower "morseCode" = Py.replace "_" EmptyString "morse_code".
Proof.
  split; [reflexivity|].
  apply (Packet_headless_name_fits Samples.piezo_heap 1%nat
           (packet_of Samples.piezo_heap 1%nat) "morseCode"); reflexivity.
Defined.

(** The casing check does not ask for a capital letter: a record named
    [('beep', 'beep')] gives a Packet, and its headless camel-case name
    cannot be taken. *)
Example Packet_headless_name_missing :
  let h : heap := fun _ =>
    {| p_type := "function"; p_name := ("beep", "beep"); p_elements := [];
       p_doc_tag := "bf"; p_function_id := None |} in
  Packet_init h 0%nat = Ok (packet_of h 0%nat) /\
  CommonText.Packet_get_headless_camel_case_name h (packet_of h 0%nat) = None.
Proof. split; reflexivity. Qed.

(** *** The version of the changelog *)

Lemma number_iff (s digits rest : string) :
  CommonText.number s = Some (digits, rest) <->
  is_number digits = true /\ s = digits +:+ rest /\ head_is PyStr.is_digit rest = false.
Proof.
  unfold CommonText.number, is_number. split.
  - destruct (span_spec PyStr.is_digit s) as (Hs & Hd & Hr).
    destruct (PyStr.span PyStr.is_digit s) as [d r]. cbn [fst snd] in *.
    destruct d as [|c d]; [done|]. intros Heq. inversion Heq; subst digits rest.
    by rewrite Hd.
  - intros (Hnum & -> & Hrest). apply andb_prop in Hnum as [Hne Hd].
    rewrite span_build by done. by destruct digits.
Qed.

Lemma expect_iff (c : ascii) (s rest : string) :
  CommonText.expect c s = Some rest <-> s = String c rest.
Proof.
  unfold CommonText.expect. destruct s as [|c' s]; [done|].
  destruct (Ascii.eqb_spec c' c) as [->|Hne]; split; intros Heq; inversion Heq; by subst.
Qed.

(** A line has a version exactly when it begins with three non-empty
    groups of digits, separated by dots and followed by a colon; the version
    is these three groups as they are written. *)
Theorem match_version_iff (line a b c : string) :
  CommonText.match_version line = Some (a, b, c) <->
  is_number a = true /\ is_number b = true /\ is_number c = true /\
  exists rest, line = a +:+ "." +:+ b +:+ "." +:+ c +:+ ":" +:+ rest.
Proof.
  unfold CommonText.match_version. split.
  - destruct (CommonText.number line) as [[major r1]|] eqn:H1; [|done]. simpl.
    destruct (CommonText.expect "." r1) as [r2|] eqn:H2; [|done]. simpl.
    destruct (CommonText.number r2) as [[minor r3]|] eqn:H3; [|done]. simpl.
    destruct (CommonText.expect "." r3) as [r4|] eqn:H4; [|done]. simpl.
    destruct (CommonText.number r4) as [[patch r5]|] eqn:H5; [|done]. simpl.
    destruct (CommonText.expect ":" r5) as [r6|] eqn:H6; [|done]. simpl.
    intros Heq. inversion Heq; subst major minor patch.
    apply number_iff in H1 as (Ha & -> & _). apply expect_iff in H2 as ->.
    apply number_iff in H3 as (Hb & -> & _). apply expect_iff in H4 as ->.
    apply number_iff in H5 as (Hc & -> & _). apply expect_iff in H6 as ->.
    repeat (split; [done|]). exists r6. by rewrite !append_cons, !append_nil_l.
  - intros (Ha & Hb & Hc & rest & ->).
    assert (CommonText.number (a +:+ "." +:+ b +:+ "." +:+ c +:+ ":" +:+ rest) =
            Some (a, "." +:+ b +:+ "." +:+ c +:+ ":" +:+ rest)) as ->
      by (by apply number_iff).
    cbn [mbind option_bind].
    assert (CommonText.expect "." ("." +:+ b +:+ "." +:+ c +:+ ":" +:+ rest) =
            Some (b +:+ "." +:+ c +:+ ":" +:+ rest)) as -> by (by apply expect_iff).
    cbn [mbind option_bind].
    assert (CommonText.number (b +:+ "." +:+ c +:+ ":" +:+ rest) =
            Some (b, "." +:+ c +:+ ":" +:+ rest)) as -> by (by apply number_iff).
    cbn [mbind option_bind].
    assert (CommonText.expect "." ("." +:+ c +:+ ":" +:+ rest) =
            Some (c +:+ ":" +:+ rest)) as -> by (by apply expect_iff).
    cbn [mbind option_bind].
    assert (CommonText.number (c +:+ ":" +:+ rest) = Some (c, ":" +:+ rest)) as ->
      by (by apply number_iff).
    cbn [mbind option_bind].
    assert (CommonText.expect ":" (":" +:+ rest) = Some rest) as ->
      by (by apply expect_iff).
    reflexivity.
Qed.

Lemma last_version_last (lines : list string) (acc : option (string * string * string)) :
  CommonText.last_version lines acc =
  match last (omap CommonText.match_version lines) with
  | Some v => Some v
  | None => acc
  end.
Proof.
  revert acc. induction lines as [|line lines IH]; intros acc; [done|].
  cbn [CommonText.last_version omap list_omap].
  destruct (CommonText.match_version line) as [v|]; rewrite IH; [|done].
  rewrite last_cons. by destruct (last (omap CommonText.match_version lines)).
Qed.

Lemma get_changelog_version_eq (changelog : string) :
  CommonText.get_changelog_version changelog =
  last (omap CommonText.match_version (PyStr.readlines changelog)).
Proof.
  unfold CommonText.get_changelog_version. rewrite last_version_last.
  by destruct (last _).
Qed.

(** [get_changelog_version] gives the version of the last line of the
    changelog that has one, whatever lines come after it, and [None]
    exactly when no line has a version. *)
Theorem get_changelog_version_last (changelog : string) :
  (CommonText.get_changelog_version changelog = None <->
   forall line, line ∈ PyStr.readlines changelog -> CommonText.match_version line = None) /\
  (forall before line after v,
     PyStr.readlines changelog = before ++ line :: after ->
     CommonText.match_version line = Some v ->
     (forall l, l ∈ after -> CommonText.match_version l = None) ->
     CommonText.get_changelog_version changelog = Some v).
Proof.
  rewrite get_changelog_version_eq. split.
  - rewrite last_None. induction (PyStr.readlines changelog) as [|l ls IH].
    + split; [|done]. intros _ line Hin. by apply elem_of_nil in Hin.
    + cbn [omap list_omap]. destruct (CommonText.match_version l) eqn:Hl.
      * split; [done|]. intros Hall. rewrite (Hall l) in Hl; [done|]. apply list_elem_of_here.
      * rewrite IH. split.
        -- intros Hall line [->|Hin]%elem_of_cons; [done | by apply Hall].
        -- intros Hall line Hin. apply Hall. by apply list_elem_of_further.
  - intros before line after v -> Hv Hafter.
    rewrite omap_app. cbn [omap list_omap]. rewrite Hv.
    assert (omap CommonText.match_version after = []) as ->.
    { induction after as [|l ls IH]; [done|]. cbn [omap list_omap].
      rewrite (Hafter l) by apply list_elem_of_here.
      apply IH. intros l' Hl'. apply Hafter. by apply list_elem_of_further. }
    by rewrite last_snoc.
Qed.

(** The Java import header can be made exactly when some line of the
    changelog has a version: it is then the header for the date of the run,
    not depending on the version, and otherwise unpacking the version
    raises a [TypeError]. *)
Theorem get_java_import_needs_version (now : datetime) (changelog : string) :
  ((exists line, line ∈ PyStr.readlines changelog /\
                 CommonText.match_version line <> None) ->
   Java.get_java_import now (CommonText.get_changelog_version changelog) =
   Ok (Java.include (gen_text_star (strftime_Ymd now)))) /\
  ((forall line, line ∈ PyStr.readlines changelog ->
                 CommonText.match_version line = None) ->
   exists msg,
     Java.get_java_import now (CommonText.get_changelog_version changelog) =
     Raise (TypeError msg)).
Proof.
  rewrite get_changelog_version_eq. unfold Java.get_java_import. split.
  - intros (line & Hin & Hv).
    destruct (last (omap CommonText.match_version (PyStr.readlines changelog))) eqn:Hl;
      [done|].
    apply last_None in Hl. exfalso.
    destruct (CommonText.match_version line) as [v|] eqn:Hline; [|done].
    assert (v ∈ omap CommonText.match_version (PyStr.readlines changelog)) as Hvin.
    { apply list_elem_of_omap. eauto. }
    rewrite Hl in Hvin. by apply elem_of_nil in Hvin.
  - intros Hall.
    assert (omap CommonText.match_version (PyStr.readlines changelog) = []) as ->.
    { induction (PyStr.readlines changelog) as [|l ls IH]; [done|]. cbn [omap list_omap].
      rewrite (Hall l) by apply list_elem_of_here.
      apply IH. intros l' Hl'. apply Hall. by apply list_elem_of_further. }
    simpl. eauto.
Qed.

Example get_changelog_version_example :
  CommonText.get_changelog_version
    ("2.0.0: Initial version" +:+ nl +:+ "2.0.1: Add callbacks" +:+ nl +:+
     "unreleased 2.0.2:" +:+ nl) = Some ("2", "0", "1").
Proof. reflexivity. Qed.

(** *** Comparing a generated file with its copy *)

Lemma compare_lines_left (i : nat) (l : list string) :
  CopyAll.compare_lines false i (List.map (fun x => (Some x, None)) l) = false <->
  (length l <= 3 - i)%nat.
Proof.
  revert i. induction l as [|x l IH]; intros i;
    cbn [List.map CopyAll.compare_lines CopyAll.line_differs orb length];
    [split; [lia | done]|].
  destruct (2 <? i)%nat eqn:Hi; cbn [andb].
  - apply Nat.ltb_lt in Hi. split; [done | lia].
  - apply Nat.ltb_ge in Hi. rewrite IH. lia.
Qed.

Lemma compare_lines_right (i : nat) (l : list string) :
  CopyAll.compare_lines false i (List.map (fun y => (None, Some y)) l) = false <->
  (length l <= 3 - i)%nat.
Proof.
  revert i. induction l as [|x l IH]; intros i;
    cbn [List.map CopyAll.compare_lines CopyAll.line_differs orb length];
    [split; [lia | done]|].
  destruct (2 <? i)%nat eqn:Hi; cbn [andb].
  - apply Nat.ltb_lt in Hi. split; [done | lia].
  - apply Nat.ltb_ge in Hi. rewrite IH. lia.
Qed.

Lemma drop_nil_iff {A : Type} (k : nat) (l : list A) : drop k l = [] <-> (length l <= k)%nat.
Proof.
  split.
  - intros Hd. apply (f_equal length) in Hd. rewrite length_drop in Hd. simpl in Hd. lia.
  - apply drop_ge.
Qed.

Lemma compare_lines_skip (i : nat) (l1 l2 : list string) :
  CopyAll.compare_lines false i (CopyAll.zip_longest l1 l2) = false <->
  drop (3 - i) l1 = drop (3 - i) l2.
Proof.
  revert l2 i. induction l1 as [|x l1 IH]; intros l2 i.
  - cbn [CopyAll.zip_longest]. rewrite compare_lines_right, drop_nil.
    rewrite <- drop_nil_iff. split; congruence.
  - destruct l2 as [|y l2].
    + change (CopyAll.zip_longest (x :: l1) [])
        with (List.map (fun x' : string => (Some x', @None string)) (x :: l1)).
      rewrite compare_lines_left, drop_nil.
      rewrite <- drop_nil_iff. done.
    + cbn [CopyAll.zip_longest CopyAll.compare_lines CopyAll.line_differs orb].
      destruct (2 <? i)%nat eqn:Hi.
      * apply Nat.ltb_lt in Hi. replace (3 - i)%nat with 0%nat by lia.
        specialize (IH l2 (i + 1)%nat). replace (3 - (i + 1))%nat with 0%nat in IH by lia.
        rewrite !drop_0 in *. cbn [andb].
        destruct (String.eqb_spec x y) as [->|Hne]; cbn [negb].
        -- rewrite IH. split; [congruence | by intros [=]].
        -- split; [done | by intros [=]].
      * apply Nat.ltb_ge in Hi. cbn [andb]. rewrite IH.
        replace (3 - i)%nat with (S (3 - (i + 1))) by lia. done.
Qed.

Lemma compare_lines_all (i : nat) (l1 l2 : list string) :
  CopyAll.compare_lines true i (CopyAll.zip_longest l1 l2) = false <-> l1 = l2.
Proof.
  revert l2 i. induction l1 as [|x l1 IH]; intros l2 i.
  - destruct l2 as [|y l2]; [done|]. simpl. done.
  - destruct l2 as [|y l2]; [simpl; done|].
    cbn [CopyAll.zip_longest CopyAll.compare_lines CopyAll.line_differs orb andb].
    destruct (String.eqb_spec x y) as [->|Hne]; cbn [negb].
    + rewrite IH. split; [congruence | by intros [=]].
    + split; [done | by intros [=]].
Qed.

Lemma files_compare (fs : string -> option string) (src_file dest_path f1 f2 : string) :
  fs src_file = Some f1 -> fs (dest_file_of src_file dest_path) = Some f2 ->
  CopyAll.files_are_not_the_same fs src_file dest_path = false <->
  drop (skipped_lines src_file) (PyStr.readlines f1) =
  drop (skipped_lines src_file) (PyStr.readlines f2).
Proof.
  intros H1 H2. unfold CopyAll.files_are_not_the_same, skipped_lines.
  fold (dest_file_of src_file dest_path). rewrite H1, H2.
  destruct (Py.contains "example" (Py.lower src_file)).
  - rewrite compare_lines_all. by rewrite !drop_0.
  - by rewrite compare_lines_skip.
Qed.

(** [files_are_not_the_same] says so when one of the two files cannot be
    opened; otherwise it answers no exactly when the two files have the same
    lines behind the first three, or, for a file with [example] in its path,
    the same lines throughout. *)
Theorem files_are_not_the_same_iff (fs : string -> option string)
    (src_file dest_path : string) :
  match fs src_file, fs (dest_file_of src_file dest_path) with
  | Some f1, Some f2 =>
      CopyAll.files_are_not_the_same fs src_file dest_path = false <->
      drop (skipped_lines src_file) (PyStr.readlines f1) =
      drop (skipped_lines src_file) (PyStr.readlines f2)
  | _, _ => CopyAll.files_are_not_the_same fs src_file dest_path = true
  end.
Proof.
  destruct (fs src_file) as [f1|] eqn:H1.
  - destruct (fs (dest_file_of src_file dest_path)) as [f2|] eqn:H2.
    + by apply files_compare.
    + unfold CopyAll.files_are_not_the_same. fold (dest_file_of src_file dest_path).
      by rewrite H1, H2.
  - unfold CopyAll.files_are_not_the_same. by rewrite H1.
Qed.

Lemma readlines_line (line s : string) :
  no_newline line = true ->
  PyStr.readlines ((line +:+ nl) +:+ s) = (line +:+ nl) :: PyStr.readlines s.
Proof.
  unfold no_newline. induction line as [|c line IH]; intros Hline.
  - reflexivity.
  - cbn [all_chars] in Hline. apply andb_prop in Hline as [Hc Hline].
    apply negb_true_iff in Hc.
    rewrite !append_cons. cbn [PyStr.readlines]. rewrite Hc.
    rewrite <- append_cons. by rewrite IH.
Qed.

Lemma no_newline_app (s t : string) :
  no_newline (s +:+ t) = (no_newline s && no_newline t)%bool.
Proof. apply all_chars_app. Qed.

Lemma no_newline_decimal (n : nat) : no_newline (decimal n) = true.
Proof.
  unfold decimal. generalize (Nat.to_uint n). intros d.
  induction d; [reflexivity | exact IHd ..].
Qed.

Lemma no_newline_zeros (k : nat) :
  no_newline (String.concat EmptyString (repeat "0" k)) = true.
Proof.
  induction k as [|k IH]; [reflexivity|].
  destruct k as [|k]; [reflexivity|].
  change (repeat "0" (S (S k))) with ("0" :: repeat "0" (S k)).
  change (repeat "0" (S k)) with ("0" :: repeat "0" k) in *.
  cbn [String.concat]. cbn [String.concat] in IH.
  rewrite append_nil_l. by rewrite no_newline_app, IH.
Qed.

Lemma no_newline_strftime (now : datetime) : no_newline (strftime_Ymd now) = true.
Proof.
  unfold strftime_Ymd, zero_pad.
  by rewrite !no_newline_app, !no_newline_zeros, !no_newline_decimal.
Qed.

Lemma readlines_gen_text_star (date rest : string) :
  no_newline date = true ->
  drop 3 (PyStr.readlines (gen_text_star date +:+ rest)) =
  drop 3 (PyStr.readlines (gen_text_star EmptyString +:+ rest)).
Proof.
  intros Hd. unfold gen_text_star.
  set (l0 := "/* ***********************************************************").
  set (l2 := " *                                                           *").
  set (pre := " * This file was automatically generated on ").
  set (post := ".      *").
  set (tail := " * If you have a bugfix for this file and want to commit it, *" +:+ _).
  assert (forall d, no_newline d = true ->
    drop 3 (PyStr.readlines ((l0 +:+ nl +:+ pre +:+ d +:+ post +:+ nl +:+ l2 +:+ nl +:+ tail)
                             +:+ rest)) = PyStr.readlines (tail +:+ rest)) as Hlines.
  { intros d Hn.
    replace ((l0 +:+ nl +:+ pre +:+ d +:+ post +:+ nl +:+ l2 +:+ nl +:+ tail) +:+ rest)
      with ((l0 +:+ nl) +:+ (((pre +:+ d +:+ post) +:+ nl) +:+ ((l2 +:+ nl) +:+ (tail +:+ rest))))
      by (by rewrite !append_assoc).
    rewrite !readlines_line; try done.
    all: by rewrite !no_newline_app, Hn. }
  by rewrite (Hlines date Hd), (Hlines EmptyString eq_refl).
Qed.

Lemma readlines_gen_text_rst (date rest : string) :
  no_newline date = true ->
  drop 3 (PyStr.readlines (gen_text_rst date +:+ rest)) =
  drop 3 (PyStr.readlines (gen_text_rst EmptyString +:+ rest)).
Proof.
  intros Hd. unfold gen_text_rst.
  set (l0 := "..").
  set (l1 := " #############################################################").
  set (pre := " # This file was automatically generated on ").
  set (post := ".      #").
  set (tail := " #                                                           #" +:+ _).
  assert (forall d, no_newline d = true ->
    drop 3 (PyStr.readlines ((l0 +:+ nl +:+ l1 +:+ nl +:+ pre +:+ d +:+ post +:+ nl +:+ tail)
                             +:+ rest)) = PyStr.readlines (tail +:+ rest)) as Hlines.
  { intros d Hn.
    replace ((l0 +:+ nl +:+ l1 +:+ nl +:+ pre +:+ d +:+ post +:+ nl +:+ tail) +:+ rest)
      with ((l0 +:+ nl) +:+ ((l1 +:+ nl) +:+ (((pre +:+ d +:+ post) +:+ nl) +:+ (tail +:+ rest))))
      by (by rewrite !append_assoc).
    rewrite !readlines_line; try done.
    all: by rewrite !no_newline_app, Hn. }
  by rewrite (Hlines date Hd), (Hlines EmptyString eq_refl).
Qed.

(** A file that starts with the header of the generator ([gen_text_star], as
    in every Java file, or [gen_text_rst], as in every documentation file)
    and its copy generated on another day are the same for
    [files_are_not_the_same], whatever the two dates are, when the path does
    not contain [example]: the date is on one of the three lines that are
    not compared. *)
Theorem generation_date_is_not_compared (fs : string -> option string)
    (src_file dest_path : string) (header : string -> string)
    (now1 now2 : datetime) (rest : string) :
  header = gen_text_star \/ header = gen_text_rst ->
  Py.contains "example" (Py.lower src_file) = false ->
  fs src_file = Some (header (strftime_Ymd now1) +:+ rest) ->
  fs (dest_file_of src_file dest_path) = Some (header (strftime_Ymd now2) +:+ rest) ->
  CopyAll.files_are_not_the_same fs src_file dest_path = false.
Proof.
  intros Hh Hex H1 H2. apply (files_compare _ _ _ _ _ H1 H2).
  unfold skipped_lines. rewrite Hex.
  destruct Hh as [-> | ->].
  - rewrite (readlines_gen_text_star (strftime_Ymd now1)) by apply no_newline_strftime.
    by rewrite (readlines_gen_text_star (strftime_Ymd now2)) by apply no_newline_strftime.
  - rewrite (readlines_gen_text_rst (strftime_Ymd now1)) by apply no_newline_strftime.
    by rewrite (readlines_gen_text_rst (strftime_Ymd now2)) by apply no_newline_strftime.
Qed.

Lemma generation_date_is_not_compared_piezo :
  Py.contains "example" (Py.lower "bindings/BrickletPiezoSpeaker.java") = false /\
  CopyAll.files_are_not_the_same Samples.generated_files
    "bindings/BrickletPiezoSpeaker.java" "/home/user/java" = false.
Proof.
  split; [reflexivity|].
  apply (generation_date_is_not_compared Samples.generated_files
           "bindings/BrickletPiezoSpeaker.java" "/home/user/java" gen_text_star
           (DateTime 2012 5 2) (DateTime 2012 5 1)
           (nl +:+ "package com.tinkerforge;" +:+ nl)).
  - by left.
  - reflexivity.
  - reflexivity.
  - reflexivity.
Defined.

Example files_are_not_the_same_examples :
  CopyAll.files_are_not_the_same Samples.generated_files
    "bindings/BrickletPiezoSpeaker.java" "/home/user/c" = true /\
  CopyAll.files_are_not_the_same
    (fun path => if String.eqb path "examples/Example.java"
                 then Some (gen_text_star "2012-05-02")
                 else Some (gen_text_star "2012-05-01"))
    "examples/Example.java" "/home/user/java" = true.
Proof. split; reflexivity. Qed.
